(** * PyGit: the object store, the staging index and the commit graph

    A shallow embedding of [main.py] (classes [ObjectStore], [Index] and
    [Repository]) and the properties of its specification.

    Conventions of the embedding.
    - A Python [str] is a list of characters with code points U+0000 to
      U+00FF ([list ascii]); [bytes] is a [list byte].  [str.encode()] and
      [bytes.decode()] are UTF-8, so characters from U+0080 on take two
      bytes.  Text with code points above U+00FF is outside the model:
      decoding it gives [Unmodelled].
    - The file system is a finite map from absolute paths (lists of
      components) to nodes, a node being a directory or a file with its
      bytes.  Symbolic links and [..] components are not interpreted.
    - A method that reads or writes files is a function of the file system
      returning an outcome (a value or the exception raised) together with
      the file system it leaves behind.
    - A [float] timestamp is a rational number; rounding is not modelled.
    - What the libraries give that the file system of the embedding does
      not determine is a parameter of the method that asks for it: the
      text [json.dump] writes and the value [json.load] reads, the result
      of [Path.stat()], the clock [time.time()] and the local rendering
      of a date.
    - The platform is POSIX: the separator is [/], text files are UTF-8
      and a line end is written as LF. *)

From Stdlib Require Import ZArith NArith List Ascii String Lia.
From Stdlib.Strings Require Import Byte.
From Stdlib Require Import QArith_base Permutation Sorted DecimalPos.
From stdpp Require Import gmap strings list.
Import ListNotations.

Local Open Scope list_scope.
Local Open Scope nat_scope.

(** ** Python values: text, bytes, exceptions *)

Abbreviation str := (list ascii).
Abbreviation bytes := (list byte).

(** A string literal of the source. *)
Definition lit (s : string) : str := list_ascii_of_string s.

(** The exceptions the modelled code can raise.  [PyGitError] carries its
    message.  [Unmodelled] marks an input the embedding does not cover; it
    is not a Python exception. *)
Inductive exn :=
  | PyGitError (msg : str)
  | FileNotFoundError
  | FileExistsError
  | NotADirectoryError
  | IsADirectoryError
  | PermissionError
  | UnicodeDecodeError
  | JSONDecodeError
  | KeyError
  | IndexError
  | TypeError
  | AttributeError
  | Unmodelled.

Inductive outcome (A : Type) :=
  | Ok (a : A)
  | Raise (e : exn).
Arguments Ok {A} a.
Arguments Raise {A} e.

Definition obind {A B} (x : outcome A) (k : A -> outcome B) : outcome B :=
  match x with
  | Ok a => k a
  | Raise e => Raise e
  end.

Declare Scope py_scope.
Delimit Scope py_scope with py.
Notation "'let*' x ':=' c 'in' k" := (obind c (fun x => k))
  (at level 10, x pattern, c at level 100, k at level 200) : py_scope.
Local Open Scope py_scope.

(** ** The operations of [str] and [bytes] the source uses *)

Module Py.

Definition chr (n : N) : ascii := ascii_of_N n.
Definition ord (c : ascii) : N := N_of_ascii c.

Definition char_eqb (a b : ascii) : bool := Ascii.eqb a b.

(** [s.startswith(p)] *)
Fixpoint startswith (s p : str) {struct p} : bool :=
  match p, s with
  | [], _ => true
  | _ :: _, [] => false
  | b :: p', a :: s' => char_eqb a b && startswith s' p'
  end.

(** [s[n:]] and [s[:n]] for a non-negative [n] *)
Definition slice_from {A} (n : nat) (s : list A) : list A := drop n s.
Definition slice_to {A} (n : nat) (s : list A) : list A := take n s.

(** [s.split(sep)] for a one-character separator: always at least one
    piece. *)
Fixpoint split (sep : ascii) (s : str) : list str :=
  match s with
  | [] => [[]]
  | c :: s' =>
      if char_eqb c sep then [] :: split sep s'
      else match split sep s' with
           | [] => [[c]]
           | w :: ws => (c :: w) :: ws
           end
  end.

(** [s.split(sep, maxsplit)]: at most [maxsplit] cuts, from the left. *)
Fixpoint splitn (sep : ascii) (maxsplit : nat) (s : str) : list str :=
  match maxsplit with
  | O => [s]
  | S m =>
      match s with
      | [] => [[]]
      | c :: s' =>
          if char_eqb c sep then [] :: splitn sep m s'
          else match splitn sep maxsplit s' with
               | [] => [[c]]
               | w :: ws => (c :: w) :: ws
               end
      end
  end.

(** [s.rsplit(sep, maxsplit)]: the same cuts taken from the right. *)
Definition rsplit (sep : ascii) (maxsplit : nat) (s : str) : list str :=
  rev (map (@rev ascii) (splitn sep maxsplit (rev s))).

(** [sep.join(pieces)] *)
Fixpoint join (sep : str) (pieces : list str) : str :=
  match pieces with
  | [] => []
  | [w] => w
  | w :: ws => w ++ sep ++ join sep ws
  end.

(** [c.isspace()] on U+0000..U+00FF: TAB LF VT FF CR, FS GS RS US, SPACE,
    NEL (U+0085) and NBSP (U+00A0). *)
Definition isspace (c : ascii) : bool :=
  let n := ord c in
  ((9 <=? n) && (n <=? 13) || (28 <=? n) && (n <=? 32)
   || (n =? 133) || (n =? 160))%N.

Fixpoint lstrip (s : str) : str :=
  match s with
  | [] => []
  | c :: s' => if isspace c then lstrip s' else s
  end.

Definition rstrip (s : str) : str := rev (lstrip (rev s)).

(** [s.strip()] *)
Definition strip (s : str) : str := rstrip (lstrip s).

(** [s.split()] without argument: the maximal runs of non-space
    characters. *)
Fixpoint split_ws_aux (cur : str) (s : str) : list str :=
  match s with
  | [] => match cur with [] => [] | _ => [rev cur] end
  | c :: s' =>
      if isspace c
      then match cur with
           | [] => split_ws_aux [] s'
           | _ => rev cur :: split_ws_aux [] s'
           end
      else split_ws_aux (c :: cur) s'
  end.

Definition split_ws (s : str) : list str := split_ws_aux [] s.

(** [l[i]] on a list, raising [IndexError] out of range. *)
Definition index {A} (l : list A) (i : nat) : outcome A :=
  match l !! i with
  | Some x => Ok x
  | None => Raise IndexError
  end.

(** [str(n)] for an [int]. *)
Fixpoint str_of_uint (d : Decimal.uint) : str :=
  match d with
  | Decimal.Nil => []
  | Decimal.D0 d => "0"%char :: str_of_uint d
  | Decimal.D1 d => "1"%char :: str_of_uint d
  | Decimal.D2 d => "2"%char :: str_of_uint d
  | Decimal.D3 d => "3"%char :: str_of_uint d
  | Decimal.D4 d => "4"%char :: str_of_uint d
  | Decimal.D5 d => "5"%char :: str_of_uint d
  | Decimal.D6 d => "6"%char :: str_of_uint d
  | Decimal.D7 d => "7"%char :: str_of_uint d
  | Decimal.D8 d => "8"%char :: str_of_uint d
  | Decimal.D9 d => "9"%char :: str_of_uint d
  end.

Definition str_of_nat (n : nat) : str := str_of_uint (Nat.to_uint n).

Definition str_of_int (z : Z) : str :=
  match z with
  | Z0 => lit "0"
  | Zpos p => str_of_uint (Pos.to_uint p)
  | Zneg p => "-"%char :: str_of_uint (Pos.to_uint p)
  end.

(** [bytes.find(b)]: the index of the first occurrence, [None] for -1. *)
Fixpoint find (b : byte) (s : bytes) : option nat :=
  match s with
  | [] => None
  | c :: s' => if Byte.eqb c b then Some O else option_map S (find b s')
  end.

End Py.

(** ** The UTF-8 codec and text files *)

Module Codec.

Definition byte_of_N (n : N) : byte :=
  match Byte.of_N n with
  | Some b => b
  | None => x00
  end.

(** UTF-8 of one character of U+0000..U+00FF: one byte below U+0080, two
    bytes from there on. *)
Definition encode_char (c : ascii) : bytes :=
  let n := Py.ord c in
  if (n <? 128)%N then [byte_of_N n]
  else [byte_of_N (192 + n / 64); byte_of_N (128 + n mod 64)].

(** [s.encode()] *)
Definition encode (s : str) : bytes := flat_map encode_char s.

Definition continuation (b : byte) : bool :=
  let n := Byte.to_N b in ((128 <=? n) && (n <=? 191))%N.

Definition between (lo hi : N) (b : byte) : bool :=
  let n := Byte.to_N b in ((lo <=? n) && (n <=? hi))%N.

Definition low6 (b : byte) : N := (Byte.to_N b - 128)%N.

(** The strict UTF-8 decoder: shortest forms only, no surrogates, nothing
    above U+10FFFF.  It yields the code points. *)
Fixpoint decode_points (s : bytes) : outcome (list N) :=
  match s with
  | [] => Ok []
  | b1 :: s1 =>
      let n1 := Byte.to_N b1 in
      if (n1 <? 128)%N then
        let* r := decode_points s1 in Ok (n1 :: r)
      else if between 194 223 b1 then
        match s1 with
        | b2 :: s2 =>
            if continuation b2 then
              let* r := decode_points s2 in
              Ok (((n1 - 192) * 64 + low6 b2)%N :: r)
            else Raise UnicodeDecodeError
        | _ => Raise UnicodeDecodeError
        end
      else if between 224 239 b1 then
        match s1 with
        | b2 :: b3 :: s3 =>
            let second_ok :=
              if (n1 =? 224)%N then between 160 191 b2
              else if (n1 =? 237)%N then between 128 159 b2
              else continuation b2 in
            if second_ok && continuation b3 then
              let* r := decode_points s3 in
              Ok (((n1 - 224) * 4096 + low6 b2 * 64 + low6 b3)%N :: r)
            else Raise UnicodeDecodeError
        | _ => Raise UnicodeDecodeError
        end
      else if between 240 244 b1 then
        match s1 with
        | b2 :: b3 :: b4 :: s4 =>
            let second_ok :=
              if (n1 =? 240)%N then between 144 191 b2
              else if (n1 =? 244)%N then between 128 143 b2
              else continuation b2 in
            if second_ok && continuation b3 && continuation b4 then
              let* r := decode_points s4 in
              Ok (((n1 - 240) * 262144 + low6 b2 * 4096
                   + low6 b3 * 64 + low6 b4)%N :: r)
            else Raise UnicodeDecodeError
        | _ => Raise UnicodeDecodeError
        end
      else Raise UnicodeDecodeError
  end.

(** [b.decode()]: malformed input raises [UnicodeDecodeError]; well-formed
    text with a character above U+00FF is outside the model. *)
Definition decode (s : bytes) : outcome str :=
  let* points := decode_points s in
  if forallb (fun n => (n <? 256)%N) points
  then Ok (map Py.chr points)
  else Raise Unmodelled.

Definition CR : ascii := Py.chr 13.
Definition LF : ascii := Py.chr 10.

(** What reading in text mode does to line ends (universal newlines):
    CR LF and a lone CR both become LF. *)
Fixpoint universal_newlines (s : str) : str :=
  match s with
  | [] => []
  | c :: s' =>
      if Py.char_eqb c CR then
        LF :: match s' with
              | d :: s'' =>
                  if Py.char_eqb d LF then universal_newlines s''
                  else universal_newlines s'
              | [] => []
              end
      else c :: universal_newlines s'
  end.

End Codec.

(** ** [hashlib.sha1]

    SHA-1 as FIPS 180-4 defines it, on 32-bit words held in [N]. *)

Module Sha1.

Local Open Scope N_scope.

Definition mask32 (x : N) : N := N.land x 4294967295.
Definition add32 (a b : N) : N := mask32 (a + b).
Definition rotl (n x : N) : N :=
  mask32 (N.lor (N.shiftl x n) (N.shiftr x (32 - n))).
Definition not32 (x : N) : N := N.lxor x 4294967295.

(** The message followed by 0x80, zero bytes up to 56 modulo 64, and the
    bit length on eight bytes, most significant first. *)
Definition be_bytes (count : nat) (x : N) : list N :=
  map (fun i => N.land (N.shiftr x (8 * N.of_nat i)) 255)
      (rev (seq 0 count)).

Definition pad (msg : bytes) : list N :=
  let len := N.of_nat (length msg) in
  let zeros := N.to_nat ((119 - len mod 64) mod 64) in
  map Byte.to_N msg ++ [128] ++ repeat 0 zeros ++ be_bytes 8 (8 * len).

Fixpoint words_of (fuel : nat) (s : list N) : list N :=
  match fuel, s with
  | S fuel', a :: b :: c :: d :: s' =>
      (N.shiftl a 24 + N.shiftl b 16 + N.shiftl c 8 + d)
        :: words_of fuel' s'
  | _, _ => []
  end.

Fixpoint blocks_of (fuel : nat) (ws : list N) : list (list N) :=
  match fuel, ws with
  | S fuel', _ :: _ => firstn 16 ws :: blocks_of fuel' (skipn 16 ws)
  | _, _ => []
  end.

(** The message schedule, most recent word first while it is built. *)
Fixpoint extend (count : nat) (recent : list N) : list N :=
  match count with
  | O => recent
  | S count' =>
      let w := rotl 1 (N.lxor (N.lxor (nth 2 recent 0) (nth 7 recent 0))
                              (N.lxor (nth 13 recent 0) (nth 15 recent 0))) in
      extend count' (w :: recent)
  end.

Definition schedule (block : list N) : list N :=
  rev (extend 64 (rev block)).

Definition state : Type := N * N * N * N * N.

Definition round (st : state) (tw : nat * N) : state :=
  let '(a, b, c, d, e) := st in
  let '(t, w) := tw in
  let '(f, k) :=
    if (t <? 20)%nat then
      (N.lor (N.land b c) (N.land (not32 b) d), 1518500249)
    else if (t <? 40)%nat then
      (N.lxor (N.lxor b c) d, 1859775393)
    else if (t <? 60)%nat then
      (N.lor (N.lor (N.land b c) (N.land b d)) (N.land c d), 2400959708)
    else
      (N.lxor (N.lxor b c) d, 3395469782) in
  let temp := add32 (add32 (add32 (add32 (rotl 5 a) f) e) k) w in
  (temp, a, rotl 30 b, c, d).

Definition compress (h : state) (block : list N) : state :=
  let '(h0, h1, h2, h3, h4) := h in
  let '(a, b, c, d, e) :=
    fold_left round (combine (seq 0 80) (schedule block)) h in
  (add32 h0 a, add32 h1 b, add32 h2 c, add32 h3 d, add32 h4 e).

Definition initial : state :=
  (1732584193, 4023233417, 2562383102, 271733878, 3285377520).

Definition digest (msg : bytes) : state :=
  let padded := pad msg in
  let ws := words_of (length padded) padded in
  fold_left compress (blocks_of (length ws) ws) initial.

Definition hexdigit (n : N) : ascii :=
  match N.land n 15 with
  | 0 => "0" | 1 => "1" | 2 => "2" | 3 => "3" | 4 => "4" | 5 => "5"
  | 6 => "6" | 7 => "7" | 8 => "8" | 9 => "9" | 10 => "a" | 11 => "b"
  | 12 => "c" | 13 => "d" | 14 => "e" | _ => "f"
  end%char.

Definition hex8 (w : N) : str :=
  [hexdigit (N.shiftr w 28); hexdigit (N.shiftr w 24);
   hexdigit (N.shiftr w 20); hexdigit (N.shiftr w 16);
   hexdigit (N.shiftr w 12); hexdigit (N.shiftr w 8);
   hexdigit (N.shiftr w 4); hexdigit w].

(** [hashlib.sha1(msg).hexdigest()] *)
Definition hexdigest (msg : bytes) : str :=
  let '(h0, h1, h2, h3, h4) := digest msg in
  hex8 h0 ++ hex8 h1 ++ hex8 h2 ++ hex8 h3 ++ hex8 h4.

End Sha1.

(** ** [pathlib.Path] and [os.path] *)

Module Path.

(** An absolute path: its components, outermost first. *)
Abbreviation t := (list str).

Definition SEP : ascii := "/"%char.

(** The components of a path string: empty components and [.] are
    dropped, as [pathlib] does when it parses. *)
Definition parts (s : str) : list str :=
  filter (fun w => w <> [] /\ w <> lit ".") (Py.split SEP s).

(** [p / s]: an absolute [s] replaces [p]. *)
Definition div (p : Path.t) (s : str) : Path.t :=
  if Py.startswith s [SEP] then parts s else p ++ parts s.

(** [p.parent]; the root is its own parent. *)
Definition parent (p : Path.t) : Path.t := removelast p.

(** [str(p)] *)
Definition to_str (p : Path.t) : str :=
  match p with
  | [] => [SEP]
  | _ => flat_map (fun w => SEP :: w) p
  end.

(** [os.path.basename(s)]: what follows the last separator. *)
Definition basename (s : str) : str := List.last (Py.split SEP s) [].

(** [p.name]: the last component. *)
Definition name (p : t) : str := List.last p [].

End Path.

Infix "</>" := Path.div (at level 40, left associativity).

(** ** The file system *)

Inductive node :=
  | Dir
  | File (data : bytes).

Module Fs.

(** The node at a path; the root is always a directory. *)
Definition stat (fs : gmap Path.t node) (p : Path.t) : option node :=
  match p with
  | [] => Some Dir
  | _ => fs !! p
  end.

Definition exists_ (fs : gmap Path.t node) (p : Path.t) : bool :=
  match stat fs p with
  | Some _ => true
  | None => false
  end.

Definition is_dir (fs : gmap Path.t node) (p : Path.t) : bool :=
  match stat fs p with
  | Some Dir => true
  | _ => false
  end.

(** [os.mkdir(p)] *)
Definition os_mkdir (fs : gmap Path.t node) (p : Path.t)
  : outcome (gmap Path.t node) :=
  match stat fs p with
  | Some _ => Raise FileExistsError
  | None =>
      match stat fs (Path.parent p) with
      | Some Dir => Ok (<[p := Dir]> fs)
      | Some (File _) => Raise NotADirectoryError
      | None => Raise FileNotFoundError
      end
  end.

(** [p.mkdir(parents=True, exist_ok=True)], as [pathlib] writes it: try
    [os.mkdir]; when the parent is missing make it first and try again;
    on any other [OSError] be content if [p] is a directory. *)
Fixpoint mkdir_parents (fuel : nat) (fs : gmap Path.t node) (p : Path.t)
  : outcome (gmap Path.t node) :=
  match os_mkdir fs p with
  | Ok fs' => Ok fs'
  | Raise FileNotFoundError =>
      match fuel with
      | O => Raise FileNotFoundError
      | S fuel' =>
          let* fs1 := mkdir_parents fuel' fs (Path.parent p) in
          match os_mkdir fs1 p with
          | Ok fs2 => Ok fs2
          | Raise FileNotFoundError => Raise FileNotFoundError
          | Raise e => if is_dir fs1 p then Ok fs1 else Raise e
          end
      end
  | Raise e => if is_dir fs p then Ok fs else Raise e
  end.

Definition mkdir (fs : gmap Path.t node) (p : Path.t)
  : outcome (gmap Path.t node) :=
  mkdir_parents (length p) fs p.

(** [open(p, 'wb')] followed by [write(data)]: the file is created or
    replaced. *)
Definition write_bytes (fs : gmap Path.t node) (p : Path.t) (data : bytes)
  : outcome (gmap Path.t node) :=
  match stat fs p with
  | Some Dir => Raise IsADirectoryError
  | _ =>
      match stat fs (Path.parent p) with
      | Some Dir => Ok (<[p := File data]> fs)
      | Some (File _) => Raise NotADirectoryError
      | None => Raise FileNotFoundError
      end
  end.

(** [open(p, 'rb').read()] *)
Definition read_bytes (fs : gmap Path.t node) (p : Path.t) : outcome bytes :=
  match stat fs p with
  | Some (File data) => Ok data
  | Some Dir => Raise IsADirectoryError
  | None => Raise FileNotFoundError
  end.

(** [open(p, 'w')] followed by [write(text)] *)
Definition write_text (fs : gmap Path.t node) (p : Path.t) (text : str)
  : outcome (gmap Path.t node) :=
  write_bytes fs p (Codec.encode text).

(** [open(p, 'r').read()] *)
Definition read_text (fs : gmap Path.t node) (p : Path.t) : outcome str :=
  let* data := read_bytes fs p in
  let* text := Codec.decode data in
  Ok (Codec.universal_newlines text).

(** [p.is_file()] *)
Definition is_file (fs : gmap Path.t node) (p : Path.t) : bool :=
  match stat fs p with
  | Some (File _) => true
  | _ => false
  end.

(** The paths directly below [p]. *)
Definition children (fs : gmap Path.t node) (p : Path.t) : list Path.t :=
  filter (fun q => q <> [] /\ Path.parent q = p) (map fst (map_to_list fs)).

(** [p.iterdir()]: the entries of a directory, in no particular order. *)
Definition iterdir (fs : gmap Path.t node) (p : Path.t)
  : outcome (list Path.t) :=
  match stat fs p with
  | Some Dir => Ok (children fs p)
  | Some (File _) => Raise NotADirectoryError
  | None => Raise FileNotFoundError
  end.

End Fs.

(** ** Methods: state and exceptions

    A method takes the file system and returns what it returns or raises,
    with the file system as it leaves it. *)

Definition M (A : Type) : Type := gmap Path.t node -> outcome A * gmap Path.t node.

Definition ret {A} (a : A) : M A := fun fs => (Ok a, fs).
Definition raise {A} (e : exn) : M A := fun fs => (Raise e, fs).

Definition bind {A B} (m : M A) (k : A -> M B) : M B :=
  fun fs =>
    match m fs with
    | (Ok a, fs') => k a fs'
    | (Raise e, fs') => (Raise e, fs')
    end.

(** A step that only looks at the file system. *)
Definition inspect {A} (f : gmap Path.t node -> outcome A) : M A :=
  fun fs => (f fs, fs).

(** A step that changes the file system, or raises and leaves it. *)
Definition update (f : gmap Path.t node -> outcome (gmap Path.t node)) : M unit :=
  fun fs =>
    match f fs with
    | Ok fs' => (Ok tt, fs')
    | Raise e => (Raise e, fs)
    end.

Definition lift {A} (x : outcome A) : M A := fun fs => (x, fs).

Notation "'let!' x ':=' c 'in' k" := (bind c (fun x => k))
  (at level 10, x pattern, c at level 100, k at level 200) : py_scope.

Definition NUL : ascii := Py.chr 0.
Definition SP : ascii := " "%char.
Definition LF : ascii := Codec.LF.

Definition PYGIT_DIR : str := lit ".pygit".
Definition OBJECTS_DIR : str := lit "objects".
Definition REFS_DIR : str := lit "refs".
Definition HEADS_DIR : str := lit "heads".
Definition INDEX_FILE : str := lit "index".
Definition HEAD_FILE : str := lit "HEAD".
Definition CONFIG_FILE : str := lit "config".

(** ** class ObjectStore *)

Module ObjectStore.

Record t := { repo_path : Path.t }.

Definition objects_path (self : t) : Path.t :=
  repo_path self </> PYGIT_DIR </> OBJECTS_DIR.

Definition _get_object_path (self : t) (hash_str : str) : Path.t :=
  objects_path self </> Py.slice_to 2 hash_str </> Py.slice_from 2 hash_str.

Definition store_object (self : t) (content : bytes) (obj_type : str)
  : M str :=
  let header :=
    Codec.encode (obj_type ++ [SP] ++ Py.str_of_nat (length content) ++ [NUL]) in
  let full_content := header ++ content in
  let hash_str := Sha1.hexdigest full_content in
  let obj_path := _get_object_path self hash_str in
  let! _ := update (fun fs => Fs.mkdir fs (Path.parent obj_path)) in
  let! _ := update (fun fs => Fs.write_bytes fs obj_path full_content) in
  ret hash_str.

Definition get_object (self : t) (hash_str : str) : M (str * bytes) :=
  let obj_path := _get_object_path self hash_str in
  let! present := inspect (fun fs => Ok (Fs.exists_ fs obj_path)) in
  if negb present then
    raise (PyGitError (lit "Object " ++ hash_str ++ lit " not found"))
  else
    let! content := inspect (fun fs => Fs.read_bytes fs obj_path) in
    match Py.find x00 content with
    | None =>
        raise (PyGitError (lit "Invalid object format for " ++ hash_str))
    | Some null_index =>
        let! header := lift (Codec.decode (Py.slice_to null_index content)) in
        let obj_content := Py.slice_from (null_index + 1) content in
        let! obj_type := lift (Py.index (Py.split_ws header) 0) in
        ret (obj_type, obj_content)
    end.

End ObjectStore.

(** ** The dataclasses *)

Module FileEntry.
Record t := {
  path : str;
  hash : str;
  mode : str;
  size : Z;
  mtime : Q
}.
End FileEntry.

(** A loaded commit can lack its tree, author, committer or timestamp
    ([_load_commit] leaves [None] where the line is missing), so these
    fields are optional here as they are at run time. *)
Module CommitObject.
Record t := {
  tree : option str;
  parent : option str;
  author : option str;
  committer : option str;
  timestamp : option Q;
  message : str;
  hash : option str
}.
End CommitObject.

Module TreeEntry.
Record t := {
  mode : str;
  name : str;
  hash : str;
  type : str
}.
End TreeEntry.

(** ** Conversions and comparisons of the run time *)

Module Builtins.

(** [int(x)] for a float: truncation towards zero. *)
Definition int_of_float (x : Q) : Z := Z.quot (Qnum x) (Zpos (Qden x)).

(** [float(n)] for an int. *)
Definition float_of_int (z : Z) : Q := inject_Z z.

Definition digit_of (c : ascii) : option (Decimal.uint -> Decimal.uint) :=
  let n := Py.ord c in
  if (n =? 48)%N then Some Decimal.D0 else if (n =? 49)%N then Some Decimal.D1
  else if (n =? 50)%N then Some Decimal.D2 else if (n =? 51)%N then Some Decimal.D3
  else if (n =? 52)%N then Some Decimal.D4 else if (n =? 53)%N then Some Decimal.D5
  else if (n =? 54)%N then Some Decimal.D6 else if (n =? 55)%N then Some Decimal.D7
  else if (n =? 56)%N then Some Decimal.D8 else if (n =? 57)%N then Some Decimal.D9
  else None.

Fixpoint uint_of_str (s : str) : option Decimal.uint :=
  match s with
  | [] => Some Decimal.Nil
  | c :: s' =>
      match digit_of c, uint_of_str s' with
      | Some d, Some u => Some (d u)
      | _, _ => None
      end
  end.

(** [float(s)] for a string, on the literals [_serialize_commit] writes:
    an optional sign and decimal digits, white space around them allowed.
    The other literals Python accepts (fractions, exponents, [inf], [nan],
    digit separators) and the strings it rejects are outside the model. *)
Definition float_of_str (s : str) : outcome Q :=
  let body := Py.strip s in
  let '(negative, digits) :=
    match body with
    | c :: rest =>
        if Py.char_eqb c "-"%char then (true, rest)
        else if Py.char_eqb c "+"%char then (false, rest)
        else (false, body)
    | [] => (false, body)
    end in
  match digits, uint_of_str digits with
  | _ :: _, Some u =>
      let z := Z.of_uint u in
      Ok (float_of_int (if negative then - z else z)%Z)
  | _, _ => Raise Unmodelled
  end.

(** [bool(x)] for an [Optional[str]]: [None] and the empty string are
    false. *)
Definition truthy (x : option str) : bool :=
  match x with
  | Some (_ :: _) => true
  | _ => false
  end.

(** How an f-string renders an [Optional[str]]. *)
Definition format (x : option str) : str :=
  match x with
  | Some s => s
  | None => lit "None"
  end.

(** [a < b] on [str]: lexicographic on the code points. *)
Fixpoint str_compare (a b : str) : comparison :=
  match a, b with
  | [], [] => Eq
  | [], _ :: _ => Lt
  | _ :: _, [] => Gt
  | x :: a', y :: b' =>
      match N.compare (Py.ord x) (Py.ord y) with
      | Eq => str_compare a' b'
      | c => c
      end
  end.

Definition str_ltb (a b : str) : bool :=
  match str_compare a b with
  | Lt => true
  | _ => false
  end.

(** [l.sort(key=key)]: a stable sort; an element goes in front of the
    first one whose key is not smaller than its own. *)
Section Sort.
Context {A : Type} (key : A -> str).

Fixpoint insert_sorted (x : A) (l : list A) : list A :=
  match l with
  | [] => [x]
  | y :: l' =>
      if str_ltb (key y) (key x) then y :: insert_sorted x l'
      else x :: l
  end.

Fixpoint sort (l : list A) : list A :=
  match l with
  | [] => []
  | x :: l' => insert_sorted x (sort l')
  end.
End Sort.

(** A [dict] with [str] keys, in insertion order. *)
Abbreviation dict V := (list (str * V)).

(** [d.get(k)] *)
Fixpoint dict_get {V} (d : dict V) (k : str) : option V :=
  match d with
  | [] => None
  | (k', v) :: d' => if bool_decide (k' = k) then Some v else dict_get d' k
  end.

(** [k in d] *)
Definition dict_in {V} (k : str) (d : dict V) : bool :=
  match dict_get d k with
  | Some _ => true
  | None => false
  end.

(** [d[k] = v]: a key that is there keeps its place, a new one goes to
    the end. *)
Fixpoint dict_set {V} (d : dict V) (k : str) (v : V) : dict V :=
  match d with
  | [] => [(k, v)]
  | (k', v') :: d' =>
      if bool_decide (k' = k) then (k, v) :: d'
      else (k', v') :: dict_set d' k v
  end.

(** [del d[k]] for a key that is there. *)
Fixpoint dict_del {V} (d : dict V) (k : str) : dict V :=
  match d with
  | [] => []
  | (k', v') :: d' =>
      if bool_decide (k' = k) then d' else (k', v') :: dict_del d' k
  end.

(** [oct(n)] *)
Fixpoint oct_digits (fuel : nat) (n : N) (acc : str) : str :=
  match fuel with
  | O => acc
  | S fuel' =>
      let acc' := Py.chr (48 + N.modulo n 8) :: acc in
      if (n <? 8)%N then acc' else oct_digits fuel' (N.div n 8) acc'
  end.

Definition oct (z : Z) : str :=
  match z with
  | Z0 => lit "0o0"
  | Zpos p => lit "0o" ++ oct_digits (N.size_nat (Npos p)) (Npos p) []
  | Zneg p => lit "-0o" ++ oct_digits (N.size_nat (Npos p)) (Npos p) []
  end.

(** [s[-n:]] for a positive [n]: the last [n] characters, all of [s] when
    it is shorter. *)
Definition slice_last {A} (n : nat) (s : list A) : list A :=
  drop (length s - n) s.

(** A [for] loop whose body is a method step. *)
Fixpoint for_each {A} (l : list A) (body : A -> M unit) : M unit :=
  match l with
  | [] => ret tt
  | x :: l' => let! _ := body x in for_each l' body
  end.

End Builtins.

(** ** [json] values, as [json.load] returns them *)

#[warnings="-register-all"]
Inductive json :=
  | JNull
  | JBool (b : bool)
  | JInt (z : Z)
  | JFloat (q : Q)
  | JString (s : str)
  | JArray (items : list json)
  | JObject (members : list (str * json)).

(** [value[key]] with a [str] key: only a dict takes it. *)
Definition getitem (value : json) (key : string) : outcome json :=
  match value with
  | JObject members =>
      match Builtins.dict_get members (lit key) with
      | Some v => Ok v
      | None => Raise KeyError
      end
  | _ => Raise TypeError
  end.

(** How an f-string renders a value.  The [repr] of floats, lists and
    dicts is outside the model. *)
Definition format_value (value : json) : outcome str :=
  match value with
  | JString s => Ok s
  | JInt z => Ok (Py.str_of_int z)
  | JNull => Ok (lit "None")
  | JBool true => Ok (lit "True")
  | JBool false => Ok (lit "False")
  | _ => Raise Unmodelled
  end.

(** ** What [os.stat] reports

    The mode bits and the time of modification are not part of the file
    system of this embedding: the result of [Path.stat()] is handed to
    the methods that ask for it. *)

Record stat_result := {
  st_mode : Z;
  st_size : Z;
  st_mtime : Q
}.

(** ** class Index

    The index file enters through what reading it gives: it is absent, or
    [open] and [json.load] raise, or they return a value. *)

Module Index.

Inductive index_file :=
  | Absent
  | Present (read : outcome json).

Definition entries_t : Type := list (str * FileEntry.t).

Definition lookup_member (k : string) (members : list (str * json))
  : option json :=
  snd <$> List.find (fun kv => bool_decide (fst kv = lit k)) members.

Definition field_names : list str :=
  [lit "path"; lit "hash"; lit "mode"; lit "size"; lit "mtime"].

(** [FileEntry] called with the members of [entry_data] as keywords: the keywords must be exactly the five
    fields, else [TypeError].  Values not of the declared types are
    outside the model. *)
Definition FileEntry_of (entry_data : json) : outcome FileEntry.t :=
  match entry_data with
  | JObject members =>
      if forallb (fun kv => bool_decide (fst kv ∈ field_names)) members
         && forallb (fun k => bool_decide (k ∈ map fst members)) field_names
      then
        match lookup_member "path" members, lookup_member "hash" members,
              lookup_member "mode" members, lookup_member "size" members,
              lookup_member "mtime" members with
        | Some (JString p), Some (JString h), Some (JString m),
          Some (JInt sz), Some (JFloat mt) =>
            Ok {| FileEntry.path := p; FileEntry.hash := h;
                  FileEntry.mode := m; FileEntry.size := sz;
                  FileEntry.mtime := mt |}
        | Some (JString p), Some (JString h), Some (JString m),
          Some (JInt sz), Some (JInt mt) =>
            Ok {| FileEntry.path := p; FileEntry.hash := h;
                  FileEntry.mode := m; FileEntry.size := sz;
                  FileEntry.mtime := Builtins.float_of_int mt |}
        | _, _, _, _, _ => Raise Unmodelled
        end
      else Raise TypeError
  | _ => Raise TypeError
  end.

(** [data.items()]: only a dict has it. *)
Definition items (data : json) : outcome (list (str * json)) :=
  match data with
  | JObject members => Ok members
  | _ => Raise AttributeError
  end.

(** The dict comprehension of [load]. *)
Fixpoint comprehension (members : list (str * json)) : outcome entries_t :=
  match members with
  | [] => Ok []
  | (path, entry_data) :: rest =>
      let* entry := FileEntry_of entry_data in
      let* others := comprehension rest in
      Ok ((path, entry) :: others)
  end.

(** [except (json.JSONDecodeError, KeyError)] *)
Definition caught (e : exn) : bool :=
  match e with
  | JSONDecodeError | KeyError => true
  | _ => false
  end.

(** [load]: the new value of [self.entries]. *)
Definition load (file : index_file) (entries : entries_t) : outcome entries_t :=
  match file with
  | Absent => Ok entries
  | Present read =>
      let attempt :=
        let* data := read in
        let* members := items data in
        comprehension members in
      match attempt with
      | Ok loaded => Ok loaded
      | Raise e => if caught e then Ok [] else Raise e
      end
  end.

(** [__init__]: [self.entries = {}], then [self.load()]. *)
Definition __init__ (file : index_file) : outcome entries_t := load file [].

Record t := { repo_path : Path.t }.

Definition index_path (self : t) : Path.t :=
  repo_path self </> PYGIT_DIR </> INDEX_FILE.

(** What [load] finds at [index_path]; [json.load] is a parameter. *)
Definition read (json_load : str -> outcome json) (self : t)
    (fs : gmap Path.t node) : index_file :=
  if Fs.exists_ fs (index_path self) then
    Present (let* text := Fs.read_text fs (index_path self) in json_load text)
  else Absent.

(** [asdict(entry)] *)
Definition asdict (entry : FileEntry.t) : json :=
  JObject [(lit "path", JString (FileEntry.path entry));
           (lit "hash", JString (FileEntry.hash entry));
           (lit "mode", JString (FileEntry.mode entry));
           (lit "size", JInt (FileEntry.size entry));
           (lit "mtime", JFloat (FileEntry.mtime entry))].

(** The dict [save] hands to [json.dump]. *)
Definition dumped (entries : entries_t) : json :=
  JObject (map (fun '(path, entry) => (path, asdict entry)) entries).

(** [save]; the text [json.dump(..., indent=2)] writes for a value is a
    parameter, [json_dumps]. *)
Definition save (json_dumps : json -> str) (self : t) (entries : entries_t)
  : M unit :=
  let! _ := update (fun fs => Fs.mkdir fs (Path.parent (index_path self))) in
  update (fun fs =>
    Fs.write_text fs (index_path self) (json_dumps (dumped entries))).

(** The methods that change [self.entries] return what they leave in
    it, also when they raise. *)
Definition add_file (json_dumps : json -> str) (self : t)
    (file_path hash_str : str) (stat : stat_result) (entries : entries_t)
    (fs : gmap Path.t node)
  : outcome unit * entries_t * gmap Path.t node :=
  let full_path := repo_path self </> file_path in
  if negb (Fs.exists_ fs full_path) then
    (Raise (PyGitError (lit "File " ++ file_path ++ lit " does not exist")),
     entries, fs)
  else
    let entries' :=
      Builtins.dict_set entries file_path
        {| FileEntry.path := file_path;
           FileEntry.hash := hash_str;
           FileEntry.mode := Builtins.slice_last 3 (Builtins.oct (st_mode stat));
           FileEntry.size := st_size stat;
           FileEntry.mtime := st_mtime stat |} in
    let '(result, fs') := save json_dumps self entries' fs in
    (result, entries', fs').

Definition remove_file (json_dumps : json -> str) (self : t)
    (file_path : str) (entries : entries_t) (fs : gmap Path.t node)
  : outcome unit * entries_t * gmap Path.t node :=
  if Builtins.dict_in file_path entries then
    let entries' := Builtins.dict_del entries file_path in
    let '(result, fs') := save json_dumps self entries' fs in
    (result, entries', fs')
  else (Ok tt, entries, fs).

(** [get_staged_files]: a copy of the dict. *)
Definition get_staged_files (entries : entries_t) : entries_t := entries.

End Index.

(** ** class Repository *)

Module Repository.

Record t := { path : Path.t }.

Definition pygit_path (self : t) : Path.t := path self </> PYGIT_DIR.

Definition object_store (self : t) : ObjectStore.t :=
  {| ObjectStore.repo_path := path self |}.

Definition head_path (self : t) : Path.t := pygit_path self </> HEAD_FILE.

Definition branch_path (self : t) (branch_name : str) : Path.t :=
  pygit_path self </> REFS_DIR </> HEADS_DIR </> branch_name.

Definition is_repository (self : t) : M bool :=
  inspect (fun fs =>
    Ok (Fs.exists_ fs (pygit_path self) && Fs.is_dir fs (pygit_path self))).

Definition DQ : ascii := Py.chr 34.

(** What [json.dump(..., indent=2)] writes for the initial configuration. *)
Definition initial_config : str :=
  lit "{" ++ [LF]
  ++ lit "  " ++ [DQ] ++ lit "user" ++ [DQ] ++ lit ": {" ++ [LF]
  ++ lit "    " ++ [DQ] ++ lit "name" ++ [DQ] ++ lit ": "
  ++ [DQ] ++ lit "PyGit User" ++ [DQ] ++ lit "," ++ [LF]
  ++ lit "    " ++ [DQ] ++ lit "email" ++ [DQ] ++ lit ": "
  ++ [DQ] ++ lit "user@pygit.local" ++ [DQ] ++ [LF]
  ++ lit "  }" ++ [LF]
  ++ lit "}".

Definition init (self : t) : M str :=
  let! repo := is_repository self in
  if repo then
    ret (lit "Repository already exists at " ++ Path.to_str (path self))
  else
    let dirs_to_create :=
      [pygit_path self;
       pygit_path self </> OBJECTS_DIR;
       pygit_path self </> REFS_DIR;
       pygit_path self </> REFS_DIR </> HEADS_DIR] in
    let! _ := Builtins.for_each dirs_to_create
                (fun dir_path => update (fun fs => Fs.mkdir fs dir_path)) in
    let head_file := pygit_path self </> HEAD_FILE in
    let! _ := update (fun fs =>
                Fs.write_text fs head_file (lit "ref: refs/heads/main" ++ [LF])) in
    let config_file := pygit_path self </> CONFIG_FILE in
    let! _ := update (fun fs => Fs.write_text fs config_file initial_config) in
    ret (lit "Initialized empty PyGit repository in "
         ++ Path.to_str (pygit_path self)).

Definition not_a_repository : exn := PyGitError (lit "Not a PyGit repository").

Definition checkout (self : t) (branch_name : str) : M str :=
  let! repo := is_repository self in
  if negb repo then raise not_a_repository
  else
    let branch_path := branch_path self branch_name in
    let! present := inspect (fun fs => Ok (Fs.exists_ fs branch_path)) in
    if negb present then
      raise (PyGitError (lit "Branch " ++ branch_name ++ lit " does not exist"))
    else
      let head_path := pygit_path self </> HEAD_FILE in
      let! _ := update (fun fs =>
                  Fs.write_text fs head_path
                    (lit "ref: refs/heads/" ++ branch_name ++ [LF])) in
      ret (lit "Switched to branch '" ++ branch_name ++ lit "'").

Definition _get_head_commit (self : t) : M (option str) :=
  let head_path := pygit_path self </> HEAD_FILE in
  let! present := inspect (fun fs => Ok (Fs.exists_ fs head_path)) in
  if negb present then ret None
  else
    let! text := inspect (fun fs => Fs.read_text fs head_path) in
    let content := Py.strip text in
    if Py.startswith content (lit "ref: refs/heads/") then
      let branch_name := Py.slice_from 16 content in
      let branch_path := branch_path self branch_name in
      let! present := inspect (fun fs => Ok (Fs.exists_ fs branch_path)) in
      if negb present then ret None
      else
        let! text := inspect (fun fs => Fs.read_text fs branch_path) in
        ret (Some (Py.strip text))
    else ret (Some content).

(** The three phases of [_create_tree]: one [TreeEntry] per staged file,
    the sort, the serialisation. *)
Definition collect_entries (staged_files : list (str * FileEntry.t))
  : list TreeEntry.t :=
  fold_left
    (fun tree_entries '(file_path, entry) =>
       tree_entries ++
       [{| TreeEntry.mode := FileEntry.mode entry;
           TreeEntry.name := Path.basename file_path;
           TreeEntry.hash := FileEntry.hash entry;
           TreeEntry.type := lit "blob" |}])
    staged_files [].

Definition sorted_entries (staged_files : list (str * FileEntry.t))
  : list TreeEntry.t :=
  Builtins.sort TreeEntry.name (collect_entries staged_files).

Definition record (entry : TreeEntry.t) : str :=
  TreeEntry.mode entry ++ [SP] ++ TreeEntry.name entry ++ [NUL]
  ++ TreeEntry.hash entry ++ [LF].

Definition serialize_tree (tree_entries : list TreeEntry.t) : str :=
  fold_left (fun tree_content entry => tree_content ++ record entry)
    tree_entries [].

Definition tree_content (staged_files : list (str * FileEntry.t)) : str :=
  serialize_tree (sorted_entries staged_files).

Definition _create_tree (self : t) (staged_files : list (str * FileEntry.t))
  : M str :=
  ObjectStore.store_object (object_store self)
    (Codec.encode (tree_content staged_files)) (lit "tree").

Definition _serialize_commit (commit : CommitObject.t) : outcome bytes :=
  let content :=
    lit "tree " ++ Builtins.format (CommitObject.tree commit) ++ [LF] in
  let content :=
    if Builtins.truthy (CommitObject.parent commit)
    then content ++ lit "parent "
         ++ Builtins.format (CommitObject.parent commit) ++ [LF]
    else content in
  let* seconds :=
    match CommitObject.timestamp commit with
    | Some ts => Ok (Py.str_of_int (Builtins.int_of_float ts))
    | None => Raise TypeError
    end in
  let content :=
    content ++ lit "author " ++ Builtins.format (CommitObject.author commit)
    ++ [SP] ++ seconds ++ lit " +0000" ++ [LF] in
  let content :=
    content ++ lit "committer "
    ++ Builtins.format (CommitObject.committer commit)
    ++ [SP] ++ seconds ++ lit " +0000" ++ [LF] in
  let content := content ++ [LF] ++ CommitObject.message commit ++ [LF] in
  Ok (Codec.encode content).

(** The local variables of the loop of [_load_commit]. *)
Record parse_state := {
  p_tree : option str;
  p_parent : option str;
  p_author : option str;
  p_committer : option str;
  p_timestamp : option Q;
  p_message_lines : list str;
  p_in_message : bool
}.

Definition parse_start : parse_state :=
  {| p_tree := None; p_parent := None; p_author := None;
     p_committer := None; p_timestamp := None; p_message_lines := [];
     p_in_message := false |}.

(** One turn of the loop over the lines. *)
Definition parse_line (st : parse_state) (line : str) : outcome parse_state :=
  let '{| p_tree := tree; p_parent := parent; p_author := author;
          p_committer := committer; p_timestamp := timestamp;
          p_message_lines := message_lines; p_in_message := in_message |} := st in
  if negb in_message then
    if Py.startswith line (lit "tree ") then
      Ok {| p_tree := Some (Py.slice_from 5 line); p_parent := parent;
            p_author := author; p_committer := committer;
            p_timestamp := timestamp; p_message_lines := message_lines;
            p_in_message := in_message |}
    else if Py.startswith line (lit "parent ") then
      Ok {| p_tree := tree; p_parent := Some (Py.slice_from 7 line);
            p_author := author; p_committer := committer;
            p_timestamp := timestamp; p_message_lines := message_lines;
            p_in_message := in_message |}
    else if Py.startswith line (lit "author ") then
      let parts := Py.rsplit SP 2 (Py.slice_from 7 line) in
      let* author' := Py.index parts 0 in
      let* seconds := Py.index parts 1 in
      let* timestamp' := Builtins.float_of_str seconds in
      Ok {| p_tree := tree; p_parent := parent; p_author := Some author';
            p_committer := committer; p_timestamp := Some timestamp';
            p_message_lines := message_lines; p_in_message := in_message |}
    else if Py.startswith line (lit "committer ") then
      let parts := Py.rsplit SP 2 (Py.slice_from 10 line) in
      let* committer' := Py.index parts 0 in
      Ok {| p_tree := tree; p_parent := parent; p_author := author;
            p_committer := Some committer'; p_timestamp := timestamp;
            p_message_lines := message_lines; p_in_message := in_message |}
    else if bool_decide (line = []) then
      Ok {| p_tree := tree; p_parent := parent; p_author := author;
            p_committer := committer; p_timestamp := timestamp;
            p_message_lines := message_lines; p_in_message := true |}
    else Ok st
  else
    Ok {| p_tree := tree; p_parent := parent; p_author := author;
          p_committer := committer; p_timestamp := timestamp;
          p_message_lines := message_lines ++ [line];
          p_in_message := in_message |}.

Fixpoint parse_lines (st : parse_state) (lines : list str)
  : outcome parse_state :=
  match lines with
  | [] => Ok st
  | line :: rest => let* st' := parse_line st line in parse_lines st' rest
  end.

Definition _load_commit (self : t) (commit_hash : str) : M CommitObject.t :=
  let! object := ObjectStore.get_object (object_store self) commit_hash in
  let '(obj_type, content) := object in
  if negb (bool_decide (obj_type = lit "commit")) then
    raise (PyGitError (lit "Object " ++ commit_hash ++ lit " is not a commit"))
  else
    let! text := lift (Codec.decode content) in
    let lines := Py.split LF text in
    let! st := lift (parse_lines parse_start lines) in
    let message := Py.strip (Py.join [LF] (p_message_lines st)) in
    ret {| CommitObject.tree := p_tree st;
           CommitObject.parent := p_parent st;
           CommitObject.author := p_author st;
           CommitObject.committer := p_committer st;
           CommitObject.timestamp := p_timestamp st;
           CommitObject.message := message;
           CommitObject.hash := Some commit_hash |}.

(** [datetime.fromtimestamp(ts).strftime('%Y-%m-%d %H:%M:%S')] depends on
    the time zone of the machine and raises outside the range of dates
    the platform supports: it is a parameter, [local_date]. *)
Definition log_entry (local_date : Q -> outcome str)
    (commit_hash : str) (commit : CommitObject.t) : outcome str :=
  let* date :=
    match CommitObject.timestamp commit with
    | Some ts => local_date ts
    | None => Raise TypeError
    end in
  Ok (lit "commit " ++ commit_hash ++ [LF]
      ++ lit "Author: " ++ Builtins.format (CommitObject.author commit) ++ [LF]
      ++ lit "Date: " ++ date ++ [LF; LF]
      ++ lit "    " ++ CommitObject.message commit ++ [LF]).

(** The [while commit_hash and count < limit] loop, [remaining] being
    [limit - count]; a hash is true when it is a non-empty string. *)
Fixpoint log_loop (local_date : Q -> outcome str) (self : t)
    (remaining : nat) (commit_hash : option str) (logs : list str)
  : M (list str) :=
  match remaining, commit_hash with
  | S remaining', Some (c :: h) =>
      let! commit := _load_commit self (c :: h) in
      let! log_entry := lift (log_entry local_date (c :: h) commit) in
      log_loop local_date self remaining' (CommitObject.parent commit)
        (logs ++ [log_entry])
  | _, _ => ret logs
  end.

Definition log (local_date : Q -> outcome str) (self : t) (limit : Z)
  : M str :=
  let! repo := is_repository self in
  if negb repo then raise not_a_repository
  else
    let! commit_hash := _get_head_commit self in
    if negb (Builtins.truthy commit_hash) then ret (lit "No commits yet")
    else
      let! logs := log_loop local_date self (Z.to_nat limit) commit_hash [] in
      ret (Py.join [LF] logs).

Definition _get_current_branch (self : t) : M str :=
  let head_path := pygit_path self </> HEAD_FILE in
  let! present := inspect (fun fs => Ok (Fs.exists_ fs head_path)) in
  if negb present then ret (lit "main")
  else
    let! text := inspect (fun fs => Fs.read_text fs head_path) in
    let content := Py.strip text in
    if Py.startswith content (lit "ref: refs/heads/") then
      ret (Py.slice_from 16 content)
    else ret (lit "HEAD").

Definition _update_head (self : t) (commit_hash : str) : M unit :=
  let head_path := pygit_path self </> HEAD_FILE in
  let! text := inspect (fun fs => Fs.read_text fs head_path) in
  let content := Py.strip text in
  if Py.startswith content (lit "ref: refs/heads/") then
    let branch_name := Py.slice_from 16 content in
    let branch_path := branch_path self branch_name in
    update (fun fs => Fs.write_text fs branch_path (commit_hash ++ [LF]))
  else
    update (fun fs => Fs.write_text fs head_path (commit_hash ++ [LF])).

(** The line of one branch in the listing. *)
Definition branch_line (current_branch branch_name : str) : str :=
  let prefix :=
    if bool_decide (branch_name = current_branch) then lit "* "
    else lit "  " in
  prefix ++ branch_name.

Definition _list_branches (self : t) : M str :=
  let heads_dir := pygit_path self </> REFS_DIR </> HEADS_DIR in
  let! present := inspect (fun fs => Ok (Fs.exists_ fs heads_dir)) in
  if negb present then ret (lit "No branches found")
  else
    let! current_branch := _get_current_branch self in
    let! entries := inspect (fun fs => Fs.iterdir fs heads_dir) in
    let! branches :=
      inspect (fun fs =>
        Ok (fold_left
              (fun branches branch_file =>
                 if Fs.is_file fs branch_file then
                   branches ++ [branch_line current_branch (Path.name branch_file)]
                 else branches)
              entries [])) in
    ret (Py.join [LF] (Builtins.sort (fun line => line) branches)).

Definition branch (self : t) (branch_name : option str) (list_branches : bool)
  : M str :=
  let! repo := is_repository self in
  if negb repo then raise not_a_repository
  else
    match list_branches, branch_name with
    | true, _ | _, None => _list_branches self
    | false, Some branch_name =>
        let! current_commit := _get_head_commit self in
        if negb (Builtins.truthy current_commit) then
          raise (PyGitError (lit "Cannot create branch with no commits"))
        else
          let branch_path := branch_path self branch_name in
          let! present := inspect (fun fs => Ok (Fs.exists_ fs branch_path)) in
          if present then
            raise (PyGitError (lit "Branch " ++ branch_name
                               ++ lit " already exists"))
          else
            let! _ := update (fun fs =>
                        Fs.write_text fs branch_path
                          (Builtins.format current_commit ++ [LF])) in
            ret (lit "Created branch " ++ branch_name)
    end.

Definition index (self : t) : Index.t :=
  {| Index.repo_path := path self |}.

Definition default_config : json :=
  JObject [(lit "user",
            JObject [(lit "name", JString (lit "PyGit User"));
                     (lit "email", JString (lit "user@pygit.local"))])].

Definition _load_config (json_load : str -> outcome json) (self : t)
  : M json :=
  let config_path := pygit_path self </> CONFIG_FILE in
  let! present := inspect (fun fs => Ok (Fs.exists_ fs config_path)) in
  if present then
    inspect (fun fs =>
      let* text := Fs.read_text fs config_path in json_load text)
  else ret default_config.

(** [_add_single_file]; [stat] is what [Path.stat()] gives for the file
    when [add_file] asks. *)
Definition _add_single_file (json_dumps : json -> str) (self : t)
    (file_path : str) (stat : stat_result) (entries : Index.entries_t)
    (fs : gmap Path.t node)
  : outcome unit * Index.entries_t * gmap Path.t node :=
  let full_path := path self </> file_path in
  if negb (Fs.exists_ fs full_path) then
    (Raise (PyGitError (lit "File " ++ file_path ++ lit " does not exist")),
     entries, fs)
  else if Fs.is_dir fs full_path then (Ok tt, entries, fs)
  else
    match Fs.read_bytes fs full_path with
    | Raise e => (Raise e, entries, fs)
    | Ok content =>
        match ObjectStore.store_object (object_store self) content
                (lit "blob") fs with
        | (Raise e, fs1) => (Raise e, entries, fs1)
        | (Ok hash_str, fs1) =>
            Index.add_file json_dumps (index self) file_path hash_str stat
              entries fs1
        end
    end.

(** The inner loop of [add]: every path goes to [_add_single_file] and
    then into [added_files]. *)
Fixpoint add_each (json_dumps : json -> str) (self : t)
    (stat_of : str -> stat_result) (paths added_files : list str)
    (entries : Index.entries_t) (fs : gmap Path.t node)
  : outcome (list str) * Index.entries_t * gmap Path.t node :=
  match paths with
  | [] => (Ok added_files, entries, fs)
  | rel_path :: rest =>
      match _add_single_file json_dumps self rel_path (stat_of rel_path)
              entries fs with
      | (Ok _, entries', fs') =>
          add_each json_dumps self stat_of rest (added_files ++ [rel_path])
            entries' fs'
      | (Raise e, entries', fs') => (Raise e, entries', fs')
      end
  end.

(** The loop of [add] over [file_paths].  For the path [.] the source
    walks the working tree: [walked] is the list of the files [os.walk]
    comes to outside the directories named [.pygit], as paths relative
    to the repository and in its order; nothing [add] writes is among
    them.  [stat_of] is what [Path.stat()] gives for a path. *)
Fixpoint add_loop (json_dumps : json -> str) (self : t)
    (stat_of : str -> stat_result) (walked file_paths added_files : list str)
    (entries : Index.entries_t) (fs : gmap Path.t node)
  : outcome (list str) * Index.entries_t * gmap Path.t node :=
  match file_paths with
  | [] => (Ok added_files, entries, fs)
  | file_path :: rest =>
      let step :=
        if bool_decide (file_path = lit ".") then
          add_each json_dumps self stat_of walked added_files entries fs
        else
          match _add_single_file json_dumps self file_path
                  (stat_of file_path) entries fs with
          | (Ok _, entries', fs') =>
              (Ok (added_files ++ [file_path]), entries', fs')
          | (Raise e, entries', fs') => (Raise e, entries', fs')
          end in
      match step with
      | (Ok added_files', entries', fs') =>
          add_loop json_dumps self stat_of walked rest added_files'
            entries' fs'
      | (Raise e, entries', fs') => (Raise e, entries', fs')
      end
  end.

Definition add (json_dumps : json -> str) (self : t)
    (stat_of : str -> stat_result) (walked file_paths : list str)
    (entries : Index.entries_t) (fs : gmap Path.t node)
  : outcome str * Index.entries_t * gmap Path.t node :=
  match fst (is_repository self fs) with
  | Ok true =>
      match add_loop json_dumps self stat_of walked file_paths [] entries fs
      with
      | (Ok added_files, entries', fs') =>
          (Ok (lit "Added " ++ Py.str_of_nat (length added_files)
               ++ lit " file(s) to staging area"), entries', fs')
      | (Raise e, entries', fs') => (Raise e, entries', fs')
      end
  | Ok false => (Raise not_a_repository, entries, fs)
  | Raise e => (Raise e, entries, fs)
  end.

(** The f-string [f"{config['user']['name']} <{config['user']['email']}>"] *)
Definition author_of (config : json) : outcome str :=
  let* user := getitem config "user" in
  let* name := getitem user "name" in
  let* name := format_value name in
  let* user := getitem config "user" in
  let* email := getitem user "email" in
  let* email := format_value email in
  Ok (name ++ lit " <" ++ email ++ lit ">").

(** [commit]; [entries] is what the index holds, [now] what [time.time()]
    returns. *)
Definition commit (json_load : str -> outcome json) (now : Q) (self : t)
    (entries : Index.entries_t) (message : str) : M str :=
  let! repo := is_repository self in
  if negb repo then raise not_a_repository
  else
    let staged_files := Index.get_staged_files entries in
    match staged_files with
    | [] => raise (PyGitError (lit "No changes added to commit"))
    | _ :: _ =>
        let! tree_hash := _create_tree self staged_files in
        let! parent_hash := _get_head_commit self in
        let! config := _load_config json_load self in
        let! author := lift (author_of config) in
        let commit :=
          {| CommitObject.tree := Some tree_hash;
             CommitObject.parent := parent_hash;
             CommitObject.author := Some author;
             CommitObject.committer := Some author;
             CommitObject.timestamp := Some now;
             CommitObject.message := message;
             CommitObject.hash := None |} in
        let! commit_content := lift (_serialize_commit commit) in
        let! commit_hash :=
          ObjectStore.store_object (object_store self) commit_content
            (lit "commit") in
        let! _ := _update_head self commit_hash in
        let! current_branch := _get_current_branch self in
        ret (lit "[" ++ current_branch ++ [SP] ++ Py.slice_to 7 commit_hash
             ++ lit "] " ++ message)
    end.

End Repository.

(** * The notions the statements use *)

(** No character of [s] is NUL. *)
Definition no_NUL (s : str) : bool :=
  forallb (fun c => negb (Py.char_eqb c NUL)) s.

(** A word: not empty, no white space, no NUL.  The three type tags are
    words. *)
Definition word (s : str) : bool :=
  match s with
  | [] => false
  | _ => forallb (fun c => negb (Py.isspace c) && negb (Py.char_eqb c NUL)) s
  end.

(** A digit of a hex digest: [0-9] or [a-f]. *)
Definition is_hex (c : ascii) : bool :=
  let n := Py.ord c in
  ((48 <=? n) && (n <=? 57) || (97 <=? n) && (n <=? 102))%N.

(** The three type tags of §3. *)
Definition object_types : list str := [lit "blob"; lit "tree"; lit "commit"].

(** The record of an object, [<type> <len>\0<content>]. *)
Definition encoded (obj_type : str) (content : bytes) : bytes :=
  Codec.encode (obj_type ++ [SP] ++ Py.str_of_nat (length content) ++ [NUL])
  ++ content.

(** Nothing stands in the way of writing the object named [hash_str]: the
    objects directory is there, no file has the name of the shard
    directory and no directory the name of the object file. *)
Definition can_store (self : ObjectStore.t) (fs : gmap Path.t node)
    (hash_str : str) : bool :=
  let obj_path := ObjectStore._get_object_path self hash_str in
  Fs.is_dir fs (ObjectStore.objects_path self)
  && match Fs.stat fs (Path.parent obj_path) with
     | Some (File _) => false
     | _ => true
     end
  && negb (Fs.is_dir fs obj_path).

(** [a <= b] as the sort sees it: [b < a] is false. *)
Definition str_le (a b : str) : Prop := Builtins.str_ltb b a = false.

(** The same on the keys of two elements. *)
Definition key_le {A : Type} (key : A -> str) (x y : A) : Prop :=
  str_le (key x) (key y).

(** The [TreeEntry] the loop of [_create_tree] makes of one staged file. *)
Definition tree_entry_of (staged : str * FileEntry.t) : TreeEntry.t :=
  {| TreeEntry.mode := FileEntry.mode (snd staged);
     TreeEntry.name := Path.basename (fst staged);
     TreeEntry.hash := FileEntry.hash (snd staged);
     TreeEntry.type := lit "blob" |}.

(** No character of [s] is [sep]. *)
Definition without (sep : ascii) (s : str) : bool :=
  forallb (fun c => negb (Py.char_eqb c sep)) s.

(** [s] holds no line end. *)
Definition no_newline (s : str) : bool := without LF s.

(** No character of [s] is white space. *)
Definition no_space (s : str) : bool :=
  forallb (fun c => negb (Py.isspace c)) s.

(** The author or committer with the seconds and the zone after it. *)
Definition stamp (who : str) (seconds : Z) : str :=
  who ++ SP :: Py.str_of_int seconds ++ SP :: lit "+0000".

(** The parent line, written only for a parent that is true. *)
Definition parent_lines (parent : option str) : list str :=
  match parent with
  | Some (c :: p) => [lit "parent " ++ c :: p]
  | _ => []
  end.

(** The lines of a serialised commit before its message. *)
Definition header_lines (tree : str) (parent : option str)
    (author committer : str) (seconds : Z) : list str :=
  [lit "tree " ++ tree] ++ parent_lines parent
  ++ [lit "author " ++ stamp author seconds;
      lit "committer " ++ stamp committer seconds; []].

(** The lines, each followed by a line end. *)
Fixpoint unlines (lines : list str) : str :=
  match lines with
  | [] => []
  | l :: rest => l ++ LF :: unlines rest
  end.

(** What [parent] may hold for the parent line to be written and read:
    nothing, or a non-empty string without a line end. *)
Definition parent_ok (parent : option str) : bool :=
  match parent with
  | None => true
  | Some [] => false
  | Some p => no_newline p
  end.

(** A branch name that stays below the heads directory: it is relative
    and has no [..] component, which the file system would follow. *)
Definition plain_name (branch_name : str) : bool :=
  negb (Py.startswith branch_name [Path.SEP])
  && negb (bool_decide (lit ".." ∈ Path.parts branch_name)).

(** A method that leaves the file system as it finds it. *)
Definition read_only {A} (m : M A) : Prop := forall fs, snd (m fs) = fs.

(** The parent chain from a hash: the commits that load, each with the
    hash it was reached by, up to the first one without a parent. *)
Inductive history (self : Repository.t) (fs : gmap Path.t node)
  : option str -> list (str * CommitObject.t) -> Prop :=
  | history_end (commit_hash : option str) :
      Builtins.truthy commit_hash = false ->
      history self fs commit_hash []
  | history_step (commit_hash : str) (commit : CommitObject.t)
      (rest : list (str * CommitObject.t)) :
      commit_hash <> [] ->
      fst (Repository._load_commit self commit_hash fs) = Ok commit ->
      history self fs (CommitObject.parent commit) rest ->
      history self fs (Some commit_hash) ((commit_hash, commit) :: rest).

(** The carriage return. *)
Definition CR : ascii := Codec.CR.

(** What [HEAD] resolves to, read off the text it holds. *)
Definition resolve (self : Repository.t) (fs : gmap Path.t node) (text : str)
  : outcome (option str) :=
  let content := Py.strip text in
  if Py.startswith content (lit "ref: refs/heads/") then
    let branch_path :=
      Repository.branch_path self (Py.slice_from 16 content) in
    if Fs.exists_ fs branch_path then
      let* ref := Fs.read_text fs branch_path in Ok (Some (Py.strip ref))
    else Ok None
  else Ok (Some content).

(** What [init] leaves in a directory that held no [.pygit]. *)
Definition initialised (self : Repository.t) (fs : gmap Path.t node)
  : gmap Path.t node :=
  let d := Repository.path self ++ [PYGIT_DIR] in
  <[d ++ [CONFIG_FILE] := File (Codec.encode Repository.initial_config)]>
    (<[d ++ [HEAD_FILE] :=
         File (Codec.encode (lit "ref: refs/heads/main" ++ [LF]))]>
       (<[d ++ [REFS_DIR; HEADS_DIR] := Dir]>
          (<[d ++ [REFS_DIR] := Dir]>
             (<[d ++ [OBJECTS_DIR] := Dir]>
                (<[d := Dir]> fs))))).

(** The directory of the ref files. *)
Definition heads_dir (self : Repository.t) : Path.t :=
  Repository.pygit_path self </> REFS_DIR </> HEADS_DIR.

(** The names of the files directly in the heads directory, as the
    directory lists them. *)
Definition branch_files (self : Repository.t) (fs : gmap Path.t node)
  : list str :=
  map Path.name
    (List.filter (Fs.is_file fs) (Fs.children fs (heads_dir self))).

(** The listing: the other branches in ascending order, then the current
    one if it has a ref file. *)
Definition listing (current_branch : str) (names : list str) : list str :=
  map (fun n => lit "  " ++ n)
    (Builtins.sort (fun n => n)
       (List.filter (fun n => negb (bool_decide (n = current_branch))) names))
  ++ (if bool_decide (current_branch ∈ names)
      then [lit "* " ++ current_branch] else []).

(** A string in double quotes, as JSON writes it. *)
Definition quoted (s : string) : str :=
  [Repository.DQ] ++ lit s ++ [Repository.DQ].

(** A commit as [commit] builds it. *)
Definition commit_record (tree_hash : str) (parent : option str)
    (author : str) (now : Q) (message : str) : CommitObject.t :=
  {| CommitObject.tree := Some tree_hash;
     CommitObject.parent := parent;
     CommitObject.author := Some author;
     CommitObject.committer := Some author;
     CommitObject.timestamp := Some now;
     CommitObject.message := message;
     CommitObject.hash := None |}.

(** A path in [.pygit] outside the object store. *)
Definition elsewhere (self : Repository.t) (r : Path.t) : Prop :=
  exists x rest,
    r = Repository.path self ++ PYGIT_DIR :: x :: rest /\ x <> OBJECTS_DIR.

(** The commit that [_load_commit] returns for the record of
    [commit_record], stored under [h]. *)
Definition loaded_record (tree_hash : str) (parent : option str)
    (author : str) (now : Q) (message h : str) : CommitObject.t :=
  {| CommitObject.tree := Some tree_hash;
     CommitObject.parent := if Builtins.truthy parent then parent else None;
     CommitObject.author := Some author;
     CommitObject.committer := Some author;
     CommitObject.timestamp :=
       Some (Builtins.float_of_int (Builtins.int_of_float now));
     CommitObject.message := message;
     CommitObject.hash := Some h |}.

(** A path of the working tree: relative, not below [.pygit] and without
    a [..] component, which the file system would follow. *)
Definition working_path (file_path : str) : bool :=
  negb (Py.startswith file_path [Path.SEP])
  && negb (bool_decide (lit ".." ∈ Path.parts file_path))
  && match Path.parts file_path with
     | c :: _ => negb (bool_decide (c = PYGIT_DIR))
     | [] => false
     end.

(** The paths [add] hands to [_add_single_file], in order. *)
Definition calls (walked file_paths : list str) : list str :=
  concat (map (fun file_path =>
                 if bool_decide (file_path = lit ".") then walked
                 else [file_path]) file_paths).

(** * Examples to try the statements on *)

(** The repository at [/work]. *)
Definition example_repo : Repository.t := {| Repository.path := [lit "work"] |}.

(** The file system after [init] in the empty directory [/work]. *)
Definition example_fresh : gmap Path.t node :=
  snd (Repository.init example_repo (<[ [lit "work"] := Dir ]> ∅)).

(** A tree object whose content starts with a zero byte, stored in the
    fresh repository, and the hash it got. *)
Definition example_stored : outcome str * gmap Path.t node :=
  ObjectStore.store_object (Repository.object_store example_repo)
    [x00; x61; x00; x0a] (lit "tree") example_fresh.

Definition example_hash : str :=
  match fst example_stored with
  | Ok h => h
  | Raise _ => []
  end.

(** [/work] with a branch [dev] next to the unborn [main]. *)
Definition example_branched : gmap Path.t node :=
  <[ Repository.branch_path example_repo (lit "dev") :=
       File (Codec.encode (lit "b6fc4c620b67d95f953a5c1c1230aaab5db5a1b0" ++ [LF])) ]>
    example_fresh.

(** A staged file of five bytes with mode 644. *)
Definition example_entry (path hash : string) : str * FileEntry.t :=
  (lit path,
   {| FileEntry.path := lit path; FileEntry.hash := lit hash;
      FileEntry.mode := lit "644"; FileEntry.size := 5%Z;
      FileEntry.mtime := inject_Z 1700000000 |}).

(** Two staged files, the later name first. *)
Definition example_staged : list (str * FileEntry.t) :=
  [example_entry "notes/b.txt" "b6fc4c620b67d95f953a5c1c1230aaab5db5a1b0";
   example_entry "a.txt" "da39a3ee5e6b4b0d3255bfef95601890afd80709"].

(** Two staged files with the same name in different directories. *)
Definition example_colliding : list (str * FileEntry.t) :=
  [example_entry "a/x.txt" "b6fc4c620b67d95f953a5c1c1230aaab5db5a1b0";
   example_entry "b/x.txt" "da39a3ee5e6b4b0d3255bfef95601890afd80709"].

(** Serialising a commit and storing it in the fresh repository. *)
Definition example_store_commit (commit : CommitObject.t)
  : outcome str * gmap Path.t node :=
  match Repository._serialize_commit commit with
  | Ok content =>
      ObjectStore.store_object (Repository.object_store example_repo)
        content (lit "commit") example_fresh
  | Raise e => (Raise e, example_fresh)
  end.

(** The commit read back after [example_store_commit]. *)
Definition example_reload (commit : CommitObject.t) : outcome CommitObject.t :=
  match example_store_commit commit with
  | (Ok h, fs1) => fst (Repository._load_commit example_repo h fs1)
  | (Raise e, _) => Raise e
  end.

(** A commit by the default user, half a second after 1700000000. *)
Definition example_commit (tree : str) (parent : option str)
  : CommitObject.t :=
  {| CommitObject.tree := Some tree; CommitObject.parent := parent;
     CommitObject.author := Some (lit "PyGit User <user@pygit.local>");
     CommitObject.committer := Some (lit "PyGit User <user@pygit.local>");
     CommitObject.timestamp := Some (Qmake 17000000005 10);
     CommitObject.message := lit "first"; CommitObject.hash := None |}.

(** A field of a commit that was loaded. *)
Definition field {A} (f : CommitObject.t -> A) (r : outcome CommitObject.t)
  : option A :=
  match r with
  | Ok commit => Some (f commit)
  | Raise _ => None
  end.

(** A commit with a parent: its serialised form, the hash it is stored
    under and the store that holds it. *)
Definition example_content : bytes :=
  match Repository._serialize_commit
          (example_commit (lit "da39a3ee5e6b4b0d3255bfef95601890afd80709")
             (Some (lit "b6fc4c620b67d95f953a5c1c1230aaab5db5a1b0"))) with
  | Ok content => content
  | Raise _ => []
  end.

Definition example_commit_hash : str :=
  match fst (ObjectStore.store_object (Repository.object_store example_repo)
               example_content (lit "commit") example_fresh) with
  | Ok h => h
  | Raise _ => []
  end.

Definition example_commit_stored : outcome str * gmap Path.t node :=
  ObjectStore.store_object (Repository.object_store example_repo)
    example_content (lit "commit") example_fresh.

(** Two commits in the fresh repository, [main] pointing at the second. *)
Definition example_root : CommitObject.t :=
  example_commit (lit "da39a3ee5e6b4b0d3255bfef95601890afd80709") None.

Definition example_root_hash : str :=
  match fst (example_store_commit example_root) with
  | Ok h => h
  | Raise _ => []
  end.

Definition example_second : CommitObject.t :=
  {| CommitObject.tree := Some (lit "b6fc4c620b67d95f953a5c1c1230aaab5db5a1b0");
     CommitObject.parent := Some example_root_hash;
     CommitObject.author := Some (lit "PyGit User <user@pygit.local>");
     CommitObject.committer := Some (lit "PyGit User <user@pygit.local>");
     CommitObject.timestamp := Some (inject_Z 1700000060);
     CommitObject.message := lit "second"; CommitObject.hash := None |}.

Definition example_second_stored : outcome str * gmap Path.t node :=
  match Repository._serialize_commit example_second with
  | Ok content =>
      ObjectStore.store_object (Repository.object_store example_repo)
        content (lit "commit") (snd (example_store_commit example_root))
  | Raise e => (Raise e, example_fresh)
  end.

Definition example_second_hash : str :=
  match fst example_second_stored with
  | Ok h => h
  | Raise _ => []
  end.

Definition example_two_commits : gmap Path.t node :=
  <[ Repository.branch_path example_repo (lit "main") :=
       File (Codec.encode (example_second_hash ++ [LF])) ]>
    (snd example_second_stored).

(** A stand-in for the local rendering of dates: the seconds, in
    decimal. *)
Definition example_date (ts : Q) : outcome str :=
  Ok (Py.str_of_int (Builtins.int_of_float ts)).

(** The commits of [example_two_commits] as they load, and their log
    entries. *)
Definition loaded (commit_hash : str) : CommitObject.t :=
  match fst (Repository._load_commit example_repo commit_hash
               example_two_commits) with
  | Ok commit => commit
  | Raise _ => example_root
  end.

Definition rendered (commit_hash : str) : str :=
  match Repository.log_entry example_date commit_hash (loaded commit_hash) with
  | Ok entry => entry
  | Raise _ => []
  end.

(** The fresh repository with a first commit object and [main] still
    unborn. *)
Definition example_after_update : outcome unit * gmap Path.t node :=
  Repository._update_head example_repo example_commit_hash
    (snd example_commit_stored).

(** The branch [dev] made in the repository of two commits. *)
Definition example_dev : outcome str * gmap Path.t node :=
  Repository.branch example_repo (Some (lit "dev")) false example_two_commits.

(** The empty directory [/work]. *)
Definition example_empty : gmap Path.t node := <[ [lit "work"] := Dir ]> ∅.

(** The repository of two commits with a second branch [zeta]. *)
Definition example_zeta : gmap Path.t node :=
  snd (Repository.branch example_repo (Some (lit "zeta")) false
         example_two_commits).

(** The blob [hello] stored after the tree of [example_stored]. *)
Definition example_hello : outcome str * gmap Path.t node :=
  ObjectStore.store_object (Repository.object_store example_repo)
    (Codec.encode (lit "hello")) (lit "blob") (snd example_stored).

(** An object file named [mine] that says it is a blob of 999 bytes and
    holds two. *)
Definition example_forged : gmap Path.t node :=
  <[ ObjectStore._get_object_path (Repository.object_store example_repo)
       (lit "mine") :=
     File (Codec.encode (lit "blob" ++ SP :: lit "999") ++ x00 :: [x68; x69]) ]>
    example_fresh.

(** An object file that starts with the zero byte. *)
Definition example_headless : gmap Path.t node :=
  <[ ObjectStore._get_object_path (Repository.object_store example_repo)
       example_hash :=
     File (Codec.encode [] ++ x00 :: [x68; x69]) ]>
    example_fresh.

(** The fresh repository with the file [a.txt] of five bytes next to
    it. *)
Definition example_worktree : gmap Path.t node :=
  <[ [lit "work"; lit "a.txt"] := File (Codec.encode (lit "hello")) ]>
    example_fresh.

(** What [stat] says of a regular file of five bytes with mode 644. *)
Definition example_stat : stat_result :=
  {| st_mode := 33188; st_size := 5; st_mtime := inject_Z 1700000000 |}.

(** The index with [a.txt] staged, and the text [json.dump] writes for
    it. *)
Definition example_index : Index.entries_t :=
  [(lit "a.txt",
    {| FileEntry.path := lit "a.txt";
       FileEntry.hash := lit "b6fc4c620b67d95f953a5c1c1230aaab5db5a1b0";
       FileEntry.mode := lit "644"; FileEntry.size := 5%Z;
       FileEntry.mtime := inject_Z 1700000000 |})].

Definition example_index_text : str :=
  lit "{" ++ [LF]
  ++ lit "  " ++ quoted "a.txt" ++ lit ": {" ++ [LF]
  ++ lit "    " ++ quoted "path" ++ lit ": " ++ quoted "a.txt" ++ lit "," ++ [LF]
  ++ lit "    " ++ quoted "hash" ++ lit ": "
  ++ quoted "b6fc4c620b67d95f953a5c1c1230aaab5db5a1b0" ++ lit "," ++ [LF]
  ++ lit "    " ++ quoted "mode" ++ lit ": " ++ quoted "644" ++ lit "," ++ [LF]
  ++ lit "    " ++ quoted "size" ++ lit ": 5," ++ [LF]
  ++ lit "    " ++ quoted "mtime" ++ lit ": 1700000000.0" ++ [LF]
  ++ lit "  }" ++ [LF]
  ++ lit "}".

(** Stand-ins for [json.dump] and [json.load] that know this one text
    and write [{}] for every other value. *)
Definition example_dumps (value : json) : str :=
  match value with
  | JObject (_ :: _) => example_index_text
  | _ => lit "{}"
  end.

Definition example_loads (text : str) : outcome json :=
  if bool_decide (text = example_index_text) then
    Ok (Index.dumped example_index)
  else if bool_decide (text = lit "{}") then Ok (JObject [])
  else Raise JSONDecodeError.

(** [a.txt] staged in the empty index. *)
Definition example_added
  : outcome unit * Index.entries_t * gmap Path.t node :=
  Index.add_file example_dumps (Repository.index example_repo) (lit "a.txt")
    (lit "b6fc4c620b67d95f953a5c1c1230aaab5db5a1b0") example_stat []
    example_worktree.

(** [a.txt] taken out of the index again. *)
Definition example_removed
  : outcome unit * Index.entries_t * gmap Path.t node :=
  Index.remove_file example_dumps (Repository.index example_repo)
    (lit "a.txt") (snd (fst example_added)) (snd example_added).

(** The index of [example_index] saved in the fresh repository. *)
Definition example_saved : outcome unit * gmap Path.t node :=
  Index.save example_dumps (Repository.index example_repo) example_index
    example_fresh.

(** [a.txt] staged from the working tree. *)
Definition example_add
  : outcome unit * Index.entries_t * gmap Path.t node :=
  Repository._add_single_file example_dumps example_repo (lit "a.txt")
    example_stat [] example_worktree.

(** A stand-in for [json.load] that also knows the configuration [init]
    writes. *)
Definition example_json_load (text : str) : outcome json :=
  if bool_decide (text = Repository.initial_config) then
    Ok Repository.default_config
  else example_loads text.

(** The first commit, of [a.txt], on the unborn branch [main]. *)
Definition example_committed : outcome str * gmap Path.t node :=
  Repository.commit example_json_load (inject_Z 1700000000) example_repo
    (snd (fst example_add)) (lit "first") (snd example_add).

(** The first commit as it loads, and a second commit of the same index
    a minute later. *)
Definition example_first_hash : str :=
  match fst (Repository._get_head_commit example_repo (snd example_committed))
  with
  | Ok (Some h) => h
  | _ => []
  end.

Definition example_first : CommitObject.t :=
  match fst (Repository._load_commit example_repo example_first_hash
               (snd example_committed)) with
  | Ok commit => commit
  | Raise _ => example_root
  end.

Definition example_recommitted : outcome str * gmap Path.t node :=
  Repository.commit example_json_load (inject_Z 1700000060) example_repo
    (snd (fst example_add)) (lit "second") (snd example_committed).

Definition example_tree_hash : str :=
  Sha1.hexdigest
    (encoded (lit "tree")
       (Codec.encode (Repository.tree_content (snd (fst example_add))))).

(** A repository whose [HEAD] was deleted. *)
Definition example_headless_repo : gmap Path.t node :=
  delete (Repository.head_path example_repo) (snd example_add).

(** [add .] where the walk finds [a.txt]. *)
Definition example_add_all
  : outcome str * Index.entries_t * gmap Path.t node :=
  Repository.add example_dumps example_repo (fun _ => example_stat)
    [lit "a.txt"] [lit "."] [] example_worktree.


(** * Properties *)

(** ** Paths *)

Lemma div_literal (p : list str) (w : str) :
  Py.startswith w [Path.SEP] = false ->
  Path.parts w = [w] ->
  p </> w = p ++ [w].
Proof. intros Hs Hp. unfold Path.div. now rewrite Hs, Hp. Qed.

Lemma parent_div (p : list str) (w : str) :
  Py.startswith w [Path.SEP] = false ->
  Path.parts w = [w] ->
  Path.parent (p </> w) = p.
Proof.
  intros Hs Hp. rewrite div_literal by assumption.
  unfold Path.parent. apply removelast_last.
Qed.

Lemma parent_nonempty_ne (p : list str) : p <> [] -> Path.parent p <> p.
Proof.
  intros Hp Heq. unfold Path.parent in Heq.
  pose proof (app_removelast_last [] Hp) as Hsplit.
  rewrite Heq in Hsplit. apply (f_equal (@length str)) in Hsplit.
  rewrite length_app in Hsplit. simpl in Hsplit. lia.
Qed.

(** ** The codec *)

Lemma decode_points_char (c : ascii) (rest : bytes) :
  Codec.decode_points (Codec.encode_char c ++ rest) =
  let* r := Codec.decode_points rest in Ok (Py.ord c :: r).
Proof. destruct c as [[] [] [] [] [] [] [] []]; reflexivity. Qed.

Lemma decode_points_encode (s : str) :
  Codec.decode_points (Codec.encode s) = Ok (map Py.ord s).
Proof.
  induction s as [|c s IH]; [reflexivity|].
  change (Codec.encode (c :: s)) with (Codec.encode_char c ++ Codec.encode s).
  rewrite decode_points_char, IH. reflexivity.
Qed.

Lemma points_in_range (s : str) :
  forallb (fun n => (n <? 256)%N) (map Py.ord s) = true.
Proof.
  induction s as [|c s IH]; [reflexivity|]. simpl. rewrite IH.
  pose proof (N_ascii_bounded c) as Hb. unfold Py.ord.
  apply N.ltb_lt in Hb. now rewrite Hb.
Qed.

Lemma chr_ord (s : str) : map Py.chr (map Py.ord s) = s.
Proof.
  induction s as [|c s IH]; [reflexivity|]. simpl. rewrite IH.
  unfold Py.chr, Py.ord. now rewrite ascii_N_embedding.
Qed.

(** Decoding undoes encoding. *)
Lemma decode_encode (s : str) : Codec.decode (Codec.encode s) = Ok s.
Proof.
  unfold Codec.decode. rewrite decode_points_encode. simpl.
  now rewrite points_in_range, chr_ord.
Qed.

Lemma encode_app (a b : str) :
  Codec.encode (a ++ b) = Codec.encode a ++ Codec.encode b.
Proof. unfold Codec.encode. apply flat_map_app. Qed.

(** A character other than NUL has no zero byte in its encoding. *)
Lemma find_NUL_char (c : ascii) (rest : bytes) :
  Py.char_eqb c NUL = false ->
  Py.find x00 (Codec.encode_char c ++ rest) =
  option_map (fun i => length (Codec.encode_char c) + i) (Py.find x00 rest).
Proof.
  destruct c as [[] [] [] [] [] [] [] []]; intros Hc; try discriminate Hc;
    simpl; destruct (Py.find x00 rest); reflexivity.
Qed.

Lemma find_NUL_encode (s : str) (rest : bytes) :
  no_NUL s = true ->
  Py.find x00 (Codec.encode s ++ x00 :: rest) = Some (length (Codec.encode s)).
Proof.
  induction s as [|c s IH]; intros Hs; [reflexivity|].
  simpl in Hs. apply andb_prop in Hs as [Hc Hs].
  change (Codec.encode (c :: s)) with (Codec.encode_char c ++ Codec.encode s).
  rewrite <- app_assoc, find_NUL_char by now apply negb_true_iff.
  rewrite IH by assumption. simpl. now rewrite length_app.
Qed.

(** ** Words and digits *)

Lemma str_of_uint_plain (d : Decimal.uint) :
  forallb (fun c => negb (Py.isspace c) && negb (Py.char_eqb c NUL))
    (Py.str_of_uint d) = true.
Proof. induction d; simpl; auto. Qed.

Lemma word_no_NUL (s : str) :
  forallb (fun c => negb (Py.isspace c) && negb (Py.char_eqb c NUL)) s = true ->
  no_NUL s = true.
Proof.
  induction s as [|c s IH]; [reflexivity|]. simpl. intros H.
  apply andb_prop in H as [Hc Hs]. apply andb_prop in Hc as [_ Hc].
  rewrite Hc. simpl. auto.
Qed.

Lemma split_ws_aux_word (w : str) (cur rest : str) :
  forallb (fun c => negb (Py.isspace c) && negb (Py.char_eqb c NUL)) w = true ->
  Py.split_ws_aux cur (w ++ SP :: rest) =
  match rev w ++ cur with
  | [] => Py.split_ws_aux [] rest
  | acc => rev acc :: Py.split_ws_aux [] rest
  end.
Proof.
  revert cur. induction w as [|c w IH]; intros cur Hw.
  - simpl. destruct cur; reflexivity.
  - simpl in Hw. apply andb_prop in Hw as [Hc Hw].
    apply andb_prop in Hc as [Hc _]. apply negb_true_iff in Hc.
    simpl. rewrite Hc. rewrite IH by assumption.
    now rewrite <- app_assoc.
Qed.

(** The first word of a header is its type tag. *)
Lemma split_ws_first (w rest : str) :
  word w = true ->
  Py.index (Py.split_ws (w ++ SP :: rest)) 0 = Ok w.
Proof.
  intros Hw. unfold Py.split_ws.
  destruct w as [|c w]; [discriminate|].
  unfold word in Hw. rewrite split_ws_aux_word by assumption.
  rewrite app_nil_r.
  destruct (rev (c :: w)) as [|a acc] eqn:E.
  - apply (f_equal (@length ascii)) in E. rewrite length_rev in E. discriminate.
  - rewrite <- E, rev_involutive. reflexivity.
Qed.

(** ** SHA-1 digests as path components *)

(** The digests of the empty message and of [abc], as FIPS 180 gives
    them. *)
Example sha1_known_answers :
  Sha1.hexdigest [] = lit "da39a3ee5e6b4b0d3255bfef95601890afd80709"
  /\ Sha1.hexdigest (Codec.encode (lit "abc"))
     = lit "a9993e364706816aba3e25717850c26c9cd0d89d".
Proof. split; vm_compute; reflexivity. Qed.

Lemma hexdigit_is_hex (n : N) : is_hex (Sha1.hexdigit n) = true.
Proof.
  unfold Sha1.hexdigit.
  destruct (N.land n 15) as [|p]; [reflexivity|].
  do 4 (destruct p as [p|p|]; try reflexivity).
Qed.

Lemma hexdigest_is_hex (msg : bytes) :
  forallb is_hex (Sha1.hexdigest msg) = true.
Proof.
  unfold Sha1.hexdigest.
  destruct (Sha1.digest msg) as [[[[h0 h1] h2] h3] h4].
  unfold Sha1.hex8. cbn [app forallb]. now rewrite !hexdigit_is_hex.
Qed.

Lemma hexdigest_length (msg : bytes) : length (Sha1.hexdigest msg) = 40.
Proof.
  unfold Sha1.hexdigest.
  destruct (Sha1.digest msg) as [[[[h0 h1] h2] h3] h4]. reflexivity.
Qed.

Lemma is_hex_not_special (c : ascii) :
  is_hex c = true ->
  Py.char_eqb c Path.SEP = false /\ c <> "."%char.
Proof.
  destruct c as [[] [] [] [] [] [] [] []]; intros H; try discriminate H;
    split; (reflexivity || discriminate).
Qed.

Lemma split_no_sep (w : str) :
  forallb is_hex w = true -> Py.split Path.SEP w = [w].
Proof.
  induction w as [|c w IH]; intros H; [reflexivity|].
  simpl in H. apply andb_prop in H as [Hc Hw].
  apply is_hex_not_special in Hc as [Hc _].
  simpl. rewrite Hc, IH by assumption. reflexivity.
Qed.

(** A non-empty run of hexadecimal digits is one path component. *)
Lemma div_hex (p : Path.t) (w : str) :
  w <> [] -> forallb is_hex w = true -> p </> w = p ++ [w].
Proof.
  intros Hne Hw. apply div_literal.
  - destruct w as [|c w]; [congruence|].
    simpl in Hw. apply andb_prop in Hw as [Hc _].
    apply is_hex_not_special in Hc as [Hc _]. simpl. now rewrite Hc.
  - unfold Path.parts. rewrite split_no_sep by assumption.
    rewrite filter_cons_True; [reflexivity|].
    split; [assumption|].
    destruct w as [|c w]; [congruence|].
    simpl in Hw. apply andb_prop in Hw as [Hc _].
    apply is_hex_not_special in Hc as [_ Hc].
    unfold lit. simpl. congruence.
Qed.

Lemma forallb_take {A} (f : A -> bool) (n : nat) (l : list A) :
  forallb f l = true -> forallb f (take n l) = true.
Proof.
  revert n. induction l as [|x l IH]; intros [|n] H; simpl in *; auto.
  apply andb_prop in H as [Hx Hl]. rewrite Hx. simpl. auto.
Qed.

Lemma forallb_drop {A} (f : A -> bool) (n : nat) (l : list A) :
  forallb f l = true -> forallb f (drop n l) = true.
Proof.
  revert n. induction l as [|x l IH]; intros [|n] H; simpl in *; auto.
  apply andb_prop in H as [Hx Hl]. auto.
Qed.

(** Where the object with a SHA-1 name goes: a directory named by the
    first two digits, a file named by the other thirty-eight. *)
Lemma object_path_of_digest (self : ObjectStore.t) (msg : bytes) :
  let h := Sha1.hexdigest msg in
  ObjectStore._get_object_path self h =
  ObjectStore.objects_path self ++ [take 2 h; drop 2 h].
Proof.
  intros h. unfold ObjectStore._get_object_path, Py.slice_to, Py.slice_from.
  pose proof (hexdigest_length msg) as Hlen.
  pose proof (hexdigest_is_hex msg) as Hhex. fold h in Hlen, Hhex.
  rewrite (div_hex _ (take 2 h)), (div_hex _ (drop 2 h)).
  - now rewrite <- app_assoc.
  - intros E. apply (f_equal (@length ascii)) in E.
    rewrite length_drop, Hlen in E. discriminate.
  - now apply forallb_drop.
  - intros E. apply (f_equal (@length ascii)) in E.
    rewrite length_take, Hlen in E. discriminate.
  - now apply forallb_take.
Qed.

(** ** The file system *)

Lemma mkdir_existing (fs : gmap Path.t node) (p : Path.t) :
  Fs.stat fs p = Some Dir -> Fs.mkdir fs p = Ok fs.
Proof.
  intros H. unfold Fs.mkdir.
  destruct (length p); simpl; unfold Fs.os_mkdir, Fs.is_dir; now rewrite H.
Qed.

Lemma mkdir_child (fs : gmap Path.t node) (p : Path.t) :
  p <> [] -> Fs.stat fs p = None -> Fs.stat fs (Path.parent p) = Some Dir ->
  Fs.mkdir fs p = Ok (<[p := Dir]> fs).
Proof.
  intros Hp H Hpar. unfold Fs.mkdir.
  destruct (length p); simpl; unfold Fs.os_mkdir; now rewrite H, Hpar.
Qed.

Lemma stat_nonempty (fs : gmap Path.t node) (p : Path.t) :
  p <> [] -> Fs.stat fs p = fs !! p.
Proof. destruct p; [congruence | reflexivity]. Qed.

Lemma write_bytes_inv (fs fs' : gmap Path.t node) (p : Path.t) (data : bytes) :
  Fs.write_bytes fs p data = Ok fs' ->
  p <> [] /\ fs' = <[p := File data]> fs
  /\ Fs.stat fs (Path.parent p) = Some Dir.
Proof.
  unfold Fs.write_bytes. intros H.
  assert (Hp : p <> []).
  { intros ->. simpl in H. discriminate. }
  split; [assumption|].
  destruct (Fs.stat fs p) as [[|]|];
    destruct (Fs.stat fs (Path.parent p)) as [[|]|];
    try discriminate; injection H as <-; auto.
Qed.

Lemma stat_insert_eq (fs : gmap Path.t node) (p : Path.t) (n : node) :
  p <> [] -> Fs.stat (<[p := n]> fs) p = Some n.
Proof. intros Hp. rewrite stat_nonempty by assumption. apply lookup_insert_eq. Qed.

Lemma stat_insert_ne (fs : gmap Path.t node) (p q : Path.t) (n : node) :
  p <> q -> Fs.stat (<[p := n]> fs) q = Fs.stat fs q.
Proof.
  intros Hne. destruct q as [|c q]; [reflexivity|].
  simpl. now apply lookup_insert_ne.
Qed.

(** ** The object store *)

Lemma store_object_inv (self : ObjectStore.t) (content : bytes)
    (obj_type : str) (fs fs1 : gmap Path.t node) (h : str) :
  ObjectStore.store_object self content obj_type fs = (Ok h, fs1) ->
  let p := ObjectStore._get_object_path self
             (Sha1.hexdigest (encoded obj_type content)) in
  h = Sha1.hexdigest (encoded obj_type content)
  /\ exists fs0, Fs.mkdir fs (Path.parent p) = Ok fs0
       /\ Fs.write_bytes fs0 p (encoded obj_type content) = Ok fs1.
Proof.
  unfold ObjectStore.store_object, bind, update, ret.
  fold (encoded obj_type content).
  set (p := ObjectStore._get_object_path self _).
  destruct (Fs.mkdir fs (Path.parent p)) as [fs0|e] eqn:Emk; [|discriminate].
  destruct (Fs.write_bytes fs0 p (encoded obj_type content)) as [fs2|e] eqn:Ewr;
    [|discriminate].
  intros H. injection H as <- <-. simpl. eauto.
Qed.

Lemma store_object_run (self : ObjectStore.t) (content : bytes)
    (obj_type : str) (fs fs0 fs1 : gmap Path.t node) :
  let p := ObjectStore._get_object_path self
             (Sha1.hexdigest (encoded obj_type content)) in
  Fs.mkdir fs (Path.parent p) = Ok fs0 ->
  Fs.write_bytes fs0 p (encoded obj_type content) = Ok fs1 ->
  ObjectStore.store_object self content obj_type fs =
    (Ok (Sha1.hexdigest (encoded obj_type content)), fs1).
Proof.
  intros p Hmk Hwr.
  unfold ObjectStore.store_object, bind, update, ret.
  fold (encoded obj_type content). fold p.
  now rewrite Hmk, Hwr.
Qed.

(** What a successful store leaves behind. *)
Lemma store_object_file (self : ObjectStore.t) (content : bytes)
    (obj_type : str) (fs fs1 : gmap Path.t node) (h : str) :
  ObjectStore.store_object self content obj_type fs = (Ok h, fs1) ->
  let p := ObjectStore._get_object_path self h in
  p <> [] /\ Fs.stat fs1 p = Some (File (encoded obj_type content))
  /\ Fs.stat fs1 (Path.parent p) = Some Dir.
Proof.
  intros H. apply store_object_inv in H as (-> & fs0 & Hmk & Hwr).
  apply write_bytes_inv in Hwr as (Hp & -> & Hpar).
  cbv zeta. split; [assumption|]. split.
  - now apply stat_insert_eq.
  - rewrite stat_insert_ne; [assumption|].
    intros E. symmetry in E. now apply parent_nonempty_ne in E.
Qed.

(** C5.  Storing the same content under the same type a second time
    returns the same hash, goes to the same path and leaves the file
    system exactly as the first call left it, the object file holding the
    record; the second call raises nothing. *)
Theorem store_object_idempotent (self : ObjectStore.t) (content : bytes)
    (obj_type : str) (fs fs1 : gmap Path.t node) (h : str) :
  ObjectStore.store_object self content obj_type fs = (Ok h, fs1) ->
  ObjectStore.store_object self content obj_type fs1 = (Ok h, fs1)
  /\ Fs.read_bytes fs1 (ObjectStore._get_object_path self h)
     = Ok (encoded obj_type content).
Proof.
  intros H.
  pose proof (store_object_file _ _ _ _ _ _ H) as (Hp & Hfile & Hpar).
  pose proof (store_object_inv _ _ _ _ _ _ H) as (Hh & _).
  split.
  - rewrite Hh in *. apply store_object_run with (fs0 := fs1).
    + now apply mkdir_existing.
    + unfold Fs.write_bytes. rewrite Hfile, Hpar. f_equal.
      apply insert_id. now rewrite <- stat_nonempty.
  - unfold Fs.read_bytes. now rewrite Hfile.
Qed.

Lemma str_of_nat_plain (n : nat) :
  forallb (fun c => negb (Py.isspace c) && negb (Py.char_eqb c NUL))
    (Py.str_of_nat n) = true.
Proof. apply str_of_uint_plain. Qed.

(** The first zero byte of a record is the one that ends its header. *)
Lemma find_NUL_encoded (obj_type : str) (content : bytes) :
  word obj_type = true ->
  Py.find x00 (encoded obj_type content) =
  Some (length (Codec.encode
                  (obj_type ++ [SP] ++ Py.str_of_nat (length content)))).
Proof.
  intros Hw. unfold encoded.
  replace (obj_type ++ [SP] ++ Py.str_of_nat (length content) ++ [NUL])
    with ((obj_type ++ [SP] ++ Py.str_of_nat (length content)) ++ [NUL])
    by now rewrite <- !app_assoc.
  rewrite encode_app, <- app_assoc.
  change (Codec.encode [NUL] ++ content) with (x00 :: content).
  apply find_NUL_encode.
  unfold no_NUL. rewrite !forallb_app. simpl.
  destruct obj_type as [|c w]; [discriminate|]. unfold word in Hw.
  apply word_no_NUL in Hw. unfold no_NUL in Hw. rewrite Hw. simpl.
  pose proof (word_no_NUL _ (str_of_nat_plain (length content))) as Hd.
  unfold no_NUL in Hd. now rewrite Hd.
Qed.

Lemma drop_past {A} (l : list A) (x : A) (rest : list A) :
  drop (length l + 1) (l ++ x :: rest) = rest.
Proof. induction l as [|y l IH]; simpl; auto. Qed.

Lemma get_object_after_store_word (self : ObjectStore.t) (content : bytes)
    (obj_type : str) (fs fs1 : gmap Path.t node) (h : str) :
  word obj_type = true ->
  ObjectStore.store_object self content obj_type fs = (Ok h, fs1) ->
  ObjectStore.get_object self h fs1 = (Ok (obj_type, content), fs1).
Proof.
  intros Hw H.
  pose proof (store_object_file _ _ _ _ _ _ H) as (Hp & Hfile & _).
  unfold ObjectStore.get_object, bind, inspect, raise, lift, ret.
  unfold Fs.exists_, Fs.read_bytes. rewrite Hfile.
  cbv beta iota zeta delta [negb]. rewrite ?Hfile.
  rewrite find_NUL_encoded by assumption.
  set (hdr := obj_type ++ [SP] ++ Py.str_of_nat (length content)).
  assert (Hsplit : encoded obj_type content =
                   Codec.encode hdr ++ x00 :: content).
  { unfold encoded, hdr.
    replace (obj_type ++ [SP] ++ Py.str_of_nat (length content) ++ [NUL])
      with ((obj_type ++ [SP] ++ Py.str_of_nat (length content)) ++ [NUL])
      by now rewrite <- !app_assoc.
    now rewrite encode_app, <- app_assoc. }
  rewrite Hsplit. unfold Py.slice_to, Py.slice_from.
  rewrite take_app_length.
  rewrite drop_past.
  rewrite decode_encode. unfold hdr.
  change (obj_type ++ [SP] ++ Py.str_of_nat (length content))
    with (obj_type ++ SP :: Py.str_of_nat (length content)).
  now rewrite split_ws_first.
Qed.

(** A method that returned [v] left the pair of [v] and a file system. *)
Lemma returned {A} (r : outcome A * gmap Path.t node) (v : A) :
  fst r = Ok v -> r = (Ok v, snd r).
Proof. destruct r as [x fs]. simpl. now intros ->. Qed.

Lemma write_bytes_ok (fs : gmap Path.t node) (p : Path.t) (data : bytes) :
  Fs.is_dir fs p = false ->
  Fs.stat fs (Path.parent p) = Some Dir ->
  Fs.write_bytes fs p data = Ok (<[p := File data]> fs).
Proof.
  unfold Fs.write_bytes, Fs.is_dir. intros Hp ->.
  destruct (Fs.stat fs p) as [[|]|]; (discriminate || reflexivity).
Qed.

(** C1.  Where nothing stands in the way of the write, [store_object]
    returns, and what it returns is the SHA-1 hex digest of the header
    [<type> <len>\0] followed by the content. *)
Theorem store_object_hash (self : ObjectStore.t) (content : bytes)
    (obj_type : str) (fs : gmap Path.t node) :
  let header :=
    Codec.encode (obj_type ++ [SP] ++ Py.str_of_nat (length content) ++ [NUL]) in
  can_store self fs (Sha1.hexdigest (header ++ content)) = true ->
  exists fs',
    ObjectStore.store_object self content obj_type fs =
    (Ok (Sha1.hexdigest (header ++ content)), fs').
Proof.
  intros header. subst header. fold (encoded obj_type content).
  set (h := Sha1.hexdigest (encoded obj_type content)).
  unfold can_store. cbv zeta. intros Hcan.
  apply andb_prop in Hcan as [Hcan Hobj]. apply andb_prop in Hcan as [Hdir Hshard].
  apply negb_true_iff in Hobj.
  pose proof (object_path_of_digest self (encoded obj_type content)) as Hp.
  cbv zeta in Hp. fold h in Hp.
  set (p := ObjectStore._get_object_path self h) in *.
  set (objects := ObjectStore.objects_path self) in *.
  assert (Hparent : Path.parent p = objects ++ [take 2 h]).
  { rewrite Hp. unfold Path.parent.
    change [take 2 h; drop 2 h] with ([take 2 h] ++ [drop 2 h]).
    rewrite app_assoc. apply removelast_last. }
  assert (Hgrand : Path.parent (Path.parent p) = objects).
  { rewrite Hparent. apply removelast_last. }
  assert (Hobjects : Fs.stat fs objects = Some Dir).
  { unfold Fs.is_dir in Hdir.
    destruct (Fs.stat fs objects) as [[|]|]; (discriminate || reflexivity). }
  assert (Hne : Path.parent p <> []).
  { rewrite Hparent. intros E. symmetry in E.
    exact (app_cons_not_nil _ _ _ E). }
  destruct (Fs.stat fs (Path.parent p)) as [[|data]|] eqn:Eshard;
    [| discriminate Hshard |].
  - exists (<[p := File (encoded obj_type content)]> fs).
    apply store_object_run with (fs0 := fs).
    + now apply mkdir_existing.
    + now apply write_bytes_ok.
  - exists (<[p := File (encoded obj_type content)]> (<[Path.parent p := Dir]> fs)).
    apply store_object_run with (fs0 := <[Path.parent p := Dir]> fs).
    + apply mkdir_child; [assumption | assumption | now rewrite Hgrand].
    + apply write_bytes_ok.
      * unfold Fs.is_dir in *. rewrite stat_insert_ne; [assumption|].
        apply parent_nonempty_ne. rewrite Hp. intros E. symmetry in E.
        exact (app_cons_not_nil _ _ _ E).
      * now apply stat_insert_eq.
Qed.

Lemma store_object_hash_witness :
  can_store (Repository.object_store example_repo) example_fresh
    (Sha1.hexdigest (Codec.encode (lit "blob 5" ++ [NUL] ++ lit "hello"))) = true
  /\ exists fs',
       ObjectStore.store_object (Repository.object_store example_repo)
         (Codec.encode (lit "hello")) (lit "blob") example_fresh =
       (Ok (Sha1.hexdigest (Codec.encode (lit "blob 5" ++ [NUL] ++ lit "hello"))),
        fs').
Proof.
  split; [vm_compute; reflexivity|].
  apply (store_object_hash (Repository.object_store example_repo)
           (Codec.encode (lit "hello")) (lit "blob") example_fresh).
  vm_compute; reflexivity.
Defined.

(** The digest of the record of the blob [hello]. *)
Example hello_blob_hash :
  Sha1.hexdigest (encoded (lit "blob") (Codec.encode (lit "hello")))
  = lit "b6fc4c620b67d95f953a5c1c1230aaab5db5a1b0".
Proof. vm_compute. reflexivity. Qed.

Lemma object_types_words (obj_type : str) :
  In obj_type object_types -> word obj_type = true.
Proof.
  unfold object_types. simpl.
  intros [<- | [<- | [<- | []]]]; reflexivity.
Qed.

(** C2.  An object stored under one of the three type tags is read back
    as it was stored, type and content; the record is cut at its first
    zero byte, which is the one that ends the header, whatever bytes the
    content holds. *)
Theorem get_object_after_store (self : ObjectStore.t) (content : bytes)
    (obj_type : str) (fs fs1 : gmap Path.t node) (h : str) :
  In obj_type object_types ->
  ObjectStore.store_object self content obj_type fs = (Ok h, fs1) ->
  ObjectStore.get_object self h fs1 = (Ok (obj_type, content), fs1)
  /\ Py.find x00 (encoded obj_type content) =
     Some (length (Codec.encode
                     (obj_type ++ [SP] ++ Py.str_of_nat (length content)))).
Proof.
  intros Htype Hstore. apply object_types_words in Htype. split.
  - now apply get_object_after_store_word with (fs := fs).
  - now apply find_NUL_encoded.
Qed.

Lemma get_object_after_store_witness :
  In (lit "tree") object_types
  /\ example_stored = (Ok example_hash, snd example_stored)
  /\ ObjectStore.get_object (Repository.object_store example_repo)
       example_hash (snd example_stored)
     = (Ok (lit "tree", [x00; x61; x00; x0a]), snd example_stored)
  /\ Py.find x00 (encoded (lit "tree") [x00; x61; x00; x0a]) = Some 6.
Proof.
  assert (Htype : In (lit "tree") object_types) by (vm_compute; auto).
  assert (Hstore : example_stored = (Ok example_hash, snd example_stored)).
  { apply returned. vm_compute. reflexivity. }
  split; [exact Htype|]. split; [exact Hstore|].
  exact (get_object_after_store (Repository.object_store example_repo)
           [x00; x61; x00; x0a] (lit "tree") example_fresh
           (snd example_stored) example_hash Htype Hstore).
Defined.

Lemma store_object_idempotent_witness :
  example_stored = (Ok example_hash, snd example_stored)
  /\ ObjectStore.store_object (Repository.object_store example_repo)
       [x00; x61; x00; x0a] (lit "tree") (snd example_stored)
     = (Ok example_hash, snd example_stored)
  /\ Fs.read_bytes (snd example_stored)
       (ObjectStore._get_object_path (Repository.object_store example_repo)
          example_hash)
     = Ok (encoded (lit "tree") [x00; x61; x00; x0a]).
Proof.
  assert (Hstore : example_stored = (Ok example_hash, snd example_stored)).
  { apply returned. vm_compute. reflexivity. }
  split; [exact Hstore|].
  exact (store_object_idempotent (Repository.object_store example_repo)
           [x00; x61; x00; x0a] (lit "tree") example_fresh
           (snd example_stored) example_hash Hstore).
Defined.

(** ** The staging index *)

(** C4, as amended.  [load] empties the staging map when [json.load]
    raises [JSONDecodeError]; with no index file it leaves the map as it
    is, which for a new [Index] is the empty map; every exception of
    [open] or [json.load] outside the [except] clause is raised. *)
Theorem load_tolerates_invalid_json (entries : Index.entries_t) (e : exn) :
  Index.load (Index.Present (Raise JSONDecodeError)) entries = Ok []
  /\ Index.load Index.Absent entries = Ok entries
  /\ Index.__init__ Index.Absent = Ok []
  /\ Index.load (Index.Present (Raise e)) entries =
     (if Index.caught e then Ok [] else Raise e).
Proof. repeat split; destruct e; reflexivity. Qed.

(** C4, as stated, fails: an index file that cannot be decoded as text
    (the single byte 0xFF, say) or cannot be opened makes [load] raise. *)
Lemma load_unreadable_index_raises :
  Index.__init__ (Index.Present (Raise UnicodeDecodeError))
    = Raise UnicodeDecodeError
  /\ Index.__init__ (Index.Present (Raise PermissionError))
    = Raise PermissionError.
Proof. split; reflexivity. Qed.

(** A well-formed JSON document of the wrong shape is not tolerated
    either: the exceptions it leads to are not the ones [load] catches. *)
Example load_wrong_shape_raises :
  Index.__init__ (Index.Present (Ok (JArray []))) = Raise AttributeError
  /\ Index.__init__
       (Index.Present
          (Ok (JObject [(lit "a.txt", JObject [(lit "path", JString (lit "a.txt"))])])))
     = Raise TypeError.
Proof. split; reflexivity. Qed.

(** ** [init] and [checkout] *)

Lemma is_repository_reads (self : Repository.t) (fs : gmap Path.t node) :
  snd (Repository.is_repository self fs) = fs.
Proof. reflexivity. Qed.

(** C10.  In a directory that already is a repository [init] returns
    the message [Repository already exists at <path>] and writes nothing:
    the file system it leaves is the one it found. *)
Theorem init_on_repository (self : Repository.t) (fs : gmap Path.t node) :
  fst (Repository.is_repository self fs) = Ok true ->
  Repository.init self fs =
    (Ok (lit "Repository already exists at "
         ++ Path.to_str (Repository.path self)), fs).
Proof.
  intros Hrepo. unfold Repository.init, bind.
  destruct (Repository.is_repository self fs) as [r fs'] eqn:E.
  pose proof (is_repository_reads self fs) as Hfs. rewrite E in Hfs.
  simpl in *. subst. reflexivity.
Qed.

(** C8.  In a repository whose [HEAD] is not a directory, [checkout]
    of a branch whose ref file exists returns after replacing [HEAD] by
    the line [ref: refs/heads/<name>]; without the ref file it raises
    [Branch <name> does not exist] and leaves the file system as it was.
    In both cases every path other than [HEAD] (working-tree files,
    objects, refs, the index) holds what it held before. *)
Theorem checkout_moves_head_only (self : Repository.t) (fs : gmap Path.t node)
    (branch_name : str) :
  fst (Repository.is_repository self fs) = Ok true ->
  Fs.is_dir fs (Repository.head_path self) = false ->
  Repository.checkout self branch_name fs =
    (if Fs.exists_ fs (Repository.branch_path self branch_name)
     then (Ok (lit "Switched to branch '" ++ branch_name ++ lit "'"),
           <[Repository.head_path self :=
               File (Codec.encode (lit "ref: refs/heads/" ++ branch_name ++ [LF]))]> fs)
     else (Raise (PyGitError (lit "Branch " ++ branch_name
                              ++ lit " does not exist")), fs))
  /\ forall p, p <> Repository.head_path self ->
       snd (Repository.checkout self branch_name fs) !! p = fs !! p.
Proof.
  intros Hrepo Hhead.
  assert (Hpar : Fs.stat fs (Path.parent (Repository.head_path self)) = Some Dir).
  { unfold Repository.head_path. rewrite parent_div by reflexivity.
    unfold Repository.is_repository, inspect in Hrepo. simpl in Hrepo.
    unfold Fs.is_dir, Fs.exists_ in Hrepo.
    destruct (Fs.stat fs (Repository.pygit_path self)) as [[|]|]; simpl in Hrepo;
      congruence. }
  assert (Hco : Repository.checkout self branch_name fs =
    (if Fs.exists_ fs (Repository.branch_path self branch_name)
     then (Ok (lit "Switched to branch '" ++ branch_name ++ lit "'"),
           <[Repository.head_path self :=
               File (Codec.encode (lit "ref: refs/heads/" ++ branch_name ++ [LF]))]> fs)
     else (Raise (PyGitError (lit "Branch " ++ branch_name
                              ++ lit " does not exist")), fs))).
  { unfold Repository.checkout, bind.
    unfold Repository.is_repository, inspect in *. simpl in Hrepo.
    injection Hrepo as Hrepo. rewrite Hrepo. simpl.
    destruct (Fs.exists_ fs (Repository.branch_path self branch_name)); simpl;
      [|reflexivity].
    unfold update, Fs.write_text, Fs.write_bytes.
    fold (Repository.head_path self).
    unfold Fs.is_dir in Hhead. rewrite Hpar.
    destruct (Fs.stat fs (Repository.head_path self)) as [[|]|] eqn:E;
      try discriminate; reflexivity. }
  split; [exact Hco|].
  intros p Hp. rewrite Hco.
  destruct (Fs.exists_ fs (Repository.branch_path self branch_name)); simpl;
    [|reflexivity].
  now rewrite lookup_insert_ne.
Qed.

Lemma init_on_repository_witness :
  fst (Repository.is_repository example_repo example_fresh) = Ok true
  /\ Repository.init example_repo example_fresh =
     (Ok (lit "Repository already exists at /work"), example_fresh).
Proof.
  split; [vm_compute; reflexivity|].
  apply (init_on_repository example_repo example_fresh).
  vm_compute; reflexivity.
Defined.

Lemma checkout_moves_head_only_witness :
  fst (Repository.is_repository example_repo example_branched) = Ok true
  /\ Fs.is_dir example_branched (Repository.head_path example_repo) = false
  /\ Repository.checkout example_repo (lit "dev") example_branched =
     (Ok (lit "Switched to branch 'dev'"),
      <[Repository.head_path example_repo :=
          File (Codec.encode (lit "ref: refs/heads/dev" ++ [LF]))]>
        example_branched)
  /\ Repository.checkout example_repo (lit "nope") example_branched =
     (Raise (PyGitError (lit "Branch nope does not exist")), example_branched).
Proof.
  assert (H1 : fst (Repository.is_repository example_repo example_branched)
               = Ok true) by (vm_compute; reflexivity).
  assert (H2 : Fs.is_dir example_branched (Repository.head_path example_repo)
               = false) by (vm_compute; reflexivity).
  split; [exact H1|]. split; [exact H2|]. split.
  - exact (proj1 (checkout_moves_head_only example_repo example_branched
                    (lit "dev") H1 H2)).
  - exact (proj1 (checkout_moves_head_only example_repo example_branched
                    (lit "nope") H1 H2)).
Defined.

(** ** The order of [str] and the sort *)

Section StrOrder.

Import Builtins.

Lemma ord_inj (x y : ascii) : Py.ord x = Py.ord y -> x = y.
Proof.
  unfold Py.ord. intros H.
  rewrite <- (ascii_N_embedding x), <- (ascii_N_embedding y). now rewrite H.
Qed.

Lemma str_compare_refl (a : str) : str_compare a a = Eq.
Proof.
  induction a as [|x a IH]; [reflexivity|].
  simpl. now rewrite N.compare_refl.
Qed.

Lemma str_compare_eq (a b : str) : str_compare a b = Eq -> a = b.
Proof.
  revert b. induction a as [|x a IH]; intros [|y b]; simpl; try discriminate;
    [reflexivity|].
  destruct (N.compare_spec (Py.ord x) (Py.ord y)) as [E| |]; try discriminate.
  intros H. apply ord_inj in E. subst. f_equal. auto.
Qed.

Lemma str_compare_antisym (a b : str) :
  str_compare b a = CompOpp (str_compare a b).
Proof.
  revert b. induction a as [|x a IH]; intros [|y b]; simpl; try reflexivity.
  rewrite (N.compare_antisym (Py.ord x) (Py.ord y)).
  destruct (N.compare (Py.ord x) (Py.ord y)); simpl; auto.
Qed.

Lemma str_compare_lt_trans (a b c : str) :
  str_compare a b = Lt -> str_compare b c = Lt -> str_compare a c = Lt.
Proof.
  revert b c.
  induction a as [|x a IH]; intros [|y b] [|z c]; simpl; try discriminate;
    try reflexivity.
  destruct (N.compare_spec (Py.ord x) (Py.ord y)) as [Exy|Lxy|Gxy];
    try discriminate;
    destruct (N.compare_spec (Py.ord y) (Py.ord z)) as [Eyz|Lyz|Gyz];
    try discriminate; intros Hab Hbc.
  - rewrite Exy, Eyz, N.compare_refl. eauto.
  - rewrite Exy. now apply N.compare_lt_iff in Lyz as ->.
  - rewrite <- Eyz. now apply N.compare_lt_iff in Lxy as ->.
  - assert (L : (Py.ord x < Py.ord z)%N) by lia.
    now apply N.compare_lt_iff in L as ->.
Qed.

Lemma str_ltb_irrefl (a : str) : str_ltb a a = false.
Proof. unfold str_ltb. now rewrite str_compare_refl. Qed.

Lemma str_ltb_le (a b : str) : str_ltb a b = true -> str_le a b.
Proof.
  unfold str_le, str_ltb. rewrite (str_compare_antisym a b).
  destruct (str_compare a b); simpl; congruence.
Qed.

Lemma str_le_cases (a b : str) : str_le a b -> str_ltb a b = true \/ a = b.
Proof.
  unfold str_le, str_ltb. rewrite (str_compare_antisym a b).
  destruct (str_compare a b) eqn:E; simpl; try congruence; auto.
  right. now apply str_compare_eq.
Qed.

Lemma str_le_trans (a b c : str) : str_le a b -> str_le b c -> str_le a c.
Proof.
  intros Hab Hbc.
  destruct (str_le_cases _ _ Hab) as [Lab| ->]; [|assumption].
  destruct (str_le_cases _ _ Hbc) as [Lbc| <-]; [|assumption].
  apply str_ltb_le. unfold str_ltb in *.
  destruct (str_compare a b) eqn:E1; try discriminate.
  destruct (str_compare b c) eqn:E2; try discriminate.
  now rewrite (str_compare_lt_trans _ _ _ E1 E2).
Qed.

Lemma str_le_antisym (a b : str) : str_le a b -> str_le b a -> a = b.
Proof.
  intros Hab Hba. destruct (str_le_cases _ _ Hab) as [L|E]; [|assumption].
  unfold str_le in Hba. congruence.
Qed.

Context {A : Type} (key : A -> str).

Lemma insert_sorted_perm (x : A) (l : list A) :
  Permutation (insert_sorted key x l) (x :: l).
Proof.
  induction l as [|y l IH]; simpl; [reflexivity|].
  destruct (str_ltb (key y) (key x)); [|reflexivity].
  rewrite IH. apply perm_swap.
Qed.

Lemma sort_perm (l : list A) : Permutation (sort key l) l.
Proof.
  induction l as [|x l IH]; simpl; [reflexivity|].
  rewrite insert_sorted_perm. now constructor.
Qed.

Lemma insert_sorted_sorted (x : A) (l : list A) :
  StronglySorted (key_le key) l -> StronglySorted (key_le key) (insert_sorted key x l).
Proof.
  induction l as [|y l IH]; intros Hs; simpl.
  - repeat constructor.
  - inversion Hs as [|? ? Hl Hall]; subst.
    destruct (str_ltb (key y) (key x)) eqn:E.
    + constructor; [auto|].
      rewrite List.Forall_forall. intros z Hz.
      apply (Permutation_in _ (insert_sorted_perm x l)) in Hz.
      destruct Hz as [<- | Hz].
      * now apply str_ltb_le.
      * rewrite List.Forall_forall in Hall. auto.
    + constructor; [assumption|].
      constructor; [exact E|].
      rewrite List.Forall_forall in *. intros z Hz.
      apply str_le_trans with (key y); [exact E | now apply Hall].
Qed.

Lemma sort_sorted (l : list A) : StronglySorted (key_le key) (sort key l).
Proof.
  induction l as [|x l IH]; simpl; [constructor|].
  now apply insert_sorted_sorted.
Qed.

(** Two sorted arrangements of the same elements are the same list, when
    the elements differ in their keys. *)
Lemma sorted_unique (l1 l2 : list A) :
  StronglySorted (key_le key) l1 -> StronglySorted (key_le key) l2 ->
  Permutation l1 l2 ->
  (forall a b, In a l1 -> In b l1 -> key a = key b -> a = b) ->
  l1 = l2.
Proof.
  revert l2. induction l1 as [|x l1 IH]; intros l2 H1 H2 Hp Hinj.
  - now apply Permutation_nil in Hp.
  - destruct l2 as [|y l2].
    { symmetry in Hp. now apply Permutation_nil in Hp. }
    inversion H1 as [|? ? Hs1 Ha1]; subst.
    inversion H2 as [|? ? Hs2 Ha2]; subst.
    rewrite List.Forall_forall in Ha1, Ha2.
    assert (Hyin : In y (x :: l1)).
    { apply Permutation_in with (y :: l2); [now symmetry | now left]. }
    assert (Hxin : In x (y :: l2)).
    { apply Permutation_in with (x :: l1); [assumption | now left]. }
    assert (E : x = y).
    { destruct Hyin as [E | Hy]; [assumption|].
      destruct Hxin as [E | Hx']; [now symmetry|].
      apply Hinj; [now left | now right |].
      apply str_le_antisym; [now apply Ha1 | now apply Ha2]. }
    subst y. f_equal. apply IH; auto.
    + now apply Permutation_cons_inv in Hp.
    + intros a b Ha Hb. apply Hinj; now right.
Qed.

Lemma NoDup_keys_inj (l : list A) (a b : A) :
  NoDup (map key l) -> In a l -> In b l -> key a = key b -> a = b.
Proof.
  induction l as [|x l IH]; simpl; intros Hnd Ha Hb E; [contradiction|].
  apply NoDup_cons in Hnd as [Hx Hnd].
  destruct Ha as [<- | Ha], Hb as [<- | Hb]; auto.
  - exfalso. apply Hx. rewrite E. apply list_elem_of_In. now apply in_map.
  - exfalso. apply Hx. rewrite <- E. apply list_elem_of_In. now apply in_map.
Qed.

End StrOrder.



(** ** The tree builder *)

Lemma collect_entries_map (staged_files : list (str * FileEntry.t)) :
  Repository.collect_entries staged_files = map tree_entry_of staged_files.
Proof.
  unfold Repository.collect_entries.
  assert (G : forall acc,
    fold_left
      (fun tree_entries '(file_path, entry) =>
         tree_entries ++
         [{| TreeEntry.mode := FileEntry.mode entry;
             TreeEntry.name := Path.basename file_path;
             TreeEntry.hash := FileEntry.hash entry;
             TreeEntry.type := lit "blob" |}])
      staged_files acc = acc ++ map tree_entry_of staged_files).
  { induction staged_files as [|[p e] l IH]; intros acc; simpl.
    - now rewrite app_nil_r.
    - rewrite IH, <- app_assoc. reflexivity. }
  apply G.
Qed.

Lemma serialize_tree_concat (tree_entries : list TreeEntry.t) :
  Repository.serialize_tree tree_entries =
  concat (map Repository.record tree_entries).
Proof.
  unfold Repository.serialize_tree.
  assert (G : forall acc,
    fold_left (fun tree_content entry => tree_content ++ Repository.record entry)
      tree_entries acc = acc ++ concat (map Repository.record tree_entries)).
  { induction tree_entries as [|e l IH]; intros acc; simpl.
    - now rewrite app_nil_r.
    - rewrite IH, <- app_assoc. reflexivity. }
  apply G.
Qed.

Lemma sorted_entries_perm (staged_files : list (str * FileEntry.t)) :
  Permutation (Repository.sorted_entries staged_files)
    (map tree_entry_of staged_files).
Proof.
  unfold Repository.sorted_entries.
  rewrite sort_perm. now rewrite collect_entries_map.
Qed.

Lemma sorted_names_perm (staged_files : list (str * FileEntry.t)) :
  Permutation (map TreeEntry.name (Repository.sorted_entries staged_files))
    (map (fun staged => Path.basename (fst staged)) staged_files).
Proof. rewrite sorted_entries_perm, map_map. reflexivity. Qed.

(** With different last segments the whole tree, and so its hash, does
    not depend on the order of staging. *)
Lemma tree_content_order_independent
    (staged_files reordered : list (str * FileEntry.t)) :
  NoDup (map (fun staged => Path.basename (fst staged)) staged_files) ->
  Permutation staged_files reordered ->
  Repository.tree_content staged_files = Repository.tree_content reordered.
Proof.
  intros Hnd Hp. unfold Repository.tree_content. f_equal.
  apply (sorted_unique TreeEntry.name).
  - apply sort_sorted.
  - apply sort_sorted.
  - rewrite !sorted_entries_perm. now apply Permutation_map.
  - intros a b Ha Hb.
    apply NoDup_keys_inj with (l := Repository.sorted_entries staged_files);
      [|assumption|assumption].
    now rewrite sorted_names_perm.
Qed.



(** C3, as stated, fails: two staged paths with the same last segment
    give two records with the same name; neither overwrites the other. *)
Lemma create_tree_keeps_colliding_names :
  NoDup (map fst example_colliding)
  /\ Repository.tree_content example_colliding
     = lit "644 x.txt" ++ [NUL]
       ++ lit "b6fc4c620b67d95f953a5c1c1230aaab5db5a1b0" ++ [LF]
       ++ lit "644 x.txt" ++ [NUL]
       ++ lit "da39a3ee5e6b4b0d3255bfef95601890afd80709" ++ [LF]
  /\ ~ NoDup (map TreeEntry.name (Repository.sorted_entries example_colliding)).
Proof.
  split; [|split].
  - refine (bool_decide_eq_true_1 _ _). vm_compute. reflexivity.
  - vm_compute. reflexivity.
  - refine (bool_decide_eq_false_1 _ _). vm_compute. reflexivity.
Qed.

(** C3, as amended.  The serialised tree holds exactly one record for
    every staged entry, so many for one name as there are staged paths
    ending in it; its names are pairwise different exactly when the last
    segments of the staged paths are. *)
Theorem create_tree_one_record_per_entry
    (staged_files : list (str * FileEntry.t)) :
  let tree_entries := Repository.sorted_entries staged_files in
  length tree_entries = length staged_files
  /\ Permutation (map TreeEntry.name tree_entries)
       (map (fun staged => Path.basename (fst staged)) staged_files)
  /\ (NoDup (map TreeEntry.name tree_entries)
      <-> NoDup (map (fun staged => Path.basename (fst staged)) staged_files))
  /\ Repository.tree_content staged_files
     = concat (map Repository.record tree_entries).
Proof.
  intros tree_entries.
  pose proof (sorted_names_perm staged_files) as Hp. fold tree_entries in Hp.
  repeat split.
  - unfold tree_entries.
    rewrite (Permutation_length (sorted_entries_perm staged_files)).
    apply length_map.
  - exact Hp.
  - intros H. now rewrite <- Hp.
  - intros H. now rewrite Hp.
  - unfold Repository.tree_content. apply serialize_tree_concat.
Qed.

(** ** Lines, fields and numbers of a commit *)

Lemma char_eqb_refl (c : ascii) : Py.char_eqb c c = true.
Proof. apply Ascii.eqb_refl. Qed.

Lemma char_eqb_true (c d : ascii) : Py.char_eqb c d = true -> c = d.
Proof. apply Ascii.eqb_eq. Qed.

Lemma without_app (sep : ascii) (a b : str) :
  without sep (a ++ b) = without sep a && without sep b.
Proof. apply forallb_app. Qed.

Lemma without_rev (sep : ascii) (s : str) :
  without sep (rev s) = without sep s.
Proof.
  induction s as [|c s IH]; [reflexivity|].
  simpl. rewrite without_app, IH. simpl.
  rewrite andb_true_r. apply andb_comm.
Qed.

Lemma no_space_without (sep : ascii) (s : str) :
  Py.isspace sep = true -> no_space s = true -> without sep s = true.
Proof.
  intros Hsep. induction s as [|c s IH]; [reflexivity|].
  simpl. intros H. apply andb_prop in H as [Hc Hs].
  rewrite IH by assumption. rewrite andb_true_r.
  destruct (Py.char_eqb c sep) eqn:E; [|reflexivity].
  apply char_eqb_true in E. subst. now rewrite Hsep in Hc.
Qed.

Lemma split_nonempty (sep : ascii) (s : str) : Py.split sep s <> [].
Proof.
  destruct s as [|c s]; simpl; [discriminate|].
  destruct (Py.char_eqb c sep); [discriminate|].
  destruct (Py.split sep s); discriminate.
Qed.

(** A line without the separator is the first piece of a split. *)
Lemma split_line (sep : ascii) (l rest : str) :
  without sep l = true ->
  Py.split sep (l ++ sep :: rest) = l :: Py.split sep rest.
Proof.
  induction l as [|c l IH]; simpl; intros H.
  - now rewrite char_eqb_refl.
  - apply andb_prop in H as [Hc Hl]. apply negb_true_iff in Hc.
    rewrite Hc, IH by assumption. reflexivity.
Qed.

(** Joining the pieces with the separator gives the string back. *)
Lemma join_split (sep : ascii) (s : str) :
  Py.join [sep] (Py.split sep s) = s.
Proof.
  induction s as [|c s IH]; [reflexivity|].
  simpl. destruct (Py.char_eqb c sep) eqn:E.
  - apply char_eqb_true in E. subst c.
    pose proof (split_nonempty sep s) as Hne.
    destruct (Py.split sep s) as [|w ws]; [congruence|].
    simpl in *. now rewrite IH.
  - pose proof (split_nonempty sep s) as Hne.
    destruct (Py.split sep s) as [|w ws]; [congruence|].
    destruct ws as [|w' ws]; simpl in *; now rewrite <- IH.
Qed.

Lemma splitn_word (sep : ascii) (n : nat) (w rest : str) :
  without sep w = true ->
  Py.splitn sep (S n) (w ++ sep :: rest) = w :: Py.splitn sep n rest.
Proof.
  induction w as [|c w IH]; simpl; intros H.
  - now rewrite char_eqb_refl.
  - apply andb_prop in H as [Hc Hw]. apply negb_true_iff in Hc.
    rewrite Hc. simpl in IH. rewrite IH by assumption. reflexivity.
Qed.

Lemma splitn_0 (sep : ascii) (s : str) : Py.splitn sep 0 s = [s].
Proof. destruct s; reflexivity. Qed.

(** The last two fields of a line, cut from the right. *)
Lemma rsplit_fields (sep : ascii) (a s1 s2 : str) :
  without sep s1 = true -> without sep s2 = true ->
  Py.rsplit sep 2 (a ++ sep :: s1 ++ sep :: s2) = [a; s1; s2].
Proof.
  intros H1 H2. unfold Py.rsplit.
  replace (rev (a ++ sep :: s1 ++ sep :: s2))
    with (rev s2 ++ sep :: rev s1 ++ sep :: rev a).
  2:{ rewrite rev_app_distr. simpl. rewrite rev_app_distr. simpl.
      now rewrite <- !app_assoc. }
  rewrite splitn_word by now rewrite without_rev.
  rewrite splitn_word by now rewrite without_rev.
  rewrite splitn_0. simpl. now rewrite !rev_involutive.
Qed.

Lemma lstrip_no_space (s : str) : no_space s = true -> Py.lstrip s = s.
Proof.
  destruct s as [|c s]; [reflexivity|]. simpl. intros H.
  apply andb_prop in H as [Hc _]. apply negb_true_iff in Hc. now rewrite Hc.
Qed.

Lemma no_space_rev (s : str) : no_space (rev s) = no_space s.
Proof.
  unfold no_space. induction s as [|c s IH]; [reflexivity|].
  simpl. rewrite forallb_app, IH. simpl.
  rewrite andb_true_r. apply andb_comm.
Qed.

Lemma strip_no_space (s : str) : no_space s = true -> Py.strip s = s.
Proof.
  intros H. unfold Py.strip, Py.rstrip.
  rewrite (lstrip_no_space s) by assumption.
  rewrite lstrip_no_space by now rewrite no_space_rev.
  apply rev_involutive.
Qed.

Lemma lstrip_length (s : str) : length (Py.lstrip s) <= length s.
Proof.
  induction s as [|c s IH]; simpl; [lia|].
  destruct (Py.isspace c); simpl; lia.
Qed.

Lemma lstrip_fixed (s : str) :
  length (Py.lstrip s) = length s -> Py.lstrip s = s.
Proof.
  destruct s as [|c s]; [reflexivity|]. simpl.
  destruct (Py.isspace c); [|reflexivity].
  pose proof (lstrip_length s). simpl. lia.
Qed.

(** A stripped message followed by a line end strips back to itself. *)
Lemma strip_line (m : str) : Py.strip m = m -> Py.strip (m ++ [LF]) = m.
Proof.
  intros H.
  assert (Hlen : length (Py.strip m) = length m) by now rewrite H.
  unfold Py.strip, Py.rstrip in Hlen. rewrite length_rev in Hlen.
  pose proof (lstrip_length (rev (Py.lstrip m))) as H1.
  pose proof (lstrip_length m) as H2. rewrite length_rev in H1.
  assert (Hl : Py.lstrip m = m) by (apply lstrip_fixed; lia).
  assert (Hr : Py.lstrip (rev m) = rev m).
  { apply lstrip_fixed. rewrite Hl in Hlen. now rewrite length_rev. }
  unfold Py.strip, Py.rstrip.
  destruct m as [|c m]; [reflexivity|].
  assert (Hc : Py.isspace c = false).
  { simpl in Hl. destruct (Py.isspace c); [|reflexivity].
    pose proof (lstrip_length m) as H3. rewrite Hl in H3. simpl in H3. lia. }
  change ((c :: m) ++ [LF]) with (c :: (m ++ [LF])).
  cbn [Py.lstrip]. rewrite Hc.
  change (c :: m ++ [LF]) with ((c :: m) ++ [LF]).
  rewrite rev_app_distr.
  change (rev [LF] ++ rev (c :: m)) with (LF :: rev (c :: m)).
  cbn [Py.lstrip].
  change (Py.isspace LF) with true. cbv iota.
  rewrite Hr. apply rev_involutive.
Qed.

Lemma uint_of_str_of_uint (d : Decimal.uint) :
  Builtins.uint_of_str (Py.str_of_uint d) = Some d.
Proof. induction d; simpl; try rewrite IHd; reflexivity. Qed.

Lemma str_of_uint_no_space (d : Decimal.uint) :
  no_space (Py.str_of_uint d) = true.
Proof. induction d; simpl; auto. Qed.

Lemma str_of_int_no_space (z : Z) : no_space (Py.str_of_int z) = true.
Proof. destruct z; simpl; auto using str_of_uint_no_space. Qed.

Lemma str_of_uint_head (d : Decimal.uint) :
  d <> Decimal.Nil ->
  exists c rest, Py.str_of_uint d = c :: rest
    /\ Py.char_eqb c "-"%char = false /\ Py.char_eqb c "+"%char = false.
Proof. destruct d; intros H; try congruence; simpl; eauto. Qed.

(** [float] reads back the seconds that [str] wrote. *)
Lemma float_of_str_of_int (z : Z) :
  Builtins.float_of_str (Py.str_of_int z) = Ok (Builtins.float_of_int z).
Proof.
  unfold Builtins.float_of_str.
  rewrite strip_no_space by apply str_of_int_no_space.
  destruct z as [|p|p]; [reflexivity| |].
  - simpl Py.str_of_int.
    destruct (str_of_uint_head (Pos.to_uint p)) as (c & rest & E & Hm & Hp).
    { apply Unsigned.to_uint_nonnil. }
    pose proof (uint_of_str_of_uint (Pos.to_uint p)) as Hu.
    rewrite E in *. rewrite Hm, Hp, Hu.
    unfold Z.of_uint. now rewrite Unsigned.of_to.
  - simpl Py.str_of_int. cbv beta iota. rewrite char_eqb_refl.
    destruct (str_of_uint_head (Pos.to_uint p)) as (c & rest & E & Hm & Hp).
    { apply Unsigned.to_uint_nonnil. }
    pose proof (uint_of_str_of_uint (Pos.to_uint p)) as Hu.
    rewrite E in *. rewrite Hu.
    unfold Z.of_uint. now rewrite Unsigned.of_to.
Qed.

(** ** Commits written and read back *)

Section CommitRoundTrip.

Import Repository.

Lemma serialize_commit_text (tree author committer message : str)
    (parent hash : option str) (ts : Q) :
  _serialize_commit
    {| CommitObject.tree := Some tree; CommitObject.parent := parent;
       CommitObject.author := Some author;
       CommitObject.committer := Some committer;
       CommitObject.timestamp := Some ts;
       CommitObject.message := message; CommitObject.hash := hash |}
  = Ok (Codec.encode
          (unlines (header_lines tree parent author committer
                      (Builtins.int_of_float ts))
           ++ message ++ [LF])).
Proof.
  unfold _serialize_commit, header_lines, stamp.
  cbn [CommitObject.tree CommitObject.parent CommitObject.author
       CommitObject.committer CommitObject.timestamp CommitObject.message
       Builtins.format obind].
  destruct parent as [[|c p]|];
    cbn [Builtins.truthy parent_lines app unlines Builtins.format];
    do 2 f_equal;
    repeat first [ rewrite <- !app_assoc
                 | progress cbn [app lit list_ascii_of_string unlines] ];
    reflexivity.
Qed.

Lemma split_unlines (lines : list str) (rest : str) :
  forallb no_newline lines = true ->
  Py.split LF (unlines lines ++ rest) = lines ++ Py.split LF rest.
Proof.
  induction lines as [|l lines IH]; simpl; intros H; [reflexivity|].
  apply andb_prop in H as [Hl Hrest].
  rewrite <- app_assoc. simpl.
  rewrite split_line by assumption. now rewrite IH.
Qed.

Lemma stamp_no_newline (who : str) (seconds : Z) :
  no_newline who = true -> no_newline (stamp who seconds) = true.
Proof.
  intros H. unfold stamp, no_newline in *.
  rewrite without_app, H. simpl.
  rewrite without_app.
  rewrite (no_space_without LF) by (reflexivity || apply str_of_int_no_space).
  reflexivity.
Qed.

Lemma no_newline_app (a b : str) :
  no_newline (a ++ b) = no_newline a && no_newline b.
Proof. apply without_app. Qed.

Lemma header_lines_no_newline (tree : str) (parent : option str)
    (author committer : str) (seconds : Z) :
  no_newline tree = true -> parent_ok parent = true ->
  no_newline author = true -> no_newline committer = true ->
  forallb no_newline (header_lines tree parent author committer seconds) = true.
Proof.
  intros Ht Hp Ha Hc. unfold header_lines.
  rewrite !forallb_app. cbn [forallb].
  rewrite !no_newline_app, Ht.
  rewrite !stamp_no_newline by assumption.
  replace (forallb no_newline (parent_lines parent)) with true;
    [reflexivity|].
  destruct parent as [[|c p]|]; try reflexivity.
  cbn [parent_lines forallb]. rewrite no_newline_app.
  change (no_newline (c :: p) = true) in Hp. now rewrite Hp.
Qed.

Lemma parse_lines_cons (st st' : parse_state) (line : str) (rest : list str) :
  parse_line st line = Ok st' ->
  parse_lines st (line :: rest) = parse_lines st' rest.
Proof. intros H. simpl. now rewrite H. Qed.

Lemma parse_tree_line (tree parent author committer : option str)
    (timestamp : option Q) (lines : list str) (t : str) :
  parse_line
    {| p_tree := tree; p_parent := parent; p_author := author;
       p_committer := committer; p_timestamp := timestamp;
       p_message_lines := lines; p_in_message := false |}
    (lit "tree " ++ t)
  = Ok {| p_tree := Some t; p_parent := parent; p_author := author;
          p_committer := committer; p_timestamp := timestamp;
          p_message_lines := lines; p_in_message := false |}.
Proof.
  unfold parse_line.
  change (Py.startswith (lit "tree " ++ t) (lit "tree ")) with true.
  replace (Py.slice_from 5 (lit "tree " ++ t)) with t
    by (symmetry; apply (drop_app_length (lit "tree ") t)).
  reflexivity.
Qed.

Lemma parse_parent_line (tree parent author committer : option str)
    (timestamp : option Q) (lines : list str) (p : str) :
  parse_line
    {| p_tree := tree; p_parent := parent; p_author := author;
       p_committer := committer; p_timestamp := timestamp;
       p_message_lines := lines; p_in_message := false |}
    (lit "parent " ++ p)
  = Ok {| p_tree := tree; p_parent := Some p; p_author := author;
          p_committer := committer; p_timestamp := timestamp;
          p_message_lines := lines; p_in_message := false |}.
Proof.
  unfold parse_line.
  change (Py.startswith (lit "parent " ++ p) (lit "tree ")) with false.
  change (Py.startswith (lit "parent " ++ p) (lit "parent ")) with true.
  replace (Py.slice_from 7 (lit "parent " ++ p)) with p
    by (symmetry; apply (drop_app_length (lit "parent ") p)).
  reflexivity.
Qed.

Lemma stamp_fields (who : str) (seconds : Z) :
  Py.rsplit SP 2 (stamp who seconds)
  = [who; Py.str_of_int seconds; lit "+0000"].
Proof.
  unfold stamp. apply rsplit_fields; [|reflexivity].
  apply no_space_without; [reflexivity | apply str_of_int_no_space].
Qed.

Lemma parse_author_line (tree parent author committer : option str)
    (timestamp : option Q) (lines : list str) (a : str) (seconds : Z) :
  parse_line
    {| p_tree := tree; p_parent := parent; p_author := author;
       p_committer := committer; p_timestamp := timestamp;
       p_message_lines := lines; p_in_message := false |}
    (lit "author " ++ stamp a seconds)
  = Ok {| p_tree := tree; p_parent := parent; p_author := Some a;
          p_committer := committer;
          p_timestamp := Some (Builtins.float_of_int seconds);
          p_message_lines := lines; p_in_message := false |}.
Proof.
  unfold parse_line.
  change (Py.startswith (lit "author " ++ stamp a seconds) (lit "tree "))
    with false.
  change (Py.startswith (lit "author " ++ stamp a seconds) (lit "parent "))
    with false.
  change (Py.startswith (lit "author " ++ stamp a seconds) (lit "author "))
    with true.
  replace (Py.slice_from 7 (lit "author " ++ stamp a seconds))
    with (stamp a seconds)
    by (symmetry; apply (drop_app_length (lit "author ") (stamp a seconds))).
  cbv beta iota delta [negb].
  rewrite stamp_fields. cbn [Py.index lookup list_lookup obind].
  now rewrite float_of_str_of_int.
Qed.

Lemma parse_committer_line (tree parent author committer : option str)
    (timestamp : option Q) (lines : list str) (c : str) (seconds : Z) :
  parse_line
    {| p_tree := tree; p_parent := parent; p_author := author;
       p_committer := committer; p_timestamp := timestamp;
       p_message_lines := lines; p_in_message := false |}
    (lit "committer " ++ stamp c seconds)
  = Ok {| p_tree := tree; p_parent := parent; p_author := author;
          p_committer := Some c; p_timestamp := timestamp;
          p_message_lines := lines; p_in_message := false |}.
Proof.
  unfold parse_line.
  change (Py.startswith (lit "committer " ++ stamp c seconds) (lit "tree "))
    with false.
  change (Py.startswith (lit "committer " ++ stamp c seconds) (lit "parent "))
    with false.
  change (Py.startswith (lit "committer " ++ stamp c seconds) (lit "author "))
    with false.
  change (Py.startswith (lit "committer " ++ stamp c seconds) (lit "committer "))
    with true.
  replace (Py.slice_from 10 (lit "committer " ++ stamp c seconds))
    with (stamp c seconds)
    by (symmetry; apply (drop_app_length (lit "committer ") (stamp c seconds))).
  cbv beta iota delta [negb].
  rewrite stamp_fields. reflexivity.
Qed.

Lemma parse_blank_line (tree parent author committer : option str)
    (timestamp : option Q) (lines : list str) :
  parse_line
    {| p_tree := tree; p_parent := parent; p_author := author;
       p_committer := committer; p_timestamp := timestamp;
       p_message_lines := lines; p_in_message := false |} []
  = Ok {| p_tree := tree; p_parent := parent; p_author := author;
          p_committer := committer; p_timestamp := timestamp;
          p_message_lines := lines; p_in_message := true |}.
Proof. reflexivity. Qed.

(** Once in the message every line is kept. *)
Lemma parse_message_lines (tree parent author committer : option str)
    (timestamp : option Q) (lines more : list str) :
  parse_lines
    {| p_tree := tree; p_parent := parent; p_author := author;
       p_committer := committer; p_timestamp := timestamp;
       p_message_lines := lines; p_in_message := true |} more
  = Ok {| p_tree := tree; p_parent := parent; p_author := author;
          p_committer := committer; p_timestamp := timestamp;
          p_message_lines := lines ++ more; p_in_message := true |}.
Proof.
  revert lines. induction more as [|l more IH]; intros lines.
  - simpl. now rewrite app_nil_r.
  - simpl. rewrite IH. now rewrite <- app_assoc.
Qed.

Lemma parse_commit (tree author committer : str) (parent : option str)
    (seconds : Z) (more : list str) :
  parent_ok parent = true ->
  parse_lines parse_start
    (header_lines tree parent author committer seconds ++ more)
  = Ok {| p_tree := Some tree; p_parent := parent; p_author := Some author;
          p_committer := Some committer;
          p_timestamp := Some (Builtins.float_of_int seconds);
          p_message_lines := more; p_in_message := true |}.
Proof.
  intros Hp. unfold header_lines, parse_start.
  rewrite <- !app_assoc. cbn [app].
  rewrite (parse_lines_cons _ _ _ _ (parse_tree_line _ _ _ _ _ _ _)).
  destruct parent as [[|c p]|]; [discriminate Hp | |]; cbn [parent_lines app].
  - rewrite (parse_lines_cons _ _ _ _ (parse_parent_line _ _ _ _ _ _ _)).
    rewrite (parse_lines_cons _ _ _ _ (parse_author_line _ _ _ _ _ _ _ _)).
    rewrite (parse_lines_cons _ _ _ _ (parse_committer_line _ _ _ _ _ _ _ _)).
    rewrite (parse_lines_cons _ _ _ _ (parse_blank_line _ _ _ _ _ _)).
    apply parse_message_lines.
  - rewrite (parse_lines_cons _ _ _ _ (parse_author_line _ _ _ _ _ _ _ _)).
    rewrite (parse_lines_cons _ _ _ _ (parse_committer_line _ _ _ _ _ _ _ _)).
    rewrite (parse_lines_cons _ _ _ _ (parse_blank_line _ _ _ _ _ _)).
    apply parse_message_lines.
Qed.

(** C9, as amended.  A commit whose tree, author and committer hold no
    line end, whose parent is absent or a non-empty string without line
    end, and whose message is its own stripped form, is read back from
    the object store as it was written: same tree, parent, author,
    committer and message, the timestamp cut to whole seconds, and the
    hash it is stored under. *)
Theorem load_commit_after_store (self : Repository.t)
    (fs fs1 : gmap Path.t node) (tree author committer message : str)
    (parent hash : option str) (ts : Q) (content : bytes) (h : str) :
  no_newline tree = true ->
  parent_ok parent = true ->
  no_newline author = true ->
  no_newline committer = true ->
  Py.strip message = message ->
  _serialize_commit
    {| CommitObject.tree := Some tree; CommitObject.parent := parent;
       CommitObject.author := Some author;
       CommitObject.committer := Some committer;
       CommitObject.timestamp := Some ts;
       CommitObject.message := message; CommitObject.hash := hash |}
    = Ok content ->
  ObjectStore.store_object (object_store self) content (lit "commit") fs
    = (Ok h, fs1) ->
  _load_commit self h fs1 =
    (Ok {| CommitObject.tree := Some tree; CommitObject.parent := parent;
           CommitObject.author := Some author;
           CommitObject.committer := Some committer;
           CommitObject.timestamp :=
             Some (Builtins.float_of_int (Builtins.int_of_float ts));
           CommitObject.message := message;
           CommitObject.hash := Some h |}, fs1).
Proof.
  intros Ht Hp Ha Hc Hm Hser Hstore.
  rewrite serialize_commit_text in Hser.
  apply (f_equal (fun r => match r with Ok c => c | Raise _ => [] end)) in Hser.
  cbv beta iota in Hser. subst content.
  unfold _load_commit, bind.
  assert (Hw : word (lit "commit") = true) by reflexivity.
  rewrite (get_object_after_store_word _ _ _ _ _ _ Hw Hstore).
  change (negb (bool_decide (lit "commit" = lit "commit"))) with false.
  cbv iota. unfold lift, ret. rewrite decode_encode.
  rewrite split_unlines by now apply header_lines_no_newline.
  rewrite parse_commit by assumption.
  cbn [p_tree p_parent p_author p_committer p_timestamp p_message_lines].
  now rewrite join_split, strip_line.
Qed.

End CommitRoundTrip.

(** C9, as stated, fails.  A tree with an empty line in it comes back cut
    at the line end, and the author after it is taken for message text; a
    parent that is the empty string (what [_get_head_commit] returns for
    an empty ref file) is not written and comes back as [None]. *)
Lemma load_commit_loses_tree_and_parent :
  (no_newline (lit "PyGit User <user@pygit.local>") = true
   /\ Py.strip (lit "first") = lit "first")
  /\ (field CommitObject.tree
        (example_reload (example_commit (lit "a" ++ [LF; LF] ++ lit "b") None))
      = Some (Some (lit "a"))
      /\ field CommitObject.author
           (example_reload (example_commit (lit "a" ++ [LF; LF] ++ lit "b") None))
         = Some None)
  /\ field CommitObject.parent
       (example_reload
          (example_commit (lit "da39a3ee5e6b4b0d3255bfef95601890afd80709")
             (Some [])))
     = Some None.
Proof. repeat split; vm_compute; reflexivity. Qed.

Lemma load_commit_after_store_witness :
  Repository._load_commit example_repo example_commit_hash
    (snd example_commit_stored) =
    (Ok {| CommitObject.tree :=
             Some (lit "da39a3ee5e6b4b0d3255bfef95601890afd80709");
           CommitObject.parent :=
             Some (lit "b6fc4c620b67d95f953a5c1c1230aaab5db5a1b0");
           CommitObject.author := Some (lit "PyGit User <user@pygit.local>");
           CommitObject.committer :=
             Some (lit "PyGit User <user@pygit.local>");
           CommitObject.timestamp := Some (inject_Z 1700000000);
           CommitObject.message := lit "first";
           CommitObject.hash := Some example_commit_hash |},
     snd example_commit_stored).
Proof.
  apply (load_commit_after_store example_repo example_fresh
           (snd example_commit_stored)
           (lit "da39a3ee5e6b4b0d3255bfef95601890afd80709")
           (lit "PyGit User <user@pygit.local>")
           (lit "PyGit User <user@pygit.local>") (lit "first")
           (Some (lit "b6fc4c620b67d95f953a5c1c1230aaab5db5a1b0")) None
           (Qmake 17000000005 10) example_content example_commit_hash).
  - vm_compute. reflexivity.
  - vm_compute. reflexivity.
  - vm_compute. reflexivity.
  - vm_compute. reflexivity.
  - vm_compute. reflexivity.
  - vm_compute. reflexivity.
  - apply returned. vm_compute. reflexivity.
Defined.

(** ** History *)

Lemma read_only_ret {A} (a : A) : read_only (ret a).
Proof. intros fs. reflexivity. Qed.

Lemma read_only_raise {A} (e : exn) : read_only (@raise A e).
Proof. intros fs. reflexivity. Qed.

Lemma read_only_inspect {A} (f : gmap Path.t node -> outcome A) :
  read_only (inspect f).
Proof. intros fs. reflexivity. Qed.

Lemma read_only_lift {A} (x : outcome A) : read_only (lift x).
Proof. intros fs. reflexivity. Qed.

Lemma read_only_bind {A B} (m : M A) (k : A -> M B) :
  read_only m -> (forall a, read_only (k a)) -> read_only (bind m k).
Proof.
  intros Hm Hk fs. unfold bind. specialize (Hm fs).
  destruct (m fs) as [[a|e] fs']; simpl in *; subst; [apply Hk | reflexivity].
Qed.

Ltac reads :=
  repeat first
    [ apply read_only_bind; [|intros ?]
    | apply read_only_ret | apply read_only_raise
    | apply read_only_inspect | apply read_only_lift
    | match goal with
      | |- read_only (if ?b then _ else _) => destruct b
      | |- read_only (match ?x with _ => _ end) => destruct x
      end ].

Lemma get_object_reads (self : ObjectStore.t) (hash_str : str) :
  read_only (ObjectStore.get_object self hash_str).
Proof. unfold ObjectStore.get_object. reads. Qed.

Lemma load_commit_reads (self : Repository.t) (commit_hash : str) :
  read_only (Repository._load_commit self commit_hash).
Proof.
  unfold Repository._load_commit.
  apply read_only_bind; [apply get_object_reads|]. intros [obj_type content].
  reads.
Qed.

Lemma get_head_commit_reads (self : Repository.t) :
  read_only (Repository._get_head_commit self).
Proof. unfold Repository._get_head_commit. reads. Qed.

(** The result of a reading method says all about its run. *)
Lemma read_result {A} (m : M A) (fs : gmap Path.t node) (r : outcome A) :
  read_only m -> fst (m fs) = r -> m fs = (r, fs).
Proof.
  intros Hm Hr. specialize (Hm fs).
  destruct (m fs) as [x fs']. simpl in *. now subst.
Qed.

Lemma log_loop_history (local_date : Q -> outcome str) (self : Repository.t)
    (fs : gmap Path.t node) (commit_hash : option str)
    (commits : list (str * CommitObject.t)) :
  history self fs commit_hash commits ->
  forall (entries : list str) (remaining : nat) (logs : list str),
  Forall2 (fun hc entry =>
             Repository.log_entry local_date (fst hc) (snd hc) = Ok entry)
          commits entries ->
  Repository.log_loop local_date self remaining commit_hash logs fs
  = (Ok (logs ++ take remaining entries), fs).
Proof.
  induction 1 as [commit_hash Hfalse | h commit rest Hne Hload Hrest IH];
    intros entries remaining logs Hentries.
  - inversion Hentries; subst. rewrite take_nil, app_nil_r.
    destruct remaining as [|n]; [reflexivity|].
    destruct commit_hash as [[|c h]|]; try discriminate; reflexivity.
  - inversion Hentries as [|? entry ? entries' Hentry Hrest']; subst.
    destruct h as [|c h]; [congruence|].
    destruct remaining as [|n]; [simpl; now rewrite app_nil_r|].
    cbn [Repository.log_loop]. unfold bind at 1.
    rewrite (read_result _ _ _ (load_commit_reads self (c :: h)) Hload).
    unfold bind at 1, lift. simpl in Hentry. rewrite Hentry.
    rewrite (IH entries' n (logs ++ [entry]) Hrest').
    now rewrite <- app_assoc.
Qed.

(** A chain ends with a commit that has no parent. *)
Lemma history_root (self : Repository.t) (fs : gmap Path.t node)
    (commit_hash : option str) (commits : list (str * CommitObject.t)) :
  history self fs commit_hash commits -> commits <> [] ->
  exists older root_hash root,
    commits = older ++ [(root_hash, root)]
    /\ Builtins.truthy (CommitObject.parent root) = false.
Proof.
  induction 1 as [commit_hash Hfalse | h commit rest Hne Hload Hrest IH];
    intros Hnonempty; [congruence|].
  destruct rest as [|next rest].
  - exists [], h, commit. split; [reflexivity|].
    inversion Hrest. assumption.
  - destruct IH as (older & root_hash & root & E & Hroot); [discriminate|].
    exists ((h, commit) :: older), root_hash, root.
    split; [|assumption]. simpl. now rewrite E.
Qed.

(** C7.  When [HEAD] resolves to a commit that heads a parent chain of
    [L] commits whose entries can be rendered, [log(limit)] returns the
    entries of the first [min(limit, L)] commits of the chain, joined by
    line ends, in the order of the chain: newest first, and ending with
    the commit without parent when the limit allows. *)
Theorem log_follows_history (local_date : Q -> outcome str)
    (self : Repository.t) (fs : gmap Path.t node) (limit : Z) (head : str)
    (commits : list (str * CommitObject.t)) (entries : list str) :
  fst (Repository.is_repository self fs) = Ok true ->
  fst (Repository._get_head_commit self fs) = Ok (Some head) ->
  head <> [] ->
  history self fs (Some head) commits ->
  Forall2 (fun hc entry =>
             Repository.log_entry local_date (fst hc) (snd hc) = Ok entry)
          commits entries ->
  Repository.log local_date self limit fs
    = (Ok (Py.join [LF] (take (Z.to_nat limit) entries)), fs)
  /\ length (take (Z.to_nat limit) entries)
     = Z.to_nat (Z.min limit (Z.of_nat (length commits)))
  /\ exists older root_hash root,
       commits = older ++ [(root_hash, root)]
       /\ Builtins.truthy (CommitObject.parent root) = false.
Proof.
  intros Hrepo Hhead Hne Hhist Hentries. split; [|split].
  - unfold Repository.log. unfold bind at 1.
    rewrite (read_result (Repository.is_repository self) fs _
               (read_only_inspect _) Hrepo).
    cbv beta iota delta [negb]. unfold bind at 1.
    rewrite (read_result _ _ _ (get_head_commit_reads self) Hhead).
    destruct head as [|c h]; [congruence|].
    cbn [Builtins.truthy negb]. unfold bind at 1.
    rewrite (log_loop_history local_date self fs _ _ Hhist entries
               (Z.to_nat limit) [] Hentries).
    reflexivity.
  - rewrite length_take. apply Forall2_length in Hentries. lia.
  - apply (history_root self fs (Some head)); [assumption|].
    intros ->. inversion Hhist as [? Hfalse|].
    destruct head; [congruence | discriminate Hfalse].
Qed.

Lemma log_follows_history_witness :
  Repository.log example_date example_repo 1 example_two_commits
  = (Ok (Py.join [LF] (take 1 [rendered example_second_hash;
                                rendered example_root_hash])),
     example_two_commits)
  /\ Repository.log example_date example_repo 10 example_two_commits
     = (Ok (Py.join [LF] (take 10 [rendered example_second_hash;
                                    rendered example_root_hash])),
        example_two_commits).
Proof.
  assert (Hrepo : fst (Repository.is_repository example_repo
                         example_two_commits) = Ok true)
    by (vm_compute; reflexivity).
  assert (Hhead : fst (Repository._get_head_commit example_repo
                         example_two_commits) = Ok (Some example_second_hash))
    by (vm_compute; reflexivity).
  assert (Hne : example_second_hash <> []) by (vm_compute; discriminate).
  assert (Hhist : history example_repo example_two_commits
                    (Some example_second_hash)
                    [(example_second_hash, loaded example_second_hash);
                     (example_root_hash, loaded example_root_hash)]).
  { apply history_step; [exact Hne | vm_compute; reflexivity |].
    replace (CommitObject.parent (loaded example_second_hash))
      with (Some example_root_hash) by (vm_compute; reflexivity).
    apply history_step;
      [vm_compute; discriminate | vm_compute; reflexivity |].
    apply history_end. vm_compute. reflexivity. }
  assert (Hentries :
    Forall2 (fun hc entry =>
               Repository.log_entry example_date (fst hc) (snd hc) = Ok entry)
      [(example_second_hash, loaded example_second_hash);
       (example_root_hash, loaded example_root_hash)]
      [rendered example_second_hash; rendered example_root_hash]).
  { repeat constructor; vm_compute; reflexivity. }
  split.
  - exact (proj1 (log_follows_history example_date example_repo
                    example_two_commits 1 example_second_hash _ _
                    Hrepo Hhead Hne Hhist Hentries)).
  - exact (proj1 (log_follows_history example_date example_repo
                    example_two_commits 10 example_second_hash _ _
                    Hrepo Hhead Hne Hhist Hentries)).
Defined.

(** The log of the two commits, newest first. *)
Example log_two_commits :
  fst (Repository.log example_date example_repo 10 example_two_commits)
  = Ok (lit "commit " ++ example_second_hash ++ [LF]
        ++ lit "Author: PyGit User <user@pygit.local>" ++ [LF]
        ++ lit "Date: 1700000060" ++ [LF; LF]
        ++ lit "    second" ++ [LF]
        ++ [LF]
        ++ lit "commit " ++ example_root_hash ++ [LF]
        ++ lit "Author: PyGit User <user@pygit.local>" ++ [LF]
        ++ lit "Date: 1700000000" ++ [LF; LF]
        ++ lit "    first" ++ [LF])
  /\ fst (Repository.log example_date example_repo 1 example_two_commits)
     = Ok (lit "commit " ++ example_second_hash ++ [LF]
           ++ lit "Author: PyGit User <user@pygit.local>" ++ [LF]
           ++ lit "Date: 1700000060" ++ [LF; LF]
           ++ lit "    second" ++ [LF]).
Proof. split; vm_compute; reflexivity. Qed.

(** ** White space and line ends in text files *)

(** What [lstrip] removes stands in front of what it leaves. *)
Lemma lstrip_suffix (s : str) : exists ws, s = ws ++ Py.lstrip s.
Proof.
  induction s as [|c s [ws IH]]; [now exists []|].
  simpl. destruct (Py.isspace c).
  - exists (c :: ws). simpl. now f_equal.
  - now exists [].
Qed.

Lemma lstrip_head (s : str) (c : ascii) (rest : str) :
  Py.lstrip s = c :: rest -> Py.isspace c = false.
Proof.
  induction s as [|d s IH]; simpl; [discriminate|].
  destruct (Py.isspace d) eqn:E; [assumption|].
  intros H. injection H as <- _. assumption.
Qed.

Lemma lstrip_idempotent (s : str) : Py.lstrip (Py.lstrip s) = Py.lstrip s.
Proof.
  destruct (Py.lstrip s) as [|c rest] eqn:E; [reflexivity|].
  apply lstrip_head in E. simpl. now rewrite E.
Qed.

Lemma rstrip_idempotent (s : str) : Py.rstrip (Py.rstrip s) = Py.rstrip s.
Proof.
  unfold Py.rstrip. now rewrite rev_involutive, lstrip_idempotent.
Qed.

(** What [rstrip] leaves is the front of the string. *)
Lemma rstrip_prefix (s : str) : exists ws, s = Py.rstrip s ++ ws.
Proof.
  unfold Py.rstrip. destruct (lstrip_suffix (rev s)) as [ws E].
  exists (rev ws).
  rewrite <- rev_app_distr, <- E. now rewrite rev_involutive.
Qed.

Lemma lstrip_rstrip (s : str) :
  Py.lstrip s = s -> Py.lstrip (Py.rstrip s) = Py.rstrip s.
Proof.
  intros H. destruct (rstrip_prefix s) as [ws E].
  destruct (Py.rstrip s) as [|c rest] eqn:Er; [reflexivity|].
  rewrite E in H. simpl in H. simpl.
  destruct (Py.isspace c); [|reflexivity].
  exfalso. pose proof (lstrip_length (rest ++ ws)) as Hl.
  rewrite H in Hl. simpl in Hl. lia.
Qed.

Lemma strip_idempotent (s : str) : Py.strip (Py.strip s) = Py.strip s.
Proof.
  unfold Py.strip.
  rewrite (lstrip_rstrip (Py.lstrip s)) by apply lstrip_idempotent.
  apply rstrip_idempotent.
Qed.

(** A line end after the text does not change what [strip] gives. *)
Lemma strip_newline (s : str) : Py.strip (s ++ [LF]) = Py.strip s.
Proof.
  unfold Py.strip.
  assert (H : forall t, Py.rstrip (t ++ [LF]) = Py.rstrip t).
  { intros t. unfold Py.rstrip. rewrite rev_app_distr. reflexivity. }
  induction s as [|c s IH]; [reflexivity|].
  simpl. destruct (Py.isspace c); [assumption|].
  apply (H (c :: s)).
Qed.

(** A text that ends with something other than white space keeps its end
    under [rstrip], whatever follows in front. *)
Lemma rstrip_fixed_head (s : str) :
  Py.rstrip s = s -> s <> [] ->
  exists c rest, rev s = c :: rest /\ Py.isspace c = false.
Proof.
  unfold Py.rstrip. intros H Hne.
  assert (Hl : Py.lstrip (rev s) = rev s).
  { rewrite <- H at 2. now rewrite rev_involutive. }
  destruct (rev s) as [|c rest] eqn:E.
  - apply (f_equal (@rev ascii)) in E. rewrite rev_involutive in E.
    now subst.
  - exists c, rest. split; [reflexivity|]. now apply lstrip_head in Hl.
Qed.

Lemma rstrip_app (prefix s : str) :
  Py.rstrip s = s -> s <> [] -> Py.rstrip (prefix ++ s) = prefix ++ s.
Proof.
  intros H Hne. destruct (rstrip_fixed_head s H Hne) as (c & rest & E & Hc).
  unfold Py.rstrip. rewrite rev_app_distr, E. simpl. rewrite Hc.
  change (c :: rest ++ rev prefix) with ((c :: rest) ++ rev prefix).
  rewrite <- E, <- rev_app_distr. apply rev_involutive.
Qed.

(** Universal newlines leave no carriage return, and change nothing
    where there is none. *)
Lemma without_cons (sep c : ascii) (s : str) :
  without sep (c :: s) = negb (Py.char_eqb c sep) && without sep s.
Proof. reflexivity. Qed.

Lemma universal_newlines_no_CR_aux (n : nat) (s : str) :
  length s <= n -> without CR (Codec.universal_newlines s) = true.
Proof.
  revert s. induction n as [|n IH]; intros s Hlen.
  - destruct s; [reflexivity | simpl in Hlen; lia].
  - destruct s as [|c s]; [reflexivity|].
    simpl in Hlen. cbn [Codec.universal_newlines].
    destruct (Py.char_eqb c Codec.CR) eqn:Ec.
    + rewrite without_cons.
      change (negb (Py.char_eqb Codec.LF CR)) with true. cbn [andb].
      destruct s as [|d s]; [reflexivity|].
      simpl in Hlen.
      destruct (Py.char_eqb d Codec.LF); apply IH; simpl; lia.
    + rewrite without_cons. unfold CR at 1. rewrite Ec. cbn [negb andb].
      apply IH. lia.
Qed.

Lemma universal_newlines_no_CR (s : str) :
  without CR (Codec.universal_newlines s) = true.
Proof. now apply (universal_newlines_no_CR_aux (length s)). Qed.

Lemma universal_newlines_id (s : str) :
  without CR s = true -> Codec.universal_newlines s = s.
Proof.
  induction s as [|c s IH]; [reflexivity|].
  simpl. intros H. apply andb_prop in H as [Hc Hs].
  apply negb_true_iff in Hc. unfold CR in Hc. rewrite Hc.
  now rewrite IH.
Qed.

Lemma without_strip (sep : ascii) (s : str) :
  without sep s = true -> without sep (Py.strip s) = true.
Proof.
  intros H. unfold Py.strip.
  destruct (lstrip_suffix s) as [ws E].
  destruct (rstrip_prefix (Py.lstrip s)) as [ws' E'].
  rewrite E, without_app in H. apply andb_prop in H as [_ H].
  rewrite E', without_app in H. now apply andb_prop in H as [H _].
Qed.

(** Text written and read back: what [read_text] gives for a file that
    holds the encoding of a text without carriage return. *)
Lemma read_text_written (fs : gmap Path.t node) (p : Path.t) (text : str) :
  Fs.stat fs p = Some (File (Codec.encode text)) ->
  without CR text = true ->
  Fs.read_text fs p = Ok text.
Proof.
  intros H Hcr. unfold Fs.read_text, Fs.read_bytes. rewrite H. simpl.
  rewrite decode_encode. simpl. now rewrite universal_newlines_id.
Qed.

Lemma read_text_no_CR (fs : gmap Path.t node) (p : Path.t) (text : str) :
  Fs.read_text fs p = Ok text -> without CR text = true.
Proof.
  unfold Fs.read_text. destruct (Fs.read_bytes fs p); [|discriminate].
  simpl. destruct (Codec.decode a); [|discriminate].
  simpl. intros H. injection H as <-. apply universal_newlines_no_CR.
Qed.

(** ** Where the files of a repository are *)

Lemma pygit_path_eq (self : Repository.t) :
  Repository.pygit_path self = Repository.path self ++ [PYGIT_DIR].
Proof. unfold Repository.pygit_path. now rewrite div_literal. Qed.

Lemma head_path_eq (self : Repository.t) :
  Repository.head_path self = Repository.path self ++ [PYGIT_DIR; HEAD_FILE].
Proof.
  unfold Repository.head_path. rewrite pygit_path_eq.
  rewrite div_literal by reflexivity. now rewrite <- app_assoc.
Qed.

Lemma heads_dir_eq (self : Repository.t) :
  Repository.pygit_path self </> REFS_DIR </> HEADS_DIR
  = Repository.path self ++ [PYGIT_DIR; REFS_DIR; HEADS_DIR].
Proof.
  rewrite pygit_path_eq. rewrite !div_literal by reflexivity.
  now rewrite <- !app_assoc.
Qed.

Lemma branch_path_relative (self : Repository.t) (branch_name : str) :
  Py.startswith branch_name [Path.SEP] = false ->
  Repository.branch_path self branch_name
  = Repository.path self ++ [PYGIT_DIR; REFS_DIR; HEADS_DIR]
    ++ Path.parts branch_name.
Proof.
  intros H. unfold Repository.branch_path. rewrite heads_dir_eq.
  unfold Path.div at 1. rewrite H. now rewrite <- app_assoc.
Qed.

Lemma objects_path_eq (self : ObjectStore.t) :
  ObjectStore.objects_path self
  = ObjectStore.repo_path self ++ [PYGIT_DIR; OBJECTS_DIR].
Proof.
  unfold ObjectStore.objects_path.
  rewrite !div_literal by reflexivity. now rewrite <- app_assoc.
Qed.

(** A relative branch name does not lead to [HEAD]. *)
Lemma branch_path_not_head (self : Repository.t) (branch_name : str) :
  Py.startswith branch_name [Path.SEP] = false ->
  Repository.branch_path self branch_name <> Repository.head_path self.
Proof.
  intros H. rewrite branch_path_relative, head_path_eq by assumption.
  intros E. apply app_inv_head in E. discriminate E.
Qed.

(** ** Reading [HEAD] *)

Lemma strip_ref_line (branch_name : str) :
  Py.rstrip branch_name = branch_name ->
  Py.strip (lit "ref: refs/heads/" ++ branch_name ++ [LF])
  = lit "ref: refs/heads/" ++ branch_name.
Proof.
  intros H. rewrite app_assoc, strip_newline. unfold Py.strip.
  change (Py.lstrip (lit "ref: refs/heads/" ++ branch_name))
    with (lit "ref: refs/heads/" ++ branch_name).
  destruct branch_name as [|c s].
  - rewrite app_nil_r. reflexivity.
  - apply rstrip_app; [assumption | discriminate].
Qed.

Lemma hex_no_space (h : str) : forallb is_hex h = true -> no_space h = true.
Proof.
  induction h as [|c h IH]; [reflexivity|]. simpl.
  intros H. apply andb_prop in H as [Hc Hh]. rewrite IH by assumption.
  rewrite andb_true_r.
  destruct c as [[] [] [] [] [] [] [] []]; try discriminate Hc; reflexivity.
Qed.

Lemma hex_not_ref (h : str) :
  forallb is_hex h = true ->
  Py.startswith h (lit "ref: refs/heads/") = false.
Proof.
  destruct h as [|c h]; [reflexivity|]. simpl.
  intros H. apply andb_prop in H as [Hc _].
  destruct c as [[] [] [] [] [] [] [] []]; try discriminate Hc; reflexivity.
Qed.

Lemma hex_no_CR (h : str) : forallb is_hex h = true -> without CR h = true.
Proof.
  intros H. apply no_space_without; [reflexivity | now apply hex_no_space].
Qed.

(** What a hash line reads back as. *)
Lemma strip_hash_line (h : str) :
  forallb is_hex h = true -> Py.strip (h ++ [LF]) = h.
Proof.
  intros H. rewrite strip_newline. now apply strip_no_space, hex_no_space.
Qed.

(** The two readers of [HEAD], when it holds a symbolic reference. *)
Lemma current_branch_symbolic (self : Repository.t) (fs : gmap Path.t node)
    (branch_name : str) :
  Fs.stat fs (Repository.head_path self)
    = Some (File (Codec.encode (lit "ref: refs/heads/" ++ branch_name ++ [LF]))) ->
  without CR branch_name = true ->
  Py.rstrip branch_name = branch_name ->
  Repository._get_current_branch self fs = (Ok branch_name, fs).
Proof.
  intros Hhead Hcr Hr.
  unfold Repository._get_current_branch, bind, inspect, ret.
  fold (Repository.head_path self).
  unfold Fs.exists_. rewrite Hhead. cbv beta iota delta [negb].
  rewrite (read_text_written _ _ _ Hhead).
  2:{ rewrite !without_app, Hcr. reflexivity. }
  rewrite strip_ref_line by assumption.
  change (Py.startswith (lit "ref: refs/heads/" ++ branch_name)
            (lit "ref: refs/heads/")) with true.
  cbv iota. unfold Py.slice_from.
  replace (drop 16 (lit "ref: refs/heads/" ++ branch_name)) with branch_name
    by (symmetry; apply (drop_app_length (lit "ref: refs/heads/") branch_name)).
  reflexivity.
Qed.

Lemma head_commit_symbolic (self : Repository.t) (fs : gmap Path.t node)
    (branch_name : str) :
  Fs.stat fs (Repository.head_path self)
    = Some (File (Codec.encode (lit "ref: refs/heads/" ++ branch_name ++ [LF]))) ->
  without CR branch_name = true ->
  Py.rstrip branch_name = branch_name ->
  Repository._get_head_commit self fs =
    (if Fs.exists_ fs (Repository.branch_path self branch_name)
     then let* text := Fs.read_text fs (Repository.branch_path self branch_name) in
          Ok (Some (Py.strip text))
     else Ok None, fs).
Proof.
  intros Hhead Hcr Hr.
  unfold Repository._get_head_commit, bind, inspect, ret.
  fold (Repository.head_path self).
  unfold Fs.exists_ at 1. rewrite Hhead. cbv beta iota delta [negb].
  rewrite (read_text_written _ _ _ Hhead).
  2:{ rewrite !without_app, Hcr. reflexivity. }
  rewrite strip_ref_line by assumption.
  change (Py.startswith (lit "ref: refs/heads/" ++ branch_name)
            (lit "ref: refs/heads/")) with true.
  cbv iota. unfold Py.slice_from.
  replace (drop 16 (lit "ref: refs/heads/" ++ branch_name)) with branch_name
    by (symmetry; apply (drop_app_length (lit "ref: refs/heads/") branch_name)).
  destruct (Fs.exists_ fs (Repository.branch_path self branch_name));
    [|reflexivity].
  cbv beta iota delta [negb].
  destruct (Fs.read_text fs (Repository.branch_path self branch_name));
    reflexivity.
Qed.

(** The same when it holds a hash. *)
Lemma head_detached (self : Repository.t) (fs : gmap Path.t node) (h : str) :
  Fs.stat fs (Repository.head_path self)
    = Some (File (Codec.encode (h ++ [LF]))) ->
  forallb is_hex h = true ->
  Repository._get_head_commit self fs = (Ok (Some h), fs)
  /\ Repository._get_current_branch self fs = (Ok (lit "HEAD"), fs).
Proof.
  intros Hhead Hhex.
  assert (Hread : Fs.read_text fs (Repository.head_path self) = Ok (h ++ [LF])).
  { apply read_text_written; [assumption|].
    rewrite without_app, hex_no_CR by assumption. reflexivity. }
  split.
  - unfold Repository._get_head_commit, bind, inspect, ret.
    fold (Repository.head_path self).
    unfold Fs.exists_ at 1. rewrite Hhead. cbv beta iota delta [negb].
    rewrite Hread, strip_hash_line by assumption.
    now rewrite hex_not_ref.
  - unfold Repository._get_current_branch, bind, inspect, ret.
    fold (Repository.head_path self).
    unfold Fs.exists_ at 1. rewrite Hhead. cbv beta iota delta [negb].
    rewrite Hread, strip_hash_line by assumption.
    now rewrite hex_not_ref.
Qed.

(** ** [HEAD], refs and branches *)

Lemma read_text_exists (fs : gmap Path.t node) (p : Path.t) (text : str) :
  Fs.read_text fs p = Ok text ->
  exists data, Fs.stat fs p = Some (File data).
Proof.
  unfold Fs.read_text, Fs.read_bytes.
  destruct (Fs.stat fs p) as [[|data]|]; try discriminate. eauto.
Qed.

Lemma get_head_commit_read (self : Repository.t) (fs : gmap Path.t node)
    (text : str) :
  Fs.read_text fs (Repository.head_path self) = Ok text ->
  Repository._get_head_commit self fs = (resolve self fs text, fs).
Proof.
  intros Hread. destruct (read_text_exists _ _ _ Hread) as [data Hstat].
  unfold Repository._get_head_commit, resolve, bind, inspect, ret.
  fold (Repository.head_path self).
  unfold Fs.exists_ at 1. rewrite Hstat. cbv beta iota delta [negb].
  rewrite Hread. cbv beta iota zeta.
  destruct (Py.startswith (Py.strip text) (lit "ref: refs/heads/"));
    [|reflexivity].
  clear Hread Hstat.
  destruct (Fs.exists_ fs _); [|reflexivity].
  cbv beta iota delta [negb].
  destruct (Fs.read_text fs _); reflexivity.
Qed.

(** When [_get_head_commit] returns a hash, [HEAD] could be read, and the
    hash is a stripped text without carriage return. *)
Lemma get_head_commit_some (self : Repository.t) (fs : gmap Path.t node)
    (c : str) :
  fst (Repository._get_head_commit self fs) = Ok (Some c) ->
  exists text,
    Fs.read_text fs (Repository.head_path self) = Ok text
    /\ resolve self fs text = Ok (Some c).
Proof.
  intros H.
  destruct (Fs.read_text fs (Repository.head_path self)) as [text|e] eqn:Hread.
  - exists text. split; [reflexivity|].
    now rewrite (get_head_commit_read _ _ _ Hread) in H.
  - exfalso. revert H.
    unfold Repository._get_head_commit, bind, inspect, ret.
    fold (Repository.head_path self).
    destruct (Fs.exists_ fs (Repository.head_path self));
      cbv beta iota delta [negb]; simpl; [|discriminate].
    rewrite Hread. discriminate.
Qed.

Lemma resolve_stripped (self : Repository.t) (fs : gmap Path.t node)
    (text c : str) :
  without CR text = true ->
  resolve self fs text = Ok (Some c) ->
  Py.strip c = c /\ without CR c = true.
Proof.
  unfold resolve. intros Hcr.
  destruct (Py.startswith (Py.strip text) (lit "ref: refs/heads/")).
  - destruct (Fs.exists_ fs _); [|discriminate].
    destruct (Fs.read_text fs _) as [ref|] eqn:Hread; [|discriminate].
    simpl. intros H. injection H as <-. split.
    + apply strip_idempotent.
    + apply without_strip. now apply read_text_no_CR in Hread.
  - intros H. injection H as <-. split.
    + apply strip_idempotent.
    + now apply without_strip.
Qed.

Lemma head_commit_stripped (self : Repository.t) (fs : gmap Path.t node)
    (c : str) :
  fst (Repository._get_head_commit self fs) = Ok (Some c) ->
  Py.strip c = c /\ without CR c = true.
Proof.
  intros H. apply get_head_commit_some in H as (text & Hread & Hres).
  apply (resolve_stripped self fs text); [|assumption].
  now apply read_text_no_CR in Hread.
Qed.

(** A file written where nothing was does not change what [HEAD]
    resolves to. *)
Lemma resolve_new_file (self : Repository.t) (fs : gmap Path.t node)
    (p : Path.t) (n : node) (text c : str) :
  Fs.stat fs p = None ->
  resolve self fs text = Ok (Some c) ->
  resolve self (<[p := n]> fs) text = Ok (Some c).
Proof.
  unfold resolve. intros Hp.
  destruct (Py.startswith (Py.strip text) (lit "ref: refs/heads/"));
    [|auto].
  set (r := Repository.branch_path self _).
  assert (Hne : Fs.exists_ fs r = true -> p <> r).
  { intros He ->. unfold Fs.exists_ in He. now rewrite Hp in He. }
  destruct (Fs.exists_ fs r) eqn:He; [|discriminate].
  specialize (Hne eq_refl).
  unfold Fs.exists_, Fs.read_text, Fs.read_bytes in *.
  rewrite stat_insert_ne by assumption.
  destruct (Fs.stat fs r); [auto | discriminate].
Qed.

Lemma read_text_insert_ne (fs : gmap Path.t node) (p q : Path.t) (n : node) :
  p <> q -> Fs.read_text (<[p := n]> fs) q = Fs.read_text fs q.
Proof.
  intros H. unfold Fs.read_text, Fs.read_bytes.
  now rewrite stat_insert_ne.
Qed.

Lemma is_repository_dir (self : Repository.t) (fs : gmap Path.t node) :
  fst (Repository.is_repository self fs) = Ok true <->
  Fs.stat fs (Repository.pygit_path self) = Some Dir.
Proof.
  unfold Repository.is_repository, inspect, Fs.exists_, Fs.is_dir. simpl.
  destruct (Fs.stat fs (Repository.pygit_path self)) as [[|]|]; simpl;
    split; congruence.
Qed.

Lemma pygit_parent_of_head (self : Repository.t) :
  Path.parent (Repository.head_path self) = Repository.pygit_path self.
Proof. unfold Repository.head_path. now rewrite parent_div. Qed.

(** What a successful [checkout] did. *)
Lemma checkout_inv (self : Repository.t) (fs fs' : gmap Path.t node)
    (branch_name out : str) :
  Repository.checkout self branch_name fs = (Ok out, fs') ->
  Fs.stat fs (Repository.pygit_path self) = Some Dir
  /\ Fs.exists_ fs (Repository.branch_path self branch_name) = true
  /\ fs' = <[Repository.head_path self :=
              File (Codec.encode (lit "ref: refs/heads/" ++ branch_name ++ [LF]))]> fs
  /\ out = lit "Switched to branch '" ++ branch_name ++ lit "'".
Proof.
  unfold Repository.checkout, bind.
  destruct (Repository.is_repository self fs) as [[[|]|e] fs0] eqn:Hrepo;
    try discriminate.
  assert (fs0 = fs) by (unfold Repository.is_repository, inspect in Hrepo;
                        now injection Hrepo).
  subst fs0.
  assert (Hdir : Fs.stat fs (Repository.pygit_path self) = Some Dir).
  { apply is_repository_dir. now rewrite Hrepo. }
  cbv beta iota delta [negb]. unfold inspect at 1.
  destruct (Fs.exists_ fs (Repository.branch_path self branch_name));
    cbv beta iota delta [negb]; [|discriminate].
  unfold update, Fs.write_text. fold (Repository.head_path self).
  destruct (Fs.write_bytes fs (Repository.head_path self) _) as [fs1|e] eqn:Hw;
    [|discriminate].
  unfold ret. intros H. injection H as <- <-.
  apply write_bytes_inv in Hw as (_ & -> & _). auto.
Qed.

(** The two readers of [HEAD] once it holds the reference to a branch
    whose ref file is another file. *)
Lemma head_symbolic_written (self : Repository.t) (fs : gmap Path.t node)
    (branch_name : str) :
  without CR branch_name = true ->
  Py.rstrip branch_name = branch_name ->
  Repository.branch_path self branch_name <> Repository.head_path self ->
  let fs' :=
    <[Repository.head_path self :=
        File (Codec.encode (lit "ref: refs/heads/" ++ branch_name ++ [LF]))]> fs in
  fst (Repository._get_current_branch self fs') = Ok branch_name
  /\ fst (Repository._get_head_commit self fs') =
     (if Fs.exists_ fs (Repository.branch_path self branch_name)
      then let* ref := Fs.read_text fs (Repository.branch_path self branch_name) in
           Ok (Some (Py.strip ref))
      else Ok None).
Proof.
  intros Hcr Hr Hne fs'.
  assert (Hhead : Repository.head_path self <> []).
  { rewrite head_path_eq. intros E. symmetry in E.
    exact (app_cons_not_nil _ _ _ E). }
  pose proof (stat_insert_eq fs (Repository.head_path self)
                (File (Codec.encode (lit "ref: refs/heads/" ++ branch_name ++ [LF])))
                Hhead) as Hstat.
  split.
  - unfold fs'. now rewrite (current_branch_symbolic _ _ _ Hstat Hcr Hr).
  - unfold fs'. rewrite (head_commit_symbolic _ _ _ Hstat Hcr Hr). simpl.
    unfold Fs.exists_ in *. rewrite stat_insert_ne by congruence.
    now rewrite read_text_insert_ne by congruence.
Qed.

(** X1.  After a successful [checkout] of a plain branch name without
    carriage return and without white space at its end, the current
    branch is that name and [HEAD] resolves to what the ref file of the
    branch holds, stripped. *)
Theorem checkout_switches_branch (self : Repository.t)
    (fs fs' : gmap Path.t node) (branch_name out : str) :
  Repository.checkout self branch_name fs = (Ok out, fs') ->
  without CR branch_name = true ->
  Py.rstrip branch_name = branch_name ->
  plain_name branch_name = true ->
  fst (Repository._get_current_branch self fs') = Ok branch_name
  /\ fst (Repository._get_head_commit self fs') =
     (let* ref := Fs.read_text fs (Repository.branch_path self branch_name) in
      Ok (Some (Py.strip ref))).
Proof.
  intros Hco Hcr Hr Hplain.
  apply checkout_inv in Hco as (Hdir & Hex & -> & _).
  apply andb_prop in Hplain as [Hrel _]. apply negb_true_iff in Hrel.
  pose proof (branch_path_not_head self branch_name Hrel) as Hne.
  destruct (head_symbolic_written self fs branch_name Hcr Hr Hne) as [Hb Hh].
  split; [exact Hb|]. rewrite Hh. now rewrite Hex.
Qed.

Lemma checkout_switches_branch_witness :
  fst (Repository._get_current_branch example_repo
         (snd (Repository.checkout example_repo (lit "dev") example_branched)))
  = Ok (lit "dev")
  /\ fst (Repository._get_head_commit example_repo
            (snd (Repository.checkout example_repo (lit "dev") example_branched)))
     = Ok (Some (lit "b6fc4c620b67d95f953a5c1c1230aaab5db5a1b0")).
Proof.
  assert (Hco : Repository.checkout example_repo (lit "dev") example_branched
                = (Ok (lit "Switched to branch 'dev'"),
                   snd (Repository.checkout example_repo (lit "dev")
                          example_branched))).
  { apply returned. vm_compute. reflexivity. }
  destruct (checkout_switches_branch example_repo example_branched _
              (lit "dev") _ Hco) as [H1 H2];
    try (vm_compute; reflexivity).
  split; [exact H1|]. rewrite H2. vm_compute. reflexivity.
Defined.

Lemma write_text_inv (fs fs' : gmap Path.t node) (p : Path.t) (text : str) :
  Fs.write_text fs p text = Ok fs' ->
  p <> [] /\ fs' = <[p := File (Codec.encode text)]> fs
  /\ Fs.stat fs (Path.parent p) = Some Dir.
Proof. apply write_bytes_inv. Qed.

(** What a successful [_update_head] did: it wrote the hash line to the
    ref file of the branch [HEAD] names, or to [HEAD] itself. *)
Lemma update_head_inv (self : Repository.t) (fs fs' : gmap Path.t node)
    (commit_hash : str) :
  Repository._update_head self commit_hash fs = (Ok tt, fs') ->
  exists text target,
    Fs.read_text fs (Repository.head_path self) = Ok text
    /\ target =
       (if Py.startswith (Py.strip text) (lit "ref: refs/heads/")
        then Repository.branch_path self (Py.slice_from 16 (Py.strip text))
        else Repository.head_path self)
    /\ target <> []
    /\ fs' = <[target := File (Codec.encode (commit_hash ++ [LF]))]> fs.
Proof.
  unfold Repository._update_head, bind, inspect.
  fold (Repository.head_path self).
  destruct (Fs.read_text fs (Repository.head_path self)) as [text|e] eqn:Hread;
    [|discriminate].
  intros H. exists text.
  destruct (Py.startswith (Py.strip text) (lit "ref: refs/heads/"));
    unfold update in H;
    match type of H with
    | context [Fs.write_text fs ?p ?t] =>
        destruct (Fs.write_text fs p t) as [fs1|e] eqn:Hw; [|discriminate];
        exists p; apply write_text_inv in Hw as (Hp & -> & _)
    end;
    injection H as <-; auto.
Qed.

(** [HEAD] resolves to a hash once [_update_head] has written it, to the
    ref file of the branch [HEAD] names or to [HEAD] itself. *)
Lemma head_commit_after_write (self : Repository.t) (fs : gmap Path.t node)
    (text commit_hash : str) (target : Path.t) :
  Fs.read_text fs (Repository.head_path self) = Ok text ->
  target =
    (if Py.startswith (Py.strip text) (lit "ref: refs/heads/")
     then Repository.branch_path self (Py.slice_from 16 (Py.strip text))
     else Repository.head_path self) ->
  target <> [] ->
  forallb is_hex commit_hash = true ->
  fst (Repository._get_head_commit self
         (<[target := File (Codec.encode (commit_hash ++ [LF]))]> fs))
  = Ok (Some commit_hash).
Proof.
  intros Hread Htarget Hne Hhex.
  destruct (decide (target = Repository.head_path self)) as [E|E].
  - rewrite E in *.
    pose proof (stat_insert_eq fs (Repository.head_path self)
                  (File (Codec.encode (commit_hash ++ [LF]))) Hne) as Hstat.
    now rewrite (proj1 (head_detached _ _ _ Hstat Hhex)).
  - assert (Hsym : Py.startswith (Py.strip text) (lit "ref: refs/heads/") = true).
    { destruct (Py.startswith (Py.strip text) (lit "ref: refs/heads/"));
        [reflexivity | congruence]. }
    rewrite Hsym in Htarget.
    rewrite (get_head_commit_read self _ text)
      by now rewrite read_text_insert_ne.
    unfold resolve. rewrite Hsym. rewrite <- Htarget. simpl.
    pose proof (stat_insert_eq fs target
                  (File (Codec.encode (commit_hash ++ [LF]))) Hne) as Hstat.
    unfold Fs.exists_. rewrite Hstat.
    rewrite (read_text_written _ _ _ Hstat).
    + simpl. now rewrite strip_hash_line.
    + rewrite without_app, hex_no_CR by assumption. reflexivity.
Qed.

(** X2.  After a successful [_update_head] with a hash of hexadecimal
    digits, [HEAD] resolves to that hash, whether it names a branch or
    is detached. *)
Theorem update_head_sets_head_commit (self : Repository.t)
    (fs fs' : gmap Path.t node) (commit_hash : str) :
  Repository._update_head self commit_hash fs = (Ok tt, fs') ->
  forallb is_hex commit_hash = true ->
  fst (Repository._get_head_commit self fs') = Ok (Some commit_hash).
Proof.
  intros Hup Hhex.
  apply update_head_inv in Hup as (text & target & Hread & Htarget & Hne & ->).
  now apply (head_commit_after_write self fs text).
Qed.

Lemma update_head_sets_head_commit_witness :
  fst example_after_update = Ok tt
  /\ fst (Repository._get_head_commit example_repo (snd example_after_update))
     = Ok (Some example_commit_hash).
Proof.
  assert (H : fst example_after_update = Ok tt) by (vm_compute; reflexivity).
  split; [exact H|].
  apply (update_head_sets_head_commit example_repo (snd example_commit_stored)
           _ example_commit_hash (returned _ _ H)).
  vm_compute. reflexivity.
Defined.

(** What a successful creation of a branch did. *)
Lemma branch_inv (self : Repository.t) (fs fs1 : gmap Path.t node)
    (branch_name out : str) :
  Repository.branch self (Some branch_name) false fs = (Ok out, fs1) ->
  exists c,
    Fs.stat fs (Repository.pygit_path self) = Some Dir
    /\ fst (Repository._get_head_commit self fs) = Ok (Some c)
    /\ c <> []
    /\ Fs.stat fs (Repository.branch_path self branch_name) = None
    /\ Repository.branch_path self branch_name <> []
    /\ fs1 = <[Repository.branch_path self branch_name :=
                File (Codec.encode (c ++ [LF]))]> fs
    /\ out = lit "Created branch " ++ branch_name.
Proof.
  unfold Repository.branch, bind.
  destruct (Repository.is_repository self fs) as [[[|]|e] fs0] eqn:Hrepo;
    try discriminate.
  assert (fs0 = fs) by (unfold Repository.is_repository, inspect in Hrepo;
                        now injection Hrepo).
  subst fs0.
  assert (Hdir : Fs.stat fs (Repository.pygit_path self) = Some Dir).
  { apply is_repository_dir. now rewrite Hrepo. }
  cbv beta iota delta [negb].
  pose proof (get_head_commit_reads self fs) as Hro.
  destruct (Repository._get_head_commit self fs) as [[current|e] fs0] eqn:Hhead;
    [|discriminate].
  simpl in Hro. subst fs0.
  destruct current as [[|a c]|]; try discriminate.
  cbn [Builtins.truthy negb]. unfold inspect at 1.
  unfold Fs.exists_ at 1.
  destruct (Fs.stat fs (Repository.branch_path self branch_name)) eqn:Hbp;
    [discriminate|].
  unfold update, ret. cbn [Builtins.format].
  destruct (Fs.write_text fs _ _) as [fs2|e] eqn:Hw; [|discriminate].
  intros H. injection H as <- <-.
  apply write_text_inv in Hw as (Hne & -> & _).
  exists (a :: c). repeat split; auto; try discriminate.
Qed.

(** X3.  A branch just created can be checked out, when its name has no
    carriage return and no white space at its end; after the checkout
    [HEAD] still resolves to the commit it resolved to before the branch
    was made, now through the new branch. *)
Theorem branch_then_checkout (self : Repository.t)
    (fs fs1 : gmap Path.t node) (branch_name out : str) :
  Repository.branch self (Some branch_name) false fs = (Ok out, fs1) ->
  without CR branch_name = true ->
  Py.rstrip branch_name = branch_name ->
  exists c fs2,
    fst (Repository._get_head_commit self fs) = Ok (Some c)
    /\ Repository.checkout self branch_name fs1
       = (Ok (lit "Switched to branch '" ++ branch_name ++ lit "'"), fs2)
    /\ fst (Repository._get_current_branch self fs2) = Ok branch_name
    /\ fst (Repository._get_head_commit self fs2) = Ok (Some c).
Proof.
  intros Hbr Hcr Hr.
  apply branch_inv in Hbr as (c & Hdir & Hhead & Hc & Hnone & Hne & -> & _).
  set (bp := Repository.branch_path self branch_name) in *.
  set (fs1 := <[bp := File (Codec.encode (c ++ [LF]))]> fs).
  destruct (get_head_commit_some _ _ _ Hhead) as (text & Hread & _).
  destruct (read_text_exists _ _ _ Hread) as [data Hstat].
  assert (Hbh : bp <> Repository.head_path self) by congruence.
  assert (Hco : exists fs2,
    Repository.checkout self branch_name fs1
    = (Ok (lit "Switched to branch '" ++ branch_name ++ lit "'"), fs2)).
  { unfold Repository.checkout, bind, Repository.is_repository, inspect.
    unfold Fs.exists_ at 1, Fs.is_dir at 1.
    assert (Hpy : Fs.stat fs1 (Repository.pygit_path self) = Some Dir).
    { unfold fs1. rewrite stat_insert_ne; [assumption|].
      intros E. rewrite E in Hnone. congruence. }
    rewrite Hpy. cbv beta iota delta [negb andb].
    fold bp. unfold Fs.exists_ at 1. unfold fs1 at 1.
    rewrite stat_insert_eq by assumption. cbv beta iota delta [negb].
    unfold update, Fs.write_text, Fs.write_bytes.
    fold (Repository.head_path self).
    rewrite pygit_parent_of_head, Hpy.
    unfold fs1 at 1. rewrite stat_insert_ne by assumption.
    rewrite Hstat. eauto. }
  destruct Hco as [fs2 Hco]. exists c, fs2.
  split; [assumption|]. split; [assumption|].
  apply checkout_inv in Hco as (_ & _ & -> & _).
  destruct (head_symbolic_written self fs1 branch_name Hcr Hr Hbh) as [Hb Hh].
  split; [assumption|].
  rewrite Hh. fold bp.
  destruct (head_commit_stripped _ _ _ Hhead) as [Hstrip Hccr].
  unfold Fs.exists_. unfold fs1 at 1. rewrite stat_insert_eq by assumption.
  rewrite (read_text_written fs1 bp (c ++ [LF])).
  - simpl. now rewrite strip_newline, Hstrip.
  - unfold fs1. now apply stat_insert_eq.
  - rewrite without_app, Hccr. reflexivity.
Qed.

Lemma branch_then_checkout_witness :
  fst example_dev = Ok (lit "Created branch dev")
  /\ exists c fs2,
       fst (Repository._get_head_commit example_repo example_two_commits)
       = Ok (Some c)
       /\ Repository.checkout example_repo (lit "dev") (snd example_dev)
          = (Ok (lit "Switched to branch '" ++ lit "dev" ++ lit "'"), fs2)
       /\ fst (Repository._get_current_branch example_repo fs2) = Ok (lit "dev")
       /\ fst (Repository._get_head_commit example_repo fs2) = Ok (Some c).
Proof.
  assert (H : fst example_dev = Ok (lit "Created branch dev"))
    by (vm_compute; reflexivity).
  split; [exact H|].
  apply (branch_then_checkout example_repo example_two_commits _ (lit "dev") _
           (returned _ _ H)); reflexivity.
Defined.

(** A file written where nothing was leaves [HEAD] resolving to the same
    commit. *)
Lemma head_commit_new_file (self : Repository.t) (fs : gmap Path.t node)
    (p : Path.t) (n : node) (c : str) :
  Fs.stat fs p = None ->
  fst (Repository._get_head_commit self fs) = Ok (Some c) ->
  Repository._get_head_commit self (<[p := n]> fs)
  = (Ok (Some c), <[p := n]> fs).
Proof.
  intros Hp Hhead.
  apply get_head_commit_some in Hhead as (text & Hread & Hres).
  destruct (read_text_exists _ _ _ Hread) as [data Hstat].
  assert (Hne : p <> Repository.head_path self) by congruence.
  rewrite (get_head_commit_read self _ text)
    by now rewrite read_text_insert_ne.
  now rewrite (resolve_new_file self fs p n text c).
Qed.

(** X4.  Once a branch was created, creating it again raises
    [Branch ... already exists] and leaves the file system as the first
    call left it. *)
Theorem branch_twice_raises (self : Repository.t)
    (fs fs1 : gmap Path.t node) (branch_name out : str) :
  Repository.branch self (Some branch_name) false fs = (Ok out, fs1) ->
  Repository.branch self (Some branch_name) false fs1
  = (Raise (PyGitError (lit "Branch " ++ branch_name ++ lit " already exists")),
     fs1).
Proof.
  intros Hbr.
  apply branch_inv in Hbr as (c & Hdir & Hhead & Hc & Hnone & Hne & -> & _).
  set (bp := Repository.branch_path self branch_name) in *.
  unfold Repository.branch, bind, Repository.is_repository, inspect.
  unfold Fs.exists_ at 1, Fs.is_dir at 1.
  rewrite stat_insert_ne by congruence. rewrite Hdir.
  cbv beta iota delta [negb andb].
  rewrite (head_commit_new_file self fs bp _ c Hnone Hhead).
  destruct c as [|a c]; [congruence|].
  cbn [Builtins.truthy negb]. fold bp.
  unfold Fs.exists_. now rewrite stat_insert_eq.
Qed.

Lemma branch_twice_raises_witness :
  fst example_dev = Ok (lit "Created branch dev")
  /\ Repository.branch example_repo (Some (lit "dev")) false (snd example_dev)
     = (Raise (PyGitError (lit "Branch " ++ lit "dev" ++ lit " already exists")),
        snd example_dev).
Proof.
  assert (H : fst example_dev = Ok (lit "Created branch dev"))
    by (vm_compute; reflexivity).
  split; [exact H|].
  exact (branch_twice_raises example_repo example_two_commits _ (lit "dev") _
           (returned _ _ H)).
Defined.

(** ** A fresh repository *)

Lemma stat_app (fs : gmap Path.t node) (p : Path.t) (w : str) (q : Path.t) :
  Fs.stat fs (p ++ w :: q) = fs !! (p ++ w :: q).
Proof. apply stat_nonempty. apply not_eq_sym, app_cons_not_nil. Qed.

Lemma children_none (fs : gmap Path.t node) (p : Path.t) :
  (forall w, fs !! (p ++ [w]) = None) -> Fs.children fs p = [].
Proof.
  intros H. unfold Fs.children.
  assert (Hall : forall q, q ∈ map fst (map_to_list fs) ->
                   ~ (q <> [] /\ Path.parent q = p)).
  { intros q Hq [Hne Hpar].
    apply list_elem_of_fmap in Hq as [[q' n] [-> Hq]].
    apply elem_of_map_to_list in Hq. simpl in *.
    pose proof (app_removelast_last [] Hne) as Hsplit.
    unfold Path.parent in Hpar. rewrite Hpar in Hsplit.
    rewrite Hsplit, H in Hq. discriminate. }
  revert Hall. generalize (map fst (map_to_list fs)).
  induction l as [|q l IH]; intros Hall; [reflexivity|].
  rewrite filter_cons_False by (apply Hall; left).
  apply IH. intros q' Hq'. apply Hall. now right.
Qed.

Lemma app_ne {A} (d l1 l2 : list A) : l1 <> l2 -> d ++ l1 <> d ++ l2.
Proof. intros H E. now apply app_inv_head in E. Qed.

Lemma self_ne_app {A} (d : list A) (w : A) (l : list A) : d <> d ++ w :: l.
Proof.
  intros E. rewrite <- (app_nil_r d) in E at 1. now apply app_inv_head in E.
Qed.

Ltac apart :=
  first [ apply app_ne; discriminate
        | apply self_ne_app
        | apply not_eq_sym, self_ne_app ].

Lemma init_paths (self : Repository.t) :
  let d := Repository.path self ++ [PYGIT_DIR] in
  Repository.pygit_path self = d
  /\ Repository.pygit_path self </> OBJECTS_DIR = d ++ [OBJECTS_DIR]
  /\ Repository.pygit_path self </> REFS_DIR = d ++ [REFS_DIR]
  /\ Repository.pygit_path self </> REFS_DIR </> HEADS_DIR
     = d ++ [REFS_DIR; HEADS_DIR]
  /\ Repository.pygit_path self </> HEAD_FILE = d ++ [HEAD_FILE]
  /\ Repository.pygit_path self </> CONFIG_FILE = d ++ [CONFIG_FILE].
Proof.
  intros d. rewrite pygit_path_eq. fold d.
  rewrite !div_literal by reflexivity. rewrite <- !app_assoc.
  repeat split; reflexivity.
Qed.

(** [init] in a directory without [.pygit]. *)
Lemma init_run (self : Repository.t) (fs : gmap Path.t node) :
  Fs.stat fs (Repository.path self) = Some Dir ->
  (forall q, fs !! (Repository.path self ++ PYGIT_DIR :: q) = None) ->
  Repository.init self fs
  = (Ok (lit "Initialized empty PyGit repository in "
         ++ Path.to_str (Repository.pygit_path self)),
     initialised self fs).
Proof.
  intros Hdir Hnone.
  destruct (init_paths self) as (E0 & E1 & E2 & E3 & E4 & E5).
  unfold Repository.init, bind, Repository.is_repository, inspect.
  rewrite E3, E2, E1, E4, E5, E0.
  set (d := Repository.path self ++ [PYGIT_DIR]) in *.
  assert (Hd : forall q, fs !! (d ++ q) = None).
  { intros q. unfold d. rewrite <- app_assoc. apply Hnone. }
  assert (Hd0 : Fs.stat fs d = None).
  { unfold d. rewrite stat_app. apply Hnone. }
  unfold Fs.exists_ at 1. rewrite Hd0. cbv beta iota delta [andb].
  cbn [Builtins.for_each]. unfold bind, update, ret.
  assert (Hs : forall (m : gmap Path.t node) l,
            l <> [] -> Fs.stat m (d ++ l) = m !! (d ++ l)).
  { intros m [|w l] Hl; [congruence|]. apply stat_app. }
  assert (Hpar : forall w, Path.parent (d ++ [w]) = d).
  { intros w. unfold Path.parent. apply removelast_last. }
  rewrite (mkdir_child fs d).
  2:{ unfold d. apply not_eq_sym, app_cons_not_nil. }
  2:{ assumption. }
  2:{ unfold d, Path.parent. now rewrite removelast_last. }
  assert (Hdd : forall m, Fs.stat (<[d := Dir]> m) d = Some Dir).
  { intros m. apply stat_insert_eq. unfold d.
    apply not_eq_sym, app_cons_not_nil. }
  rewrite (mkdir_child _ (d ++ [OBJECTS_DIR])).
  2:{ apply not_eq_sym, app_cons_not_nil. }
  2:{ rewrite stat_insert_ne by apart. rewrite Hs by discriminate. apply Hd. }
  2:{ rewrite Hpar. apply Hdd. }
  rewrite (mkdir_child _ (d ++ [REFS_DIR])).
  2:{ apply not_eq_sym, app_cons_not_nil. }
  2:{ rewrite !stat_insert_ne by apart. rewrite Hs by discriminate. apply Hd. }
  2:{ rewrite Hpar. rewrite !stat_insert_ne by apart. apply Hdd. }
  rewrite (mkdir_child _ (d ++ [REFS_DIR; HEADS_DIR])).
  2:{ apply not_eq_sym, app_cons_not_nil. }
  2:{ rewrite !stat_insert_ne by apart. rewrite Hs by discriminate. apply Hd. }
  2:{ replace (Path.parent (d ++ [REFS_DIR; HEADS_DIR])) with (d ++ [REFS_DIR]).
      - apply stat_insert_eq. apply not_eq_sym, app_cons_not_nil.
      - unfold Path.parent.
        change (d ++ [REFS_DIR; HEADS_DIR])
          with (d ++ ([REFS_DIR] ++ [HEADS_DIR])).
        now rewrite (app_assoc d [REFS_DIR] [HEADS_DIR]), removelast_last. }
  unfold Fs.write_text, Fs.write_bytes.
  rewrite !Hpar.
  rewrite !stat_insert_ne by apart.
  rewrite (Hs fs [HEAD_FILE]), Hd, Hdd by discriminate.
  rewrite !stat_insert_ne by apart.
  rewrite (Hs fs [CONFIG_FILE]), Hd, Hdd by discriminate.
  reflexivity.
Qed.

Lemma initialised_stat (self : Repository.t) (fs : gmap Path.t node) :
  (forall q, fs !! (Repository.path self ++ PYGIT_DIR :: q) = None) ->
  Fs.stat (initialised self fs) (Repository.pygit_path self) = Some Dir
  /\ Fs.stat (initialised self fs) (Repository.head_path self)
     = Some (File (Codec.encode (lit "ref: refs/heads/" ++ lit "main" ++ [LF])))
  /\ Fs.stat (initialised self fs) (Repository.branch_path self (lit "main"))
     = None
  /\ Fs.iterdir (initialised self fs)
       (Repository.pygit_path self </> REFS_DIR </> HEADS_DIR) = Ok [].
Proof.
  intros Hnone. unfold Repository.head_path.
  rewrite (branch_path_relative self (lit "main")) by reflexivity.
  destruct (init_paths self) as (-> & _ & _ & -> & -> & _).
  unfold initialised.
  set (d := Repository.path self ++ [PYGIT_DIR]).
  assert (Hd : forall q, fs !! (d ++ q) = None).
  { intros q. unfold d. rewrite <- app_assoc. apply Hnone. }
  repeat split.
  - rewrite !stat_insert_ne by apart. apply stat_insert_eq.
    unfold d. apply not_eq_sym, app_cons_not_nil.
  - rewrite stat_insert_ne by apart. apply stat_insert_eq.
    apply not_eq_sym, app_cons_not_nil.
  - change (Repository.path self
            ++ [PYGIT_DIR; REFS_DIR; HEADS_DIR] ++ Path.parts (lit "main"))
      with (Repository.path self
            ++ [PYGIT_DIR] ++ [REFS_DIR; HEADS_DIR; lit "main"]).
    rewrite app_assoc. fold d.
    rewrite !stat_insert_ne by apart.
    rewrite stat_app. apply Hd.
  - unfold Fs.iterdir.
    rewrite !stat_insert_ne by apart.
    rewrite stat_insert_eq by apply not_eq_sym, app_cons_not_nil.
    rewrite children_none; [reflexivity|].
    intros w. rewrite <- app_assoc. cbn [app].
    rewrite !lookup_insert_ne by apart. apply Hd.
Qed.

(** X5.  In a directory that holds nothing at or below [.pygit], [init]
    succeeds and leaves a repository on the branch [main] without a
    commit: the log says so, the listing of the branches is the empty
    string and no branch can be created. *)
Theorem init_empty_directory (local_date : Q -> outcome str)
    (self : Repository.t) (fs : gmap Path.t node) :
  Fs.stat fs (Repository.path self) = Some Dir ->
  (forall q, fs !! (Repository.path self ++ PYGIT_DIR :: q) = None) ->
  let fs' := initialised self fs in
  Repository.init self fs
  = (Ok (lit "Initialized empty PyGit repository in "
         ++ Path.to_str (Repository.pygit_path self)), fs')
  /\ fst (Repository.is_repository self fs') = Ok true
  /\ fst (Repository._get_current_branch self fs') = Ok (lit "main")
  /\ fst (Repository._get_head_commit self fs') = Ok None
  /\ (forall limit,
        fst (Repository.log local_date self limit fs')
        = Ok (lit "No commits yet"))
  /\ fst (Repository._list_branches self fs') = Ok []
  /\ (forall branch_name,
        Repository.branch self (Some branch_name) false fs'
        = (Raise (PyGitError (lit "Cannot create branch with no commits")),
           fs')).
Proof.
  intros Hdir Hnone fs'.
  destruct (initialised_stat self fs Hnone) as (Hpy & Hhead & Hmain & Hls).
  fold fs' in Hpy, Hhead, Hmain, Hls.
  assert (Hc : Repository._get_head_commit self fs' = (Ok None, fs')).
  { rewrite (head_commit_symbolic self fs' (lit "main") Hhead)
      by reflexivity.
    unfold Fs.exists_. now rewrite Hmain. }
  assert (Hrepo : Repository.is_repository self fs' = (Ok true, fs')).
  { unfold Repository.is_repository, inspect, Fs.exists_, Fs.is_dir.
    now rewrite Hpy. }
  split; [now apply init_run|].
  split; [now rewrite Hrepo|].
  split.
  { now rewrite (current_branch_symbolic self fs' (lit "main") Hhead). }
  split; [now rewrite Hc|].
  split.
  { intros limit. unfold Repository.log, bind.
    rewrite Hrepo. cbv beta iota delta [negb]. now rewrite Hc. }
  split.
  - unfold Repository._list_branches, bind, inspect, ret.
    assert (He : Fs.exists_ fs' (Repository.pygit_path self </> REFS_DIR
                                  </> HEADS_DIR) = true).
    { revert Hls. unfold Fs.exists_, Fs.iterdir.
      destruct (Fs.stat fs' (Repository.pygit_path self </> REFS_DIR
                              </> HEADS_DIR)) as [[|]|];
        [reflexivity | discriminate | discriminate]. }
    rewrite He. cbv beta iota delta [negb].
    rewrite (current_branch_symbolic self fs' (lit "main") Hhead)
      by reflexivity.
    now rewrite Hls.
  - intros branch_name. unfold Repository.branch, bind.
    rewrite Hrepo. cbv beta iota delta [negb]. now rewrite Hc.
Qed.

Lemma init_empty_directory_witness :
  Repository.init example_repo example_empty
  = (Ok (lit "Initialized empty PyGit repository in /work/.pygit"),
     initialised example_repo example_empty)
  /\ fst (Repository._get_head_commit example_repo
            (initialised example_repo example_empty)) = Ok None.
Proof.
  assert (H1 : Fs.stat example_empty (Repository.path example_repo) = Some Dir)
    by reflexivity.
  assert (H2 : forall q,
             example_empty
               !! (Repository.path example_repo ++ PYGIT_DIR :: q) = None).
  { intros q. unfold example_empty.
    rewrite lookup_insert_ne by discriminate. apply lookup_empty. }
  destruct (init_empty_directory example_date example_repo example_empty H1 H2)
    as (Hinit & _ & _ & Hhead & _).
  split; [exact Hinit | exact Hhead].
Defined.

(** ** Commands that only read *)

Lemma current_branch_reads (self : Repository.t) :
  read_only (Repository._get_current_branch self).
Proof. unfold Repository._get_current_branch. reads. Qed.

Lemma log_loop_reads (local_date : Q -> outcome str) (self : Repository.t)
    (remaining : nat) :
  forall commit_hash logs,
    read_only (Repository.log_loop local_date self remaining commit_hash logs).
Proof.
  induction remaining as [|remaining IH]; intros commit_hash logs.
  - destruct commit_hash as [[|c h]|]; apply read_only_ret.
  - destruct commit_hash as [[|c h]|]; try apply read_only_ret.
    cbn [Repository.log_loop].
    apply read_only_bind; [apply load_commit_reads|]. intros commit.
    apply read_only_bind; [apply read_only_lift|]. intros entry.
    apply IH.
Qed.

Lemma list_branches_reads (self : Repository.t) :
  read_only (Repository._list_branches self).
Proof.
  unfold Repository._list_branches.
  apply read_only_bind; [apply read_only_inspect|]. intros [|].
  - cbv beta iota delta [negb].
    apply read_only_bind; [apply current_branch_reads|]. intros current.
    reads.
  - apply read_only_ret.
Qed.

(** X6.  [log] and the listing of the branches write nothing: whatever
    they return or raise, they leave the file system as they found it. *)
Theorem queries_write_nothing (local_date : Q -> outcome str)
    (self : Repository.t) (limit : Z) (branch_name : option str) :
  read_only (Repository.log local_date self limit)
  /\ read_only (Repository.branch self branch_name true)
  /\ read_only (Repository.branch self None false).
Proof.
  assert (Hrepo : read_only (Repository.is_repository self))
    by apply read_only_inspect.
  split; [|split].
  - unfold Repository.log.
    apply read_only_bind; [exact Hrepo|]. intros [|]; cbv beta iota delta [negb];
      [|apply read_only_raise].
    apply read_only_bind; [apply get_head_commit_reads|]. intros commit_hash.
    destruct (Builtins.truthy commit_hash); cbv beta iota delta [negb];
      [|apply read_only_ret].
    apply read_only_bind; [apply log_loop_reads|]. intros logs.
    apply read_only_ret.
  - unfold Repository.branch.
    apply read_only_bind; [exact Hrepo|]. intros [|]; cbv beta iota delta [negb];
      [apply list_branches_reads | apply read_only_raise].
  - unfold Repository.branch.
    apply read_only_bind; [exact Hrepo|]. intros [|]; cbv beta iota delta [negb];
      [apply list_branches_reads | apply read_only_raise].
Qed.

(** ** The listing of the branches *)

Lemma collect_lines (fs : gmap Path.t node) (f : Path.t -> str)
    (entries : list Path.t) (acc : list str) :
  fold_left
    (fun branches branch_file =>
       if Fs.is_file fs branch_file then branches ++ [f branch_file]
       else branches)
    entries acc
  = acc ++ map f (List.filter (Fs.is_file fs) entries).
Proof.
  revert acc. induction entries as [|p l IH]; intros acc; simpl.
  - now rewrite app_nil_r.
  - rewrite IH. destruct (Fs.is_file fs p); [|reflexivity].
    simpl. now rewrite <- app_assoc.
Qed.

(** The children of a directory have different names. *)
Lemma children_names (fs : gmap Path.t node) (p : Path.t) :
  NoDup (map Path.name (Fs.children fs p)).
Proof.
  unfold Fs.children.
  pose proof (NoDup_fst_map_to_list fs) as Hnd.
  change (fst <$> map_to_list fs) with (map fst (map_to_list fs)) in Hnd.
  induction (map fst (map_to_list fs)) as [|q l IH]; [constructor|].
  apply NoDup_cons in Hnd as [Hq Hnd].
  destruct (decide (q <> [] /\ Path.parent q = p)) as [[Hne Hpar]|Hno].
  - rewrite filter_cons_True by auto. simpl. apply NoDup_cons. split; [|auto].
    intros Hin. apply Hq.
    apply list_elem_of_fmap in Hin as (q' & Hname & Hq').
    apply list_elem_of_filter in Hq' as [[Hne' Hpar'] Hq'].
    replace q with q'; [assumption|].
    rewrite (app_removelast_last [] Hne), (app_removelast_last [] Hne').
    unfold Path.parent, Path.name in *. congruence.
  - rewrite filter_cons_False by assumption. auto.
Qed.

Lemma NoDup_map_filter {A B} (f : A -> B) (P : A -> bool) (l : list A) :
  NoDup (map f l) -> NoDup (map f (List.filter P l)).
Proof.
  induction l as [|x l IH]; simpl; [auto|].
  intros H. apply NoDup_cons in H as [Hx Hnd].
  destruct (P x); simpl; [|auto].
  apply NoDup_cons. split; [|auto].
  intros Hin. apply Hx.
  apply list_elem_of_fmap in Hin as (y & -> & Hy).
  apply list_elem_of_fmap. exists y. split; [reflexivity|].
  apply list_elem_of_In in Hy. apply filter_In in Hy as [Hy _].
  now apply list_elem_of_In.
Qed.

Lemma branch_files_NoDup (self : Repository.t) (fs : gmap Path.t node) :
  NoDup (branch_files self fs).
Proof. unfold branch_files. apply NoDup_map_filter, children_names. Qed.

Lemma sorted_snoc {A} (R : A -> A -> Prop) (l : list A) (x : A) :
  StronglySorted R l -> List.Forall (fun y => R y x) l ->
  StronglySorted R (l ++ [x]).
Proof.
  induction 1 as [|y l Hs IH Hall]; intros Hx; simpl.
  - repeat constructor.
  - inversion Hx as [|? ? Hyx Hlx]; subst.
    constructor; [auto|].
    apply List.Forall_app. split; [assumption | now constructor].
Qed.

Lemma lines_perm (current_branch : str) (names : list str) :
  NoDup names ->
  Permutation (map (Repository.branch_line current_branch) names)
    (map (fun n => lit "  " ++ n)
       (List.filter (fun n => negb (bool_decide (n = current_branch))) names)
     ++ (if bool_decide (current_branch ∈ names)
         then [lit "* " ++ current_branch] else [])).
Proof.
  induction names as [|n l IH]; intros Hnd; [reflexivity|].
  apply NoDup_cons in Hnd as [Hn Hnd]. specialize (IH Hnd).
  cbn [map List.filter]. unfold Repository.branch_line at 1.
  destruct (bool_decide (n = current_branch)) eqn:E.
  - apply bool_decide_eq_true_1 in E. subst n.
    rewrite (bool_decide_eq_false_2 _ Hn) in IH. rewrite app_nil_r in IH.
    rewrite bool_decide_eq_true_2 by left.
    cbn [negb]. rewrite IH. apply Permutation_cons_append.
  - apply bool_decide_eq_false_1 in E.
    cbn [negb map]. rewrite <- app_comm_cons. apply perm_skip.
    replace (bool_decide (current_branch ∈ n :: l))
      with (bool_decide (current_branch ∈ l)); [assumption|].
    apply bool_decide_ext. rewrite elem_of_cons. intuition congruence.
Qed.

Lemma listing_sorted (current_branch : str) (names : list str) :
  StronglySorted (key_le (fun line : str => line))
    (listing current_branch names).
Proof.
  unfold listing.
  set (others := Builtins.sort _ _).
  assert (Hs : StronglySorted (key_le (fun line : str => line))
                 (map (fun n => lit "  " ++ n) others)).
  { pose proof (sort_sorted (fun n : str => n)
                  (List.filter
                     (fun n => negb (bool_decide (n = current_branch))) names))
      as H.
    fold others in H.
    induction H as [|x l Hl IH Hall]; simpl; constructor; [assumption|].
    rewrite List.Forall_forall in *. intros k Hk.
    apply in_map_iff in Hk as (y & <- & Hy).
    specialize (Hall y Hy). exact Hall. }
  destruct (bool_decide (current_branch ∈ names)).
  - apply sorted_snoc; [assumption|].
    rewrite List.Forall_forall. intros k Hk.
    apply in_map_iff in Hk as (y & <- & Hy). reflexivity.
  - now rewrite app_nil_r.
Qed.

(** The sorted lines of the listing. *)
Lemma sort_lines (current_branch : str) (names : list str) :
  NoDup names ->
  Builtins.sort (fun line => line)
    (map (Repository.branch_line current_branch) names)
  = listing current_branch names.
Proof.
  intros Hnd. apply (sorted_unique (fun line : str => line)).
  - apply sort_sorted.
  - apply listing_sorted.
  - rewrite sort_perm, (lines_perm _ _ Hnd). unfold listing.
    apply Permutation_app_tail, Permutation_map. symmetry. apply sort_perm.
  - auto.
Qed.

(** X7.  The listing of the branches names the files directly in the
    heads directory, the current branch last and marked with a star, the
    others before it in ascending order, two spaces in front of each. *)
Theorem list_branches_current_last (self : Repository.t)
    (fs : gmap Path.t node) (current_branch : str) :
  Fs.is_dir fs (heads_dir self) = true ->
  fst (Repository._get_current_branch self fs) = Ok current_branch ->
  Repository._list_branches self fs
  = (Ok (Py.join [LF] (listing current_branch (branch_files self fs))), fs).
Proof.
  intros Hdir Hcur.
  apply (read_result _ _ _ (current_branch_reads self)) in Hcur.
  unfold Repository._list_branches, bind, inspect, ret.
  fold (heads_dir self).
  assert (Hst : Fs.stat fs (heads_dir self) = Some Dir).
  { unfold Fs.is_dir in Hdir.
    destruct (Fs.stat fs (heads_dir self)) as [[|]|]; congruence. }
  unfold Fs.exists_. rewrite Hst.
  cbv beta iota delta [negb]. rewrite Hcur.
  unfold Fs.iterdir. rewrite Hst.
  rewrite (collect_lines fs
             (fun p => Repository.branch_line current_branch (Path.name p))).
  cbn [app].
  rewrite <- (map_map Path.name (Repository.branch_line current_branch)).
  fold (branch_files self fs).
  now rewrite sort_lines by apply branch_files_NoDup.
Qed.

Lemma list_branches_current_last_witness :
  Fs.is_dir example_zeta (heads_dir example_repo) = true
  /\ fst (Repository._get_current_branch example_repo example_zeta)
     = Ok (lit "main")
  /\ fst (Repository._list_branches example_repo example_zeta)
     = Ok (lit "  zeta" ++ [LF] ++ lit "* main").
Proof.
  assert (H1 : Fs.is_dir example_zeta (heads_dir example_repo) = true)
    by (vm_compute; reflexivity).
  assert (H2 : fst (Repository._get_current_branch example_repo example_zeta)
               = Ok (lit "main")) by (vm_compute; reflexivity).
  split; [exact H1|]. split; [exact H2|].
  rewrite (list_branches_current_last example_repo example_zeta (lit "main")
             H1 H2).
  cbn [fst]. vm_compute. reflexivity.
Defined.

(** ** Objects that are already in the store *)

Lemma parent_prefix (p : Path.t) : Path.parent p `prefix_of` p.
Proof.
  unfold Path.parent. destruct p as [|c p] using rev_ind.
  - reflexivity.
  - rewrite removelast_last. now apply prefix_app_r.
Qed.

Lemma os_mkdir_frame (fs fs' : gmap Path.t node) (p r : Path.t) :
  Fs.os_mkdir fs p = Ok fs' -> ~ r `prefix_of` p ->
  Fs.stat fs' r = Fs.stat fs r.
Proof.
  unfold Fs.os_mkdir. intros H Hr.
  destruct (Fs.stat fs p); [discriminate|].
  destruct (Fs.stat fs (Path.parent p)) as [[|]|]; try discriminate.
  injection H as <-. apply stat_insert_ne. intros ->. now apply Hr.
Qed.

(** [mkdir] touches nothing but the directory it makes and the
    directories above it. *)
Lemma mkdir_parents_frame (fuel : nat) (fs fs' : gmap Path.t node)
    (p r : Path.t) :
  Fs.mkdir_parents fuel fs p = Ok fs' -> ~ r `prefix_of` p ->
  Fs.stat fs' r = Fs.stat fs r.
Proof.
  revert fs fs' p. induction fuel as [|fuel IH]; intros fs fs' p H Hr.
  - simpl in H.
    destruct (Fs.os_mkdir fs p) as [fs0|e] eqn:E.
    + injection H as <-. now apply (os_mkdir_frame fs fs0 p).
    + destruct e; try discriminate;
        destruct (Fs.is_dir fs p); try discriminate;
        now injection H as <-.
  - simpl in H.
    destruct (Fs.os_mkdir fs p) as [fs0|e] eqn:E.
    + injection H as <-. now apply (os_mkdir_frame fs fs0 p).
    + destruct e;
        try (destruct (Fs.is_dir fs p); try discriminate;
             now injection H as <-).
      destruct (Fs.mkdir_parents fuel fs (Path.parent p)) as [fs1|e] eqn:E1;
        [|discriminate].
      simpl in H.
      assert (H1 : Fs.stat fs1 r = Fs.stat fs r).
      { apply (IH _ _ _ E1). intros Hp. apply Hr.
        etransitivity; [exact Hp | apply parent_prefix]. }
      rewrite <- H1.
      destruct (Fs.os_mkdir fs1 p) as [fs2|e] eqn:E2.
      * injection H as <-. now apply (os_mkdir_frame fs1 fs2 p).
      * destruct e; try discriminate;
          destruct (Fs.is_dir fs1 p); try discriminate;
          now injection H as <-.
Qed.

(** [store_object] touches nothing but the object file and the
    directories above it. *)
Lemma store_object_frame (self : ObjectStore.t) (content : bytes)
    (obj_type : str) (fs fs1 : gmap Path.t node) (h : str) (r : Path.t) :
  ObjectStore.store_object self content obj_type fs = (Ok h, fs1) ->
  ~ r `prefix_of` ObjectStore._get_object_path self h ->
  Fs.stat fs1 r = Fs.stat fs r.
Proof.
  intros Hstore Hr.
  apply store_object_inv in Hstore as (-> & fs0 & Hmk & Hwr).
  apply write_bytes_inv in Hwr as (_ & -> & _).
  rewrite stat_insert_ne by (intros E; apply Hr; now rewrite <- E).
  apply (mkdir_parents_frame _ _ _ _ _ Hmk).
  intros Hp. apply Hr. etransitivity; [exact Hp | apply parent_prefix].
Qed.

(** Where an object with a name of hexadecimal digits goes. *)
Lemma object_path_hex (self : ObjectStore.t) (h : str) :
  forallb is_hex h = true -> 2 < length h ->
  ObjectStore._get_object_path self h =
  ObjectStore.objects_path self ++ [take 2 h; drop 2 h].
Proof.
  intros Hhex Hlen.
  unfold ObjectStore._get_object_path, Py.slice_to, Py.slice_from.
  rewrite (div_hex _ (take 2 h)), (div_hex _ (drop 2 h)).
  - now rewrite <- app_assoc.
  - intros E. apply (f_equal (@length ascii)) in E.
    rewrite length_drop in E. change (length (@nil ascii)) with 0 in E. lia.
  - now apply forallb_drop.
  - intros E. apply (f_equal (@length ascii)) in E.
    rewrite length_take in E. change (length (@nil ascii)) with 0 in E. lia.
  - now apply forallb_take.
Qed.

(** What [get_object] returns depends only on the file with the name of
    the object. *)
Lemma get_object_stat (self : ObjectStore.t) (hash_str : str)
    (fs fs' : gmap Path.t node) :
  Fs.stat fs' (ObjectStore._get_object_path self hash_str)
  = Fs.stat fs (ObjectStore._get_object_path self hash_str) ->
  fst (ObjectStore.get_object self hash_str fs')
  = fst (ObjectStore.get_object self hash_str fs).
Proof.
  intros H.
  unfold ObjectStore.get_object, bind, inspect, raise, lift, ret.
  unfold Fs.exists_, Fs.read_bytes. rewrite H.
  destruct (Fs.stat fs _) as [[|data]|] eqn:E; cbv beta iota delta [negb];
    rewrite ?H, ?E; try reflexivity.
  destruct (Py.find x00 data); [|reflexivity].
  destruct (Codec.decode _); [|reflexivity].
  destruct (Py.index _ _); reflexivity.
Qed.

(** Two names of hexadecimal digits lead to different object files. *)
Lemma object_path_other (self : ObjectStore.t) (h other : str) :
  forallb is_hex h = true -> 2 < length h ->
  forallb is_hex other = true -> 2 < length other -> other <> h ->
  ~ ObjectStore._get_object_path self other
    `prefix_of` ObjectStore._get_object_path self h.
Proof.
  intros Hh Hlh Ho Hlo Hne Hp.
  rewrite !object_path_hex in Hp by assumption.
  apply prefix_length_eq in Hp; [|rewrite !length_app; simpl; lia].
  apply app_inv_head in Hp. apply Hne.
  rewrite <- (take_drop 2 h), <- (take_drop 2 other). congruence.
Qed.

(** X8.  Storing an object leaves every other object as it was: what
    [get_object] returns for a name of hexadecimal digits other than the
    hash just returned is what it returned before. *)
Theorem store_object_keeps_others (self : ObjectStore.t) (content : bytes)
    (obj_type : str) (fs fs1 : gmap Path.t node) (h other : str) :
  ObjectStore.store_object self content obj_type fs = (Ok h, fs1) ->
  forallb is_hex other = true -> 2 < length other -> other <> h ->
  fst (ObjectStore.get_object self other fs1)
  = fst (ObjectStore.get_object self other fs).
Proof.
  intros Hstore Hhex Hlen Hne.
  apply get_object_stat.
  apply (store_object_frame _ _ _ _ _ _ _ Hstore).
  pose proof (store_object_inv _ _ _ _ _ _ Hstore) as (-> & _).
  apply object_path_other; try assumption.
  - apply hexdigest_is_hex.
  - rewrite hexdigest_length. lia.
Qed.

Lemma store_object_keeps_others_witness :
  fst example_hello = Ok (lit "b6fc4c620b67d95f953a5c1c1230aaab5db5a1b0")
  /\ fst (ObjectStore.get_object (Repository.object_store example_repo)
            example_hash (snd example_hello))
     = fst (ObjectStore.get_object (Repository.object_store example_repo)
              example_hash (snd example_stored)).
Proof.
  assert (H : fst example_hello
              = Ok (lit "b6fc4c620b67d95f953a5c1c1230aaab5db5a1b0"))
    by (vm_compute; reflexivity).
  split; [exact H|].
  apply (store_object_keeps_others (Repository.object_store example_repo)
           (Codec.encode (lit "hello")) (lit "blob") (snd example_stored)
           (snd example_hello) _ example_hash (returned _ _ H)).
  - vm_compute. reflexivity.
  - vm_compute. lia.
  - vm_compute. discriminate.
Defined.

(** ** What [get_object] makes of a file *)

Lemma split_ws_aux_blank (s : str) :
  forallb Py.isspace s = true -> Py.split_ws_aux [] s = [].
Proof.
  induction s as [|c s IH]; [reflexivity|]. simpl.
  intros H. apply andb_prop in H as [-> Hs]. auto.
Qed.

Lemma blank_no_NUL (s : str) : forallb Py.isspace s = true -> no_NUL s = true.
Proof.
  induction s as [|c s IH]; [reflexivity|]. simpl.
  intros H. apply andb_prop in H as [Hc Hs]. rewrite IH by assumption.
  rewrite andb_true_r.
  destruct c as [[] [] [] [] [] [] [] []]; try discriminate Hc; reflexivity.
Qed.

(** [get_object] on a file that holds a header, a zero byte and a
    payload. *)
Lemma get_object_file (self : ObjectStore.t) (fs : gmap Path.t node)
    (hash_str header : str) (payload : bytes) :
  no_NUL header = true ->
  Fs.stat fs (ObjectStore._get_object_path self hash_str)
  = Some (File (Codec.encode header ++ x00 :: payload)) ->
  ObjectStore.get_object self hash_str fs
  = (let* obj_type := Py.index (Py.split_ws header) 0 in
     Ok (obj_type, payload), fs).
Proof.
  intros Hnul Hfile.
  unfold ObjectStore.get_object, bind, inspect, raise, lift, ret.
  unfold Fs.exists_, Fs.read_bytes. rewrite Hfile.
  cbv beta iota zeta delta [negb]. rewrite ?Hfile.
  rewrite find_NUL_encode by assumption.
  unfold Py.slice_to, Py.slice_from.
  rewrite take_app_length, drop_past, decode_encode.
  destruct (Py.index (Py.split_ws header) 0); reflexivity.
Qed.

(** X9.  [get_object] takes a file at its word: whatever name it is
    asked for and whatever length the header declares, it returns the
    first word of the header as the type and all bytes after the first
    zero byte as the content. *)
Theorem get_object_trusts_file (self : ObjectStore.t) (fs : gmap Path.t node)
    (hash_str obj_type rest : str) (payload : bytes) :
  word obj_type = true ->
  no_NUL rest = true ->
  Fs.stat fs (ObjectStore._get_object_path self hash_str)
  = Some (File (Codec.encode (obj_type ++ SP :: rest) ++ x00 :: payload)) ->
  ObjectStore.get_object self hash_str fs = (Ok (obj_type, payload), fs).
Proof.
  intros Hw Hrest Hfile.
  rewrite (get_object_file self fs hash_str (obj_type ++ SP :: rest) payload).
  - now rewrite split_ws_first.
  - unfold no_NUL in *. rewrite forallb_app. cbn [forallb].
    destruct obj_type as [|c w]; [discriminate|].
    apply word_no_NUL in Hw. unfold no_NUL in Hw. now rewrite Hw, Hrest.
  - assumption.
Qed.

Lemma get_object_trusts_file_witness :
  ObjectStore.get_object (Repository.object_store example_repo) (lit "mine")
    example_forged
  = (Ok (lit "blob", [x68; x69]), example_forged).
Proof.
  apply (get_object_trusts_file (Repository.object_store example_repo)
           example_forged (lit "mine") (lit "blob") (lit "999") [x68; x69]).
  - reflexivity.
  - reflexivity.
  - unfold example_forged. apply stat_insert_eq. vm_compute. discriminate.
Defined.

(** X10.  An object file whose header is empty or all white space makes
    [get_object] raise [IndexError], not [PyGitError]. *)
Theorem get_object_blank_header (self : ObjectStore.t) (fs : gmap Path.t node)
    (hash_str header : str) (payload : bytes) :
  forallb Py.isspace header = true ->
  Fs.stat fs (ObjectStore._get_object_path self hash_str)
  = Some (File (Codec.encode header ++ x00 :: payload)) ->
  ObjectStore.get_object self hash_str fs = (Raise IndexError, fs).
Proof.
  intros Hblank Hfile.
  rewrite (get_object_file self fs hash_str header payload).
  - unfold Py.split_ws. now rewrite split_ws_aux_blank.
  - now apply blank_no_NUL.
  - assumption.
Qed.

Lemma get_object_blank_header_witness :
  ObjectStore.get_object (Repository.object_store example_repo) example_hash
    example_headless
  = (Raise IndexError, example_headless).
Proof.
  apply (get_object_blank_header (Repository.object_store example_repo)
           example_headless example_hash [] [x68; x69]).
  - reflexivity.
  - unfold example_headless. apply stat_insert_eq. vm_compute. discriminate.
Defined.

(** ** The tree and the order of staging *)

(** X11.  When the staged paths end in different names, the tree does
    not depend on the order in which the files were staged: the same
    content is stored, under the same hash, with the same effect on the
    file system. *)
Theorem create_tree_order_independent (self : Repository.t)
    (fs : gmap Path.t node)
    (staged_files reordered : list (str * FileEntry.t)) :
  NoDup (map (fun staged => Path.basename (fst staged)) staged_files) ->
  Permutation staged_files reordered ->
  Repository.tree_content reordered = Repository.tree_content staged_files
  /\ Repository._create_tree self reordered fs
     = Repository._create_tree self staged_files fs.
Proof.
  intros Hnd Hp.
  pose proof (tree_content_order_independent _ _ Hnd Hp) as E.
  split; [now symmetry|].
  unfold Repository._create_tree. now rewrite E.
Qed.

Lemma create_tree_order_independent_witness :
  Repository.tree_content (rev example_staged)
  = Repository.tree_content example_staged
  /\ Repository._create_tree example_repo (rev example_staged) example_fresh
     = Repository._create_tree example_repo example_staged example_fresh.
Proof.
  apply (create_tree_order_independent example_repo example_fresh
           example_staged (rev example_staged)).
  - refine (bool_decide_eq_true_1 _ _). vm_compute. reflexivity.
  - apply Permutation_rev.
Defined.

(** With the same name staged twice the order shows: the sort is stable,
    so the records of one name stay in the order of staging. *)
Example tree_content_order_matters :
  Repository.tree_content (rev example_colliding)
  <> Repository.tree_content example_colliding.
Proof. vm_compute. discriminate. Qed.

(** ** The staged entries as a dict *)

Section Dict.
Import Builtins.
Context {V : Type}.
Implicit Types (d : dict V) (k : str) (v : V).

Lemma dict_get_set_eq d k v : dict_get (dict_set d k v) k = Some v.
Proof.
  induction d as [|[k' v'] d IH]; simpl.
  - now rewrite bool_decide_eq_true_2.
  - destruct (bool_decide (k' = k)) eqn:E; simpl.
    + now rewrite bool_decide_eq_true_2.
    + now rewrite E.
Qed.

Lemma dict_get_set_ne d k v other :
  other <> k -> dict_get (dict_set d k v) other = dict_get d other.
Proof.
  intros Hne. induction d as [|[k' v'] d IH]; simpl.
  - now rewrite bool_decide_eq_false_2 by congruence.
  - destruct (bool_decide (k' = k)) eqn:E; simpl.
    + apply bool_decide_eq_true_1 in E. subst k'.
      now rewrite !bool_decide_eq_false_2 by congruence.
    + now rewrite IH.
Qed.

Lemma dict_get_None d k : dict_get d k = None <-> k ∉ map fst d.
Proof.
  induction d as [|[k' v'] d IH]; simpl.
  - split; [intros _; apply not_elem_of_nil | reflexivity].
  - rewrite not_elem_of_cons.
    destruct (bool_decide (k' = k)) eqn:E.
    + apply bool_decide_eq_true_1 in E. split; [discriminate|].
      intros [Hne _]. congruence.
    + apply bool_decide_eq_false_1 in E. rewrite IH. intuition congruence.
Qed.

(** The keys after [d[k] = v]. *)
Lemma dict_set_keys d k v :
  map fst (dict_set d k v)
  = if dict_in k d then map fst d else map fst d ++ [k].
Proof.
  unfold dict_in. induction d as [|[k' v'] d IH]; simpl; [reflexivity|].
  destruct (bool_decide (k' = k)) eqn:E; simpl.
  - apply bool_decide_eq_true_1 in E. now subst.
  - rewrite IH. now destruct (dict_get d k).
Qed.

Lemma dict_set_NoDup d k v :
  NoDup (map fst d) -> NoDup (map fst (dict_set d k v)).
Proof.
  intros Hnd. rewrite dict_set_keys. unfold dict_in.
  destruct (dict_get d k) eqn:E; [assumption|].
  apply dict_get_None in E.
  apply NoDup_app. split; [assumption|]. split.
  - intros x Hx Hk. apply list_elem_of_singleton in Hk. now subst.
  - apply NoDup_singleton.
Qed.

Lemma dict_del_keys d k :
  NoDup (map fst d) ->
  map fst (dict_del d k) = List.filter (fun k' => negb (bool_decide (k' = k))) (map fst d).
Proof.
  induction d as [|[k' v'] d IH]; simpl; intros Hnd; [reflexivity|].
  apply NoDup_cons in Hnd as [Hk' Hnd].
  destruct (bool_decide (k' = k)) eqn:E; simpl.
  - apply bool_decide_eq_true_1 in E. subst k'.
    symmetry. clear IH Hnd. induction (map fst d) as [|x l IH]; [reflexivity|].
    apply not_elem_of_cons in Hk' as [Hx Hl]. simpl.
    rewrite bool_decide_eq_false_2 by congruence. simpl. f_equal. auto.
  - f_equal. auto.
Qed.

Lemma dict_del_NoDup d k :
  NoDup (map fst d) -> NoDup (map fst (dict_del d k)).
Proof.
  induction d as [|[k' v'] d IH]; simpl; intros Hnd; [assumption|].
  apply NoDup_cons in Hnd as [Hk' Hnd].
  destruct (bool_decide (k' = k)); [assumption|].
  simpl. apply NoDup_cons. split; [|auto].
  rewrite dict_del_keys by assumption.
  intros Hin. apply Hk'.
  apply list_elem_of_In in Hin. apply filter_In in Hin as [Hin _].
  now apply list_elem_of_In.
Qed.

Lemma dict_get_del_eq d k :
  NoDup (map fst d) -> dict_get (dict_del d k) k = None.
Proof.
  intros Hnd. apply dict_get_None. rewrite dict_del_keys by assumption.
  intros Hin. apply list_elem_of_In in Hin. apply filter_In in Hin as [_ Hk].
  now rewrite bool_decide_eq_true_2 in Hk.
Qed.

Lemma dict_get_del_ne d k other :
  other <> k -> dict_get (dict_del d k) other = dict_get d other.
Proof.
  intros Hne. induction d as [|[k' v'] d IH]; simpl; [reflexivity|].
  destruct (bool_decide (k' = k)) eqn:E; simpl.
  - apply bool_decide_eq_true_1 in E. subst k'.
    now rewrite bool_decide_eq_false_2 by congruence.
  - now rewrite IH.
Qed.

(** A key that was put in and taken out again leaves a dict that did
    not have it as it was. *)
Lemma dict_del_set d k v :
  dict_in k d = false -> dict_del (dict_set d k v) k = d.
Proof.
  unfold dict_in. induction d as [|[k' v'] d IH]; simpl; intros H.
  - now rewrite bool_decide_eq_true_2.
  - destruct (bool_decide (k' = k)) eqn:E; [discriminate|].
    simpl. rewrite E. f_equal. auto.
Qed.

End Dict.

(** ** The index *)

(** What a successful [save] did. *)
Lemma save_inv (json_dumps : json -> str) (self : Index.t)
    (entries : Index.entries_t) (fs fs' : gmap Path.t node) :
  Index.save json_dumps self entries fs = (Ok tt, fs') ->
  exists fs0,
    Fs.mkdir fs (Path.parent (Index.index_path self)) = Ok fs0
    /\ Index.index_path self <> []
    /\ fs' = <[Index.index_path self :=
                File (Codec.encode (json_dumps (Index.dumped entries)))]> fs0.
Proof.
  unfold Index.save, bind, update.
  destruct (Fs.mkdir fs _) as [fs0|e] eqn:Hmk; [|discriminate].
  destruct (Fs.write_text fs0 _ _) as [fs1|e] eqn:Hw; [|discriminate].
  intros H. injection H as <-.
  apply write_bytes_inv in Hw as (Hne & -> & _). eauto.
Qed.

(** X12.  [add_file] keeps the paths of the index unique: staging a path
    that is staged already replaces its entry where it stands, a new path
    goes to the end, and no other entry changes.  The entry is in
    [self.entries] whether or not [save] then succeeds; when the file
    does not exist nothing changes at all. *)
Theorem add_file_keeps_paths_unique (json_dumps : json -> str)
    (self : Index.t) (file_path hash_str : str) (stat : stat_result)
    (entries entries' : Index.entries_t) (fs fs' : gmap Path.t node)
    (result : outcome unit) :
  NoDup (map fst entries) ->
  Index.add_file json_dumps self file_path hash_str stat entries fs
  = (result, entries', fs') ->
  NoDup (map fst entries')
  /\ (forall other, other <> file_path ->
        Builtins.dict_get entries' other = Builtins.dict_get entries other)
  /\ if Fs.exists_ fs (Index.repo_path self </> file_path)
     then
       (exists entry,
          Builtins.dict_get entries' file_path = Some entry
          /\ FileEntry.path entry = file_path
          /\ FileEntry.hash entry = hash_str
          /\ FileEntry.size entry = st_size stat
          /\ FileEntry.mtime entry = st_mtime stat)
       /\ map fst entries'
          = (if Builtins.dict_in file_path entries then map fst entries
             else map fst entries ++ [file_path])
     else
       entries' = entries /\ fs' = fs
       /\ result = Raise (PyGitError (lit "File " ++ file_path
                                      ++ lit " does not exist")).
Proof.
  intros Hnd. unfold Index.add_file.
  destruct (Fs.exists_ fs (Index.repo_path self </> file_path));
    cbv beta iota zeta delta [negb].
  - destruct (Index.save _ _ _ _) as [r fs1]. intros H.
    injection H as <- <- <-.
    split; [now apply dict_set_NoDup|].
    split; [intros other Hne; now apply dict_get_set_ne|].
    split; [|apply dict_set_keys].
    eexists. split; [apply dict_get_set_eq|]. repeat split.
  - intros H. injection H as <- <- <-. auto.
Qed.

(** X13.  [remove_file] after a successful [add_file] of the same path
    leaves the entries without that path, the paths still unique and the
    other entries untouched: the entries are as they were if the path had
    not been staged before, and lack the older entry if it had (the older
    entry does not come back).  When the second [save] succeeds the index
    file holds these entries. *)
Theorem add_then_remove (json_dumps : json -> str)
    (self : Index.t) (file_path hash_str : str) (stat : stat_result)
    (entries entries1 entries2 : Index.entries_t)
    (fs fs1 fs2 : gmap Path.t node) (result : outcome unit) :
  NoDup (map fst entries) ->
  Index.add_file json_dumps self file_path hash_str stat entries fs
  = (Ok tt, entries1, fs1) ->
  Index.remove_file json_dumps self file_path entries1 fs1
  = (result, entries2, fs2) ->
  entries2 = Builtins.dict_del entries file_path
  /\ NoDup (map fst entries2)
  /\ Builtins.dict_get entries2 file_path = None
  /\ (forall other, other <> file_path ->
        Builtins.dict_get entries2 other = Builtins.dict_get entries other)
  /\ (Builtins.dict_in file_path entries = false -> entries2 = entries)
  /\ (result = Ok tt ->
      Fs.read_bytes fs2 (Index.index_path self)
      = Ok (Codec.encode (json_dumps (Index.dumped entries2)))).
Proof.
  intros Hnd Hadd Hrm.
  unfold Index.add_file in Hadd.
  destruct (Fs.exists_ fs _); cbv beta iota zeta delta [negb] in Hadd;
    [|discriminate].
  destruct (Index.save _ _ _ fs) as [r fs0]. injection Hadd as -> <- <-.
  unfold Index.remove_file, Builtins.dict_in in Hrm.
  rewrite dict_get_set_eq in Hrm.
  destruct (Index.save _ _ _ fs0) as [r fs3] eqn:Hsave.
  injection Hrm as <- <- <-.
  assert (E : Builtins.dict_del
                (Builtins.dict_set entries file_path
                   {| FileEntry.path := file_path; FileEntry.hash := hash_str;
                      FileEntry.mode :=
                        Builtins.slice_last 3 (Builtins.oct (st_mode stat));
                      FileEntry.size := st_size stat;
                      FileEntry.mtime := st_mtime stat |}) file_path
              = Builtins.dict_del entries file_path).
  { clear. induction entries as [|[k v] d IH]; simpl.
    - now rewrite bool_decide_eq_true_2.
    - destruct (bool_decide (k = file_path)) eqn:E; simpl.
      + now rewrite bool_decide_eq_true_2.
      + rewrite E. now f_equal. }
  rewrite E.
  split; [reflexivity|].
  split; [now apply dict_del_NoDup|].
  split; [now apply dict_get_del_eq|].
  split; [intros other Hne; now apply dict_get_del_ne|].
  split.
  - intros Hin. rewrite <- E. now apply dict_del_set.
  - intros ->. rewrite E in Hsave.
    apply save_inv in Hsave as (fs4 & _ & Hne & ->).
    unfold Fs.read_bytes. now rewrite stat_insert_eq.
Qed.

Lemma FileEntry_of_asdict (entry : FileEntry.t) :
  Index.FileEntry_of (Index.asdict entry) = Ok entry.
Proof. destruct entry. reflexivity. Qed.

Lemma comprehension_dumped (entries : Index.entries_t) :
  Index.comprehension
    (map (fun '(path, entry) => (path, Index.asdict entry)) entries)
  = Ok entries.
Proof.
  induction entries as [|[path entry] l IH]; [reflexivity|].
  cbn [map Index.comprehension]. rewrite FileEntry_of_asdict, IH. reflexivity.
Qed.

(** X14.  What [save] wrote, a new [Index] loads: when [json.load] reads
    the text of [json.dump] back as the value that was dumped, the
    entries after [__init__] are the entries that were saved, in the same
    order. *)
Theorem save_then_load (json_dumps : json -> str)
    (json_load : str -> outcome json) (self : Index.t)
    (entries : Index.entries_t) (fs fs' : gmap Path.t node) :
  Index.save json_dumps self entries fs = (Ok tt, fs') ->
  json_load (Codec.universal_newlines (json_dumps (Index.dumped entries)))
  = Ok (Index.dumped entries) ->
  Index.__init__ (Index.read json_load self fs') = Ok entries.
Proof.
  intros Hsave Hjson.
  apply save_inv in Hsave as (fs0 & _ & Hne & ->).
  unfold Index.__init__, Index.read, Fs.exists_, Fs.read_text, Fs.read_bytes.
  rewrite stat_insert_eq by assumption.
  cbn [obind]. rewrite decode_encode. cbn [obind]. rewrite Hjson.
  unfold Index.load, Index.dumped, Index.items. cbn [obind].
  now rewrite comprehension_dumped.
Qed.

Lemma triple_eta {A B C} (x : A * B * C) : x = (fst (fst x), snd (fst x), snd x).
Proof. now destruct x as [[a b] c]. Qed.

(** The mode of a regular file with permissions 644. *)
Example oct_mode :
  Builtins.oct 33188 = lit "0o100644"
  /\ Builtins.slice_last 3 (Builtins.oct 33188) = lit "644".
Proof. split; reflexivity. Qed.

Lemma add_file_keeps_paths_unique_witness :
  snd (fst example_added) = example_index
  /\ NoDup (map fst (snd (fst example_added)))
  /\ map fst (snd (fst example_added)) = [lit "a.txt"].
Proof.
  split; [vm_compute; reflexivity|].
  destruct (add_file_keeps_paths_unique example_dumps
              (Repository.index example_repo) (lit "a.txt")
              (lit "b6fc4c620b67d95f953a5c1c1230aaab5db5a1b0") example_stat
              [] (snd (fst example_added)) example_worktree (snd example_added)
              (fst (fst example_added)) NoDup_nil_2
              (triple_eta example_added))
    as (Hnd & _ & Hthen).
  split; [exact Hnd|].
  change (Fs.exists_ example_worktree
            (Index.repo_path (Repository.index example_repo) </> lit "a.txt"))
    with true in Hthen.
  exact (proj2 Hthen).
Defined.

Lemma add_then_remove_witness :
  fst (fst example_added) = Ok tt
  /\ snd (fst example_removed) = []
  /\ (fst (fst example_removed) = Ok tt ->
      Fs.read_bytes (snd example_removed)
        (Index.index_path (Repository.index example_repo))
      = Ok (Codec.encode (example_dumps
                            (Index.dumped (snd (fst example_removed)))))).
Proof.
  assert (H : fst (fst example_added) = Ok tt) by (vm_compute; reflexivity).
  split; [exact H|].
  assert (Hadd : example_added
                 = (Ok tt, snd (fst example_added), snd example_added)).
  { rewrite (triple_eta example_added) at 1. now rewrite H. }
  destruct (add_then_remove example_dumps (Repository.index example_repo)
              (lit "a.txt") (lit "b6fc4c620b67d95f953a5c1c1230aaab5db5a1b0")
              example_stat [] _ _ example_worktree _ _ _
              NoDup_nil_2 Hadd (triple_eta example_removed))
    as (Hdel & _ & _ & _ & _ & Hfile).
  split; [exact Hdel | exact Hfile].
Defined.

Lemma save_then_load_witness :
  fst example_saved = Ok tt
  /\ Index.__init__
       (Index.read example_loads (Repository.index example_repo)
          (snd example_saved))
     = Ok example_index.
Proof.
  assert (H : fst example_saved = Ok tt) by (vm_compute; reflexivity).
  split; [exact H|].
  apply (save_then_load example_dumps example_loads
           (Repository.index example_repo) example_index example_fresh
           (snd example_saved) (returned _ _ H)).
  vm_compute. reflexivity.
Defined.

(** ** Staging a file *)

(** A path in [.pygit] that does not start with [objects] is neither an
    object file nor a directory above one. *)
Lemma elsewhere_not_prefix (self : Repository.t) (h x : str) (rest : Path.t) :
  forallb is_hex h = true -> 2 < length h ->
  x <> OBJECTS_DIR ->
  ~ (Repository.path self ++ PYGIT_DIR :: x :: rest)
    `prefix_of`
    ObjectStore._get_object_path (Repository.object_store self) h.
Proof.
  intros Hhex Hlen Hx Hp.
  rewrite object_path_hex, objects_path_eq in Hp by assumption.
  rewrite <- app_assoc in Hp. apply prefix_app_inv in Hp.
  cbn [app] in Hp.
  apply prefix_cons_inv_2 in Hp. apply prefix_cons_inv_1 in Hp.
  contradiction.
Qed.

Lemma store_object_elsewhere (self : Repository.t) (content : bytes)
    (obj_type : str) (fs fs1 : gmap Path.t node) (h x : str) (rest : Path.t) :
  ObjectStore.store_object (Repository.object_store self) content obj_type fs
  = (Ok h, fs1) ->
  x <> OBJECTS_DIR ->
  Fs.stat fs1 (Repository.path self ++ PYGIT_DIR :: x :: rest)
  = Fs.stat fs (Repository.path self ++ PYGIT_DIR :: x :: rest).
Proof.
  intros Hstore Hx.
  apply (store_object_frame _ _ _ _ _ _ _ Hstore).
  pose proof (store_object_inv _ _ _ _ _ _ Hstore) as (-> & _).
  apply elsewhere_not_prefix; [apply hexdigest_is_hex | | assumption].
  rewrite hexdigest_length. lia.
Qed.

Lemma index_path_eq (self : Repository.t) :
  Index.index_path (Repository.index self)
  = Repository.path self ++ [PYGIT_DIR; INDEX_FILE].
Proof.
  unfold Index.index_path, Repository.index. cbn [Index.repo_path].
  rewrite !div_literal by reflexivity. now rewrite <- app_assoc.
Qed.

(** X15.  What [_add_single_file] stages it has stored: after a
    successful call on a regular file the entry of the path holds the
    hash of the blob record of the bytes the file held, and [get_object]
    returns these bytes for that hash. *)
Theorem add_single_file_stages_blob (json_dumps : json -> str)
    (self : Repository.t) (file_path : str) (stat : stat_result)
    (entries entries' : Index.entries_t) (fs fs' : gmap Path.t node)
    (content : bytes) :
  Fs.stat fs (Repository.path self </> file_path) = Some (File content) ->
  Repository._add_single_file json_dumps self file_path stat entries fs
  = (Ok tt, entries', fs') ->
  let h := Sha1.hexdigest (encoded (lit "blob") content) in
  (exists entry,
     Builtins.dict_get entries' file_path = Some entry
     /\ FileEntry.path entry = file_path
     /\ FileEntry.hash entry = h)
  /\ fst (ObjectStore.get_object (Repository.object_store self) h fs')
     = Ok (lit "blob", content).
Proof.
  intros Hfile Hadd h.
  unfold Repository._add_single_file in Hadd.
  unfold Fs.exists_, Fs.is_dir, Fs.read_bytes in Hadd. rewrite Hfile in Hadd.
  cbv beta iota zeta delta [negb] in Hadd.
  destruct (ObjectStore.store_object _ content (lit "blob") fs)
    as [[h'|e] fs1] eqn:Hstore; [|discriminate].
  pose proof (store_object_inv _ _ _ _ _ _ Hstore) as (Hh & _).
  fold h in Hh. subst h'.
  unfold Index.add_file in Hadd.
  destruct (Fs.exists_ fs1 _); cbv beta iota zeta delta [negb] in Hadd;
    [|discriminate].
  destruct (Index.save _ _ _ fs1) as [r fs2] eqn:Hsave.
  injection Hadd as -> <- <-.
  split.
  - eexists. split; [apply dict_get_set_eq|]. split; reflexivity.
  - apply save_inv in Hsave as (fs0 & Hmk & Hne & ->).
    transitivity (fst (ObjectStore.get_object (Repository.object_store self)
                         h fs1)).
    2:{ now rewrite (get_object_after_store_word _ content (lit "blob") fs fs1
                       h eq_refl Hstore). }
    apply get_object_stat.
    assert (Hp : ObjectStore._get_object_path (Repository.object_store self) h
                 = Repository.path self
                   ++ [PYGIT_DIR; OBJECTS_DIR; take 2 h; drop 2 h]).
    { unfold h. rewrite object_path_of_digest, objects_path_eq.
      now rewrite <- app_assoc. }
    rewrite Hp, index_path_eq in *.
    rewrite stat_insert_ne by (apply app_ne; discriminate).
    apply (mkdir_parents_frame _ _ _ _ _ Hmk).
    intros Hpre. apply prefix_length in Hpre.
    pose proof (prefix_length _ _
                  (parent_prefix (Repository.path self
                                    ++ [PYGIT_DIR; INDEX_FILE]))) as Hle.
    rewrite !length_app in *. simpl in *. lia.
Qed.

Lemma add_single_file_stages_blob_witness :
  fst (fst example_add) = Ok tt
  /\ (exists entry,
        Builtins.dict_get (snd (fst example_add)) (lit "a.txt") = Some entry
        /\ FileEntry.path entry = lit "a.txt"
        /\ FileEntry.hash entry
           = Sha1.hexdigest (encoded (lit "blob") (Codec.encode (lit "hello"))))
  /\ fst (ObjectStore.get_object (Repository.object_store example_repo)
            (Sha1.hexdigest (encoded (lit "blob") (Codec.encode (lit "hello"))))
            (snd example_add))
     = Ok (lit "blob", Codec.encode (lit "hello")).
Proof.
  assert (H : fst (fst example_add) = Ok tt) by (vm_compute; reflexivity).
  split; [exact H|].
  assert (Hadd : example_add = (Ok tt, snd (fst example_add), snd example_add)).
  { rewrite (triple_eta example_add) at 1. now rewrite H. }
  apply (add_single_file_stages_blob example_dumps example_repo (lit "a.txt")
           example_stat [] _ example_worktree _ (Codec.encode (lit "hello"))).
  - reflexivity.
  - exact Hadd.
Defined.

(** ** Commits *)

Lemma stat_agree (fs fs1 : gmap Path.t node) (p : Path.t) :
  Fs.stat fs1 p = Fs.stat fs p ->
  Fs.exists_ fs1 p = Fs.exists_ fs p
  /\ Fs.read_text fs1 p = Fs.read_text fs p.
Proof.
  intros E. unfold Fs.exists_, Fs.read_text, Fs.read_bytes. now rewrite E.
Qed.

(** [_get_current_branch] looks at [HEAD] and nowhere else. *)
Lemma current_branch_agree (self : Repository.t) (fs fs1 : gmap Path.t node) :
  Fs.stat fs1 (Repository.head_path self)
  = Fs.stat fs (Repository.head_path self) ->
  fst (Repository._get_current_branch self fs1)
  = fst (Repository._get_current_branch self fs).
Proof.
  intros Hhead. destruct (stat_agree _ _ _ Hhead) as [He Hr].
  unfold Repository._get_current_branch, bind, inspect, ret.
  fold (Repository.head_path self). cbv beta. rewrite He.
  destruct (Fs.exists_ fs (Repository.head_path self)); [|reflexivity].
  cbv beta iota delta [negb]. rewrite Hr.
  destruct (Fs.read_text fs (Repository.head_path self)) as [text|e];
    [|reflexivity].
  destruct (Py.startswith _ _); reflexivity.
Qed.

(** [_get_head_commit] looks at [HEAD] and at the ref file of the current
    branch, nowhere else. *)
Lemma head_commit_agree (self : Repository.t) (fs fs1 : gmap Path.t node) :
  Fs.stat fs1 (Repository.head_path self)
  = Fs.stat fs (Repository.head_path self) ->
  (forall b, fst (Repository._get_current_branch self fs) = Ok b ->
     Fs.stat fs1 (Repository.branch_path self b)
     = Fs.stat fs (Repository.branch_path self b)) ->
  fst (Repository._get_head_commit self fs1)
  = fst (Repository._get_head_commit self fs).
Proof.
  intros Hhead. destruct (stat_agree _ _ _ Hhead) as [He Hr].
  unfold Repository._get_head_commit, Repository._get_current_branch,
    bind, inspect, ret.
  fold (Repository.head_path self). cbv beta. rewrite He.
  destruct (Fs.exists_ fs (Repository.head_path self)); [|reflexivity].
  cbv beta iota delta [negb]. rewrite Hr.
  destruct (Fs.read_text fs (Repository.head_path self)) as [text|e];
    [|reflexivity].
  destruct (Py.startswith _ _); [|reflexivity].
  intros Hbranch. specialize (Hbranch _ eq_refl).
  destruct (stat_agree _ _ _ Hbranch) as [E1 E2]. cbv beta. rewrite E1.
  destruct (Fs.exists_ fs _); cbv beta iota delta [negb]; rewrite ?E2;
    [|reflexivity].
  destruct (Fs.read_text fs _); reflexivity.
Qed.

(** The current branch, read off the text of [HEAD]. *)
Lemma current_branch_read (self : Repository.t) (fs : gmap Path.t node)
    (text : str) :
  Fs.read_text fs (Repository.head_path self) = Ok text ->
  Repository._get_current_branch self fs
  = (Ok (if Py.startswith (Py.strip text) (lit "ref: refs/heads/")
         then Py.slice_from 16 (Py.strip text) else lit "HEAD"), fs).
Proof.
  intros Hread. destruct (read_text_exists _ _ _ Hread) as [data Hstat].
  unfold Repository._get_current_branch, bind, inspect, ret.
  fold (Repository.head_path self).
  unfold Fs.exists_ at 1. rewrite Hstat. cbv beta iota delta [negb].
  rewrite Hread. now destruct (Py.startswith _ _).
Qed.

Lemma load_config_reads (json_load : str -> outcome json)
    (self : Repository.t) :
  read_only (Repository._load_config json_load self).
Proof. unfold Repository._load_config. reads. Qed.

Lemma load_config_agree (json_load : str -> outcome json)
    (self : Repository.t) (fs fs1 : gmap Path.t node) :
  Fs.stat fs1 (Repository.pygit_path self </> CONFIG_FILE)
  = Fs.stat fs (Repository.pygit_path self </> CONFIG_FILE) ->
  fst (Repository._load_config json_load self fs1)
  = fst (Repository._load_config json_load self fs).
Proof.
  intros E. destruct (stat_agree _ _ _ E) as [He Hr].
  unfold Repository._load_config, bind, inspect, ret. cbv beta. rewrite He.
  destruct (Fs.exists_ fs _); [|reflexivity]. cbv beta. now rewrite Hr.
Qed.

(** The steps of a [commit] that returned. *)
Lemma commit_inv (json_load : str -> outcome json) (now : Q)
    (self : Repository.t) (entries : Index.entries_t) (message out : str)
    (fs fs' : gmap Path.t node) :
  Repository.commit json_load now self entries message fs = (Ok out, fs') ->
  exists tree_hash parent config author content h fs1 fs2 current,
    Repository._create_tree self entries fs = (Ok tree_hash, fs1)
    /\ fst (Repository._get_head_commit self fs1) = Ok parent
    /\ fst (Repository._load_config json_load self fs1) = Ok config
    /\ Repository.author_of config = Ok author
    /\ Repository._serialize_commit
         (commit_record tree_hash parent author now message) = Ok content
    /\ ObjectStore.store_object (Repository.object_store self) content
         (lit "commit") fs1 = (Ok h, fs2)
    /\ Repository._update_head self h fs2 = (Ok tt, fs')
    /\ fst (Repository._get_current_branch self fs') = Ok current
    /\ out = lit "[" ++ current ++ [SP] ++ Py.slice_to 7 h ++ lit "] "
             ++ message.
Proof.
  unfold Repository.commit, bind.
  destruct (Repository.is_repository self fs) as [[[|]|e] fs0] eqn:Hrepo;
    try discriminate.
  assert (fs0 = fs) by (unfold Repository.is_repository, inspect in Hrepo;
                        now injection Hrepo).
  subst fs0. cbv beta iota delta [negb].
  unfold Index.get_staged_files.
  destruct entries as [|entry entries]; [discriminate|].
  destruct (Repository._create_tree self (entry :: entries) fs)
    as [[tree_hash|e] fs1] eqn:Htree; [|discriminate].
  pose proof (get_head_commit_reads self fs1) as Hro.
  destruct (Repository._get_head_commit self fs1) as [[parent|e] fs1a]
    eqn:Hparent; [|discriminate].
  simpl in Hro. subst fs1a.
  pose proof (load_config_reads json_load self fs1) as Hro.
  destruct (Repository._load_config json_load self fs1) as [[config|e] fs1a]
    eqn:Hconfig; [|discriminate].
  simpl in Hro. subst fs1a.
  unfold lift at 1.
  destruct (Repository.author_of config) as [author|e] eqn:Hauthor;
    [|discriminate].
  unfold lift at 1. fold (commit_record tree_hash parent author now message).
  destruct (Repository._serialize_commit _) as [content|e] eqn:Hcontent;
    [|discriminate].
  destruct (ObjectStore.store_object _ content (lit "commit") fs1)
    as [[h|e] fs2] eqn:Hstore; [|discriminate].
  destruct (Repository._update_head self h fs2) as [[[]|e] fs3] eqn:Hup;
    [|discriminate].
  pose proof (current_branch_reads self fs3) as Hro.
  destruct (Repository._get_current_branch self fs3) as [[current|e] fs3a]
    eqn:Hcur; [|discriminate].
  simpl in Hro. subst fs3a.
  unfold ret. intros H. injection H as <- <-.
  exists tree_hash, parent, config, author, content, h, fs1, fs2, current.
  rewrite Hcur, Hparent, Hconfig. repeat split; auto.
Qed.

Lemma elsewhere_head (self : Repository.t) :
  elsewhere self (Repository.head_path self).
Proof.
  exists HEAD_FILE, []. split; [apply head_path_eq | discriminate].
Qed.

Lemma elsewhere_branch (self : Repository.t) (branch_name : str) :
  Py.startswith branch_name [Path.SEP] = false ->
  elsewhere self (Repository.branch_path self branch_name).
Proof.
  intros H. exists REFS_DIR, (HEADS_DIR :: Path.parts branch_name).
  split; [now apply branch_path_relative | discriminate].
Qed.

Lemma elsewhere_index (self : Repository.t) :
  elsewhere self (Index.index_path (Repository.index self)).
Proof.
  exists INDEX_FILE, []. split; [apply index_path_eq | discriminate].
Qed.

Lemma elsewhere_config (self : Repository.t) :
  elsewhere self (Repository.pygit_path self </> CONFIG_FILE).
Proof.
  exists CONFIG_FILE, []. split; [|discriminate].
  rewrite pygit_path_eq, div_literal by reflexivity.
  now rewrite <- app_assoc.
Qed.

Lemma store_object_keeps_elsewhere (self : Repository.t) (content : bytes)
    (obj_type : str) (fs fs1 : gmap Path.t node) (h : str) (r : Path.t) :
  ObjectStore.store_object (Repository.object_store self) content obj_type fs
  = (Ok h, fs1) ->
  elsewhere self r ->
  Fs.stat fs1 r = Fs.stat fs r.
Proof.
  intros Hstore (x & rest & -> & Hx).
  now apply (store_object_elsewhere self content obj_type fs fs1 h).
Qed.

Lemma elsewhere_not_object (self : Repository.t) (r : Path.t) (msg : bytes) :
  elsewhere self r ->
  r <> ObjectStore._get_object_path (Repository.object_store self)
         (Sha1.hexdigest msg).
Proof.
  intros (x & rest & -> & Hx) E.
  apply (elsewhere_not_prefix self (Sha1.hexdigest msg) x rest).
  - apply hexdigest_is_hex.
  - rewrite hexdigest_length. lia.
  - assumption.
  - now rewrite E.
Qed.

Lemma elsewhere_head_not_index (self : Repository.t) :
  Repository.head_path self <> Index.index_path (Repository.index self).
Proof.
  rewrite head_path_eq, index_path_eq. apply app_ne. discriminate.
Qed.

Lemma branch_not_index (self : Repository.t) (branch_name : str) :
  Py.startswith branch_name [Path.SEP] = false ->
  Repository.branch_path self branch_name
  <> Index.index_path (Repository.index self).
Proof.
  intros H. rewrite branch_path_relative, index_path_eq by assumption.
  apply app_ne. discriminate.
Qed.

Lemma elsewhere_not_pygit (self : Repository.t) (r : Path.t) :
  elsewhere self r -> r <> Repository.pygit_path self.
Proof.
  intros (x & rest & -> & _). rewrite pygit_path_eq.
  apply app_ne. discriminate.
Qed.

(** The run of a [commit] that returned: the two objects it stored, the
    file it wrote the new hash to, and what [HEAD] says afterwards. *)
Lemma commit_run (json_load : str -> outcome json) (now : Q)
    (self : Repository.t) (entries : Index.entries_t) (message out : str)
    (fs fs' : gmap Path.t node) (current_branch : str) :
  Repository.commit json_load now self entries message fs = (Ok out, fs') ->
  fst (Repository._get_current_branch self fs) = Ok current_branch ->
  Py.startswith current_branch [Path.SEP] = false ->
  exists parent config author content fs1 fs2 target,
    let tree_hash :=
      Sha1.hexdigest
        (encoded (lit "tree") (Codec.encode (Repository.tree_content entries))) in
    let h := Sha1.hexdigest (encoded (lit "commit") content) in
    fst (Repository.is_repository self fs) = Ok true
    /\ ObjectStore.store_object (Repository.object_store self)
         (Codec.encode (Repository.tree_content entries)) (lit "tree") fs
       = (Ok tree_hash, fs1)
    /\ fst (Repository._get_head_commit self fs) = Ok parent
    /\ fst (Repository._load_config json_load self fs) = Ok config
    /\ Repository.author_of config = Ok author
    /\ Repository._serialize_commit
         (commit_record tree_hash parent author now message) = Ok content
    /\ ObjectStore.store_object (Repository.object_store self) content
         (lit "commit") fs1 = (Ok h, fs2)
    /\ elsewhere self target
    /\ (target = Repository.head_path self
        \/ target = Repository.branch_path self current_branch)
    /\ fs' = <[target := File (Codec.encode (h ++ [LF]))]> fs2
    /\ fst (Repository._get_head_commit self fs') = Ok (Some h)
    /\ fst (Repository._get_current_branch self fs') = Ok current_branch
    /\ out = lit "[" ++ current_branch ++ [SP] ++ Py.slice_to 7 h ++ lit "] "
             ++ message.
Proof.
  intros Hcommit Hb Hrel.
  assert (Hrepo : fst (Repository.is_repository self fs) = Ok true).
  { revert Hcommit. unfold Repository.commit, bind.
    destruct (Repository.is_repository self fs) as [[[|]|e] fs0];
      try discriminate. reflexivity. }
  apply commit_inv in Hcommit
    as (tree_hash & parent & config & author & content & h & fs1 & fs2
        & current & Htree & Hparent & Hconfig & Hauthor & Hcontent & Hstore
        & Hup & Hcur & ->).
  unfold Repository._create_tree in Htree.
  pose proof (store_object_inv _ _ _ _ _ _ Htree) as (Eth & _).
  pose proof (store_object_inv _ _ _ _ _ _ Hstore) as (Eh & _).
  cbv zeta in Eth, Eh.
  (* what the two stores left alone *)
  assert (F1 : forall r, elsewhere self r -> Fs.stat fs1 r = Fs.stat fs r)
    by (intros r; apply (store_object_keeps_elsewhere _ _ _ _ _ _ _ Htree)).
  assert (F2 : forall r, elsewhere self r -> Fs.stat fs2 r = Fs.stat fs r).
  { intros r Hr.
    rewrite (store_object_keeps_elsewhere _ _ _ _ _ _ _ Hstore Hr). auto. }
  assert (B1 : forall b,
             fst (Repository._get_current_branch self fs) = Ok b ->
             Fs.stat fs1 (Repository.branch_path self b)
             = Fs.stat fs (Repository.branch_path self b)).
  { intros b Hb'. rewrite Hb in Hb'. injection Hb' as <-.
    apply F1. now apply elsewhere_branch. }
  (* the parent and the configuration are those of the start *)
  rewrite (head_commit_agree self fs fs1 (F1 _ (elsewhere_head self)) B1)
    in Hparent.
  rewrite (load_config_agree json_load self fs fs1
             (F1 _ (elsewhere_config self))) in Hconfig.
  (* [HEAD] before the update *)
  assert (Hcur2 : fst (Repository._get_current_branch self fs2)
                  = Ok current_branch).
  { now rewrite (current_branch_agree self fs fs2 (F2 _ (elsewhere_head self))). }
  apply update_head_inv in Hup as (text & target & Hread & Htarget & Hne & ->).
  assert (Hcur2' :
    (if Py.startswith (Py.strip text) (lit "ref: refs/heads/")
     then Py.slice_from 16 (Py.strip text) else lit "HEAD") = current_branch).
  { pose proof (current_branch_read self fs2 text Hread) as Hcr.
    apply (f_equal fst) in Hcr. rewrite Hcur2 in Hcr.
    change (Ok current_branch
            = Ok (if Py.startswith (Py.strip text) (lit "ref: refs/heads/")
                  then Py.slice_from 16 (Py.strip text) else lit "HEAD"))
      in Hcr.
    congruence. }
  clear Hcur2. rename Hcur2' into Hcur2.
  assert (Hhex : forallb is_hex h = true)
    by (rewrite Eh; apply hexdigest_is_hex).
  pose proof (head_commit_after_write self fs2 text h target Hread Htarget
                Hne Hhex) as Hhead'.
  assert (Htarget' : target = Repository.head_path self
                     \/ target = Repository.branch_path self current_branch).
  { destruct (Py.startswith (Py.strip text) (lit "ref: refs/heads/"));
      [right | left]; congruence. }
  assert (Helse : elsewhere self target).
  { destruct Htarget' as [-> | ->];
      [apply elsewhere_head | now apply elsewhere_branch]. }
  assert (Hcur' : fst (Repository._get_current_branch self
                         (<[target := File (Codec.encode (h ++ [LF]))]> fs2))
                  = Ok current_branch).
  { destruct (Py.startswith (Py.strip text) (lit "ref: refs/heads/")) eqn:Hsym.
    - rewrite (current_branch_agree self fs2).
      + now rewrite (current_branch_read self fs2 text Hread), Hsym, Hcur2.
      + apply stat_insert_ne. rewrite Htarget, Hcur2.
        now apply branch_path_not_head.
    - subst target.
      rewrite (proj2 (head_detached self _ h
                        (stat_insert_eq fs2 _ _ Hne) Hhex)).
      now rewrite <- Hcur2. }
  rewrite Hcur' in Hcur. injection Hcur as <-.
  exists parent, config, author, content, fs1, fs2, target. cbv zeta.
  rewrite <- Eth, <- Eh.
  repeat split; assumption.
Qed.

(** X16.  After a successful [commit] on a plain branch, [HEAD] resolves
    to the hash of the new commit and the current branch is the same as
    before; the object of that hash is the commit record, which names the
    tree of the staged entries and, as its parent, the commit [HEAD]
    resolved to before; the tree object is in the store (unless the two
    records collide under SHA-1); the message returned shows the branch
    and the first seven digits of the hash; the index file is as it was,
    so that what was staged stays staged. *)
Theorem commit_advances_head (json_load : str -> outcome json) (now : Q)
    (self : Repository.t) (entries : Index.entries_t) (message out : str)
    (fs fs' : gmap Path.t node) (current_branch : str) :
  Repository.commit json_load now self entries message fs = (Ok out, fs') ->
  fst (Repository._get_current_branch self fs) = Ok current_branch ->
  plain_name current_branch = true ->
  exists parent config author content,
    let tree_hash :=
      Sha1.hexdigest
        (encoded (lit "tree") (Codec.encode (Repository.tree_content entries))) in
    let h := Sha1.hexdigest (encoded (lit "commit") content) in
    fst (Repository._get_head_commit self fs) = Ok parent
    /\ fst (Repository._load_config json_load self fs) = Ok config
    /\ Repository.author_of config = Ok author
    /\ Repository._serialize_commit
         (commit_record tree_hash parent author now message) = Ok content
    /\ out = lit "[" ++ current_branch ++ [SP] ++ Py.slice_to 7 h ++ lit "] "
             ++ message
    /\ fst (Repository._get_head_commit self fs') = Ok (Some h)
    /\ fst (Repository._get_current_branch self fs') = Ok current_branch
    /\ fst (ObjectStore.get_object (Repository.object_store self) h fs')
       = Ok (lit "commit", content)
    /\ (tree_hash <> h ->
        fst (ObjectStore.get_object (Repository.object_store self) tree_hash
               fs')
        = Ok (lit "tree", Codec.encode (Repository.tree_content entries)))
    /\ Fs.stat fs' (Index.index_path (Repository.index self))
       = Fs.stat fs (Index.index_path (Repository.index self)).
Proof.
  intros Hcommit Hb Hplain.
  apply andb_prop in Hplain as [Hrel _]. apply negb_true_iff in Hrel.
  destruct (commit_run _ _ _ _ _ _ _ _ _ Hcommit Hb Hrel)
    as (parent & config & author & content & fs1 & fs2 & target & Hrun).
  cbv zeta in Hrun.
  destruct Hrun as (_ & Htree & Hparent & Hconfig & Hauthor & Hcontent
                    & Hstore & Helse & Htarget & -> & Hhead & Hcur & ->).
  exists parent, config, author, content. cbv zeta.
  set (tree_hash := Sha1.hexdigest (encoded (lit "tree") _)) in *.
  set (h := Sha1.hexdigest (encoded (lit "commit") content)) in *.
  repeat split; try assumption.
  - (* the commit object *)
    transitivity (fst (ObjectStore.get_object (Repository.object_store self)
                         h fs2)).
    + apply get_object_stat. apply stat_insert_ne.
      now apply elsewhere_not_object.
    + now rewrite (get_object_after_store_word _ content (lit "commit")
                     fs1 fs2 h eq_refl Hstore).
  - (* the tree object *)
    intros Hdiff.
    transitivity (fst (ObjectStore.get_object (Repository.object_store self)
                         tree_hash fs1)).
    + apply get_object_stat. rewrite stat_insert_ne.
      * apply (store_object_frame _ _ _ _ _ _ _ Hstore).
        apply object_path_other; try assumption.
        -- apply hexdigest_is_hex.
        -- unfold h. rewrite hexdigest_length. lia.
        -- apply hexdigest_is_hex.
        -- unfold tree_hash. rewrite hexdigest_length. lia.
      * now apply elsewhere_not_object.
    + now rewrite (get_object_after_store_word _ _ (lit "tree")
                     fs fs1 tree_hash eq_refl Htree).
  - (* the index file *)
    rewrite stat_insert_ne.
    + rewrite (store_object_keeps_elsewhere _ _ _ _ _ _ _ Hstore
                 (elsewhere_index self)).
      apply (store_object_keeps_elsewhere _ _ _ _ _ _ _ Htree
               (elsewhere_index self)).
    + intros E.
      destruct Htarget as [Ht | Ht]; rewrite E in Ht.
      * symmetry in Ht. now apply (elsewhere_head_not_index self).
      * symmetry in Ht. now apply (branch_not_index self current_branch).
Qed.

Lemma commit_advances_head_witness :
  fst example_committed = Ok (lit "[main 66e9f9b] first")
  /\ exists h,
       fst (Repository._get_head_commit example_repo (snd example_committed))
       = Ok (Some h)
       /\ fst (ObjectStore.get_object (Repository.object_store example_repo)
                 h (snd example_committed))
          = Ok (lit "commit",
                Codec.encode
                  (lit "tree e63e723167e45238aff87bfbfd25cad473dcd198" ++ [LF]
                   ++ lit "author PyGit User <user@pygit.local> 1700000000 +0000"
                   ++ [LF]
                   ++ lit "committer PyGit User <user@pygit.local> 1700000000 +0000"
                   ++ [LF; LF] ++ lit "first" ++ [LF]))
       /\ fst (Repository._get_current_branch example_repo
                 (snd example_committed)) = Ok (lit "main").
Proof.
  assert (H : fst example_committed = Ok (lit "[main 66e9f9b] first"))
    by (vm_compute; reflexivity).
  split; [exact H|].
  destruct (commit_advances_head example_json_load (inject_Z 1700000000)
              example_repo (snd (fst example_add)) (lit "first") _
              (snd example_add) (snd example_committed) (lit "main")
              (returned _ _ H))
    as (parent & config & author & content & Hparent & Hconfig & Hauthor
        & Hcontent & _ & Hhead & Hcur & Hobject & _).
  - vm_compute. reflexivity.
  - vm_compute. reflexivity.
  - exists (Sha1.hexdigest (encoded (lit "commit") content)).
    split; [exact Hhead|]. split; [|exact Hcur].
    rewrite Hobject. do 2 f_equal.
    vm_compute in Hparent. injection Hparent as <-.
    vm_compute in Hconfig. injection Hconfig as <-.
    vm_compute in Hauthor. injection Hauthor as <-.
    vm_compute in Hcontent. injection Hcontent as <-.
    vm_compute. reflexivity.
Defined.

(** ** The history after a commit *)

(** [mkdir] leaves what exists as it is. *)
Lemma mkdir_parents_keeps (fuel : nat) (fs fs' : gmap Path.t node)
    (p r : Path.t) (n : node) :
  Fs.mkdir_parents fuel fs p = Ok fs' ->
  Fs.stat fs r = Some n -> Fs.stat fs' r = Some n.
Proof.
  assert (Hos : forall fs fs' p, Fs.os_mkdir fs p = Ok fs' ->
            Fs.stat fs r = Some n -> Fs.stat fs' r = Some n).
  { clear. intros fs fs' p H Hr. unfold Fs.os_mkdir in H.
    destruct (Fs.stat fs p) eqn:Hp; [discriminate|].
    destruct (Fs.stat fs (Path.parent p)) as [[|]|]; try discriminate.
    injection H as <-. rewrite stat_insert_ne; [assumption|]. congruence. }
  revert fs fs' p. induction fuel as [|fuel IH]; intros fs fs' p H Hr.
  - simpl in H.
    destruct (Fs.os_mkdir fs p) as [fs0|e] eqn:E.
    + injection H as <-. eauto.
    + destruct e; try discriminate;
        destruct (Fs.is_dir fs p); try discriminate;
        now injection H as <-.
  - simpl in H.
    destruct (Fs.os_mkdir fs p) as [fs0|e] eqn:E.
    + injection H as <-. eauto.
    + destruct e;
        try (destruct (Fs.is_dir fs p); try discriminate;
             now injection H as <-).
      destruct (Fs.mkdir_parents fuel fs (Path.parent p)) as [fs1|e] eqn:E1;
        [|discriminate].
      simpl in H. specialize (IH _ _ _ E1 Hr).
      destruct (Fs.os_mkdir fs1 p) as [fs2|e] eqn:E2.
      * injection H as <-. eauto.
      * destruct e; try discriminate;
          destruct (Fs.is_dir fs1 p); try discriminate;
          now injection H as <-.
Qed.

(** [store_object] leaves the directories that exist as they are. *)
Lemma store_object_keeps_dir (self : ObjectStore.t) (content : bytes)
    (obj_type : str) (fs fs1 : gmap Path.t node) (h : str) (r : Path.t) :
  ObjectStore.store_object self content obj_type fs = (Ok h, fs1) ->
  Fs.stat fs r = Some Dir -> Fs.stat fs1 r = Some Dir.
Proof.
  intros Hstore Hr.
  apply store_object_inv in Hstore as (-> & fs0 & Hmk & Hwr).
  pose proof (mkdir_parents_keeps _ _ _ _ _ _ Hmk Hr) as Hr0.
  unfold Fs.write_bytes in Hwr.
  destruct (decide (r = ObjectStore._get_object_path self
                           (Sha1.hexdigest (encoded obj_type content))))
    as [->|Hne].
  - rewrite Hr0 in Hwr. discriminate.
  - apply write_bytes_inv in Hwr as (_ & -> & _).
    rewrite stat_insert_ne; [assumption | congruence].
Qed.

Lemma hex_no_newline (h : str) :
  forallb is_hex h = true -> no_newline h = true.
Proof.
  intros H. apply no_space_without; [reflexivity | now apply hex_no_space].
Qed.

(** [_load_commit] on an object that holds a commit as [_serialize_commit]
    writes it. *)
Lemma load_commit_of_object (self : Repository.t) (fs : gmap Path.t node)
    (h tree author committer message : str) (parent : option str)
    (seconds : Z) :
  fst (ObjectStore.get_object (Repository.object_store self) h fs)
  = Ok (lit "commit",
        Codec.encode
          (unlines (header_lines tree parent author committer seconds)
           ++ message ++ [LF])) ->
  no_newline tree = true ->
  parent_ok parent = true ->
  no_newline author = true ->
  no_newline committer = true ->
  Py.strip message = message ->
  fst (Repository._load_commit self h fs)
  = Ok {| CommitObject.tree := Some tree; CommitObject.parent := parent;
          CommitObject.author := Some author;
          CommitObject.committer := Some committer;
          CommitObject.timestamp := Some (Builtins.float_of_int seconds);
          CommitObject.message := message;
          CommitObject.hash := Some h |}.
Proof.
  intros Hobj Ht Hp Ha Hc Hm.
  apply (read_result _ _ _ (get_object_reads _ h)) in Hobj.
  unfold Repository._load_commit, bind. rewrite Hobj.
  change (negb (bool_decide (lit "commit" = lit "commit"))) with false.
  cbv iota. unfold lift, ret. rewrite decode_encode.
  rewrite split_unlines by now apply header_lines_no_newline.
  rewrite parse_commit by assumption.
  cbn [Repository.p_tree Repository.p_parent Repository.p_author
       Repository.p_committer Repository.p_timestamp
       Repository.p_message_lines fst].
  now rewrite join_split, strip_line.
Qed.

(** [_load_commit] depends only on the file with the name of the
    object. *)
Lemma load_commit_agree (self : Repository.t) (h : str)
    (fs fs1 : gmap Path.t node) :
  Fs.stat fs1 (ObjectStore._get_object_path (Repository.object_store self) h)
  = Fs.stat fs (ObjectStore._get_object_path (Repository.object_store self) h) ->
  fst (Repository._load_commit self h fs1)
  = fst (Repository._load_commit self h fs).
Proof.
  intros E. apply get_object_stat in E.
  pose proof (get_object_reads (Repository.object_store self) h fs) as R.
  pose proof (get_object_reads (Repository.object_store self) h fs1) as R1.
  unfold Repository._load_commit, bind.
  destruct (ObjectStore.get_object _ h fs) as [r fs0].
  destruct (ObjectStore.get_object _ h fs1) as [r1 fs10].
  simpl in *. subst. destruct r as [[obj_type content]|e]; [|reflexivity].
  destruct (negb _); [reflexivity|].
  unfold lift, ret. destruct (Codec.decode content); [|reflexivity].
  destruct (Repository.parse_lines _ _); reflexivity.
Qed.

(** A history stays one as long as the files of its commits stay. *)
Lemma history_agree (self : Repository.t) (fs fs1 : gmap Path.t node)
    (commit_hash : option str) (commits : list (str * CommitObject.t)) :
  history self fs commit_hash commits ->
  (forall hc, In hc commits ->
     Fs.stat fs1 (ObjectStore._get_object_path (Repository.object_store self)
                    (fst hc))
     = Fs.stat fs (ObjectStore._get_object_path (Repository.object_store self)
                     (fst hc))) ->
  history self fs1 commit_hash commits.
Proof.
  induction 1 as [commit_hash Hfalse | h commit rest Hne Hload Hrest IH];
    intros Hstat.
  - now constructor.
  - constructor; [assumption | |].
    + rewrite (load_commit_agree self h fs fs1); [assumption|].
      apply (Hstat (h, commit)). now left.
    + apply IH. intros hc Hin. apply Hstat. now right.
Qed.

Lemma elsewhere_not_object_hex (self : Repository.t) (r : Path.t) (h : str) :
  elsewhere self r ->
  forallb is_hex h = true -> 2 < length h ->
  r <> ObjectStore._get_object_path (Repository.object_store self) h.
Proof.
  intros (x & rest & -> & Hx) Hhex Hlen E.
  apply (elsewhere_not_prefix self h x rest); try assumption.
  now rewrite E.
Qed.

(** X17.  A commit puts one commit on top of the history: with a
    stripped message, an author without line end and a history of
    commits with hexadecimal names, none of which has the hash of the new
    tree or of the new commit, the history from [HEAD] after the commit is
    the new commit followed by the history from [HEAD] before it, and
    [log] shows the entry of the new commit followed by the entries of
    the old ones. *)
Theorem commit_extends_history (local_date : Q -> outcome str)
    (json_load : str -> outcome json) (now : Q)
    (self : Repository.t) (entries : Index.entries_t) (message out : str)
    (fs fs' : gmap Path.t node) (current_branch author : str)
    (parent : option str) (config : json)
    (commits : list (str * CommitObject.t)) :
  Repository.commit json_load now self entries message fs = (Ok out, fs') ->
  fst (Repository._get_current_branch self fs) = Ok current_branch ->
  plain_name current_branch = true ->
  Py.strip message = message ->
  fst (Repository._load_config json_load self fs) = Ok config ->
  Repository.author_of config = Ok author ->
  no_newline author = true ->
  fst (Repository._get_head_commit self fs) = Ok parent ->
  history self fs parent commits ->
  Forall (fun hc => forallb is_hex (fst hc) = true /\ 2 < length (fst hc))
    commits ->
  let tree_hash :=
    Sha1.hexdigest
      (encoded (lit "tree") (Codec.encode (Repository.tree_content entries))) in
  ~ In tree_hash (map fst commits) ->
  (forall h, fst (Repository._get_head_commit self fs') = Ok (Some h) ->
     ~ In h (map fst commits)) ->
  exists h,
    let new := loaded_record tree_hash parent author now message h in
    fst (Repository._get_head_commit self fs') = Ok (Some h)
    /\ history self fs' (Some h) ((h, new) :: commits)
    /\ forall limit entry older,
         Repository.log_entry local_date h new = Ok entry ->
         Forall2 (fun hc e =>
                    Repository.log_entry local_date (fst hc) (snd hc) = Ok e)
           commits older ->
         fst (Repository.log local_date self limit fs')
         = Ok (Py.join [LF] (take (Z.to_nat limit) (entry :: older))).
Proof.
  intros Hcommit Hb Hplain Hmsg Hconfig Hauthor Hnl Hparent Hhist Hhex
    tree_hash Htree_new Hhead_new.
  apply andb_prop in Hplain as [Hrel _]. apply negb_true_iff in Hrel.
  destruct (commit_run _ _ _ _ _ _ _ _ _ Hcommit Hb Hrel)
    as (parent' & config' & author' & content & fs1 & fs2 & target & Hrun).
  cbv zeta in Hrun. fold tree_hash in Hrun.
  destruct Hrun as (Hrepo & Htree & Hparent' & Hconfig' & Hauthor' & Hcontent
                    & Hstore & Helse & _ & -> & Hhead & _ & _).
  rewrite Hparent in Hparent'. injection Hparent' as <-.
  rewrite Hconfig in Hconfig'. injection Hconfig' as <-.
  rewrite Hauthor in Hauthor'. injection Hauthor' as <-.
  set (h := Sha1.hexdigest (encoded (lit "commit") content)) in *.
  set (fs' := <[target := File (Codec.encode (h ++ [LF]))]> fs2) in *.
  assert (Hh : forallb is_hex h = true /\ 2 < length h).
  { split; [apply hexdigest_is_hex|]. unfold h. rewrite hexdigest_length. lia. }
  assert (Ht : forallb is_hex tree_hash = true /\ 2 < length tree_hash).
  { split; [apply hexdigest_is_hex|].
    unfold tree_hash. rewrite hexdigest_length. lia. }
  (* the old commits are where they were *)
  assert (Hold : forall hc, In hc commits ->
            Fs.stat fs' (ObjectStore._get_object_path
                           (Repository.object_store self) (fst hc))
            = Fs.stat fs (ObjectStore._get_object_path
                            (Repository.object_store self) (fst hc))).
  { intros hc Hin.
    rewrite List.Forall_forall in Hhex. destruct (Hhex hc Hin) as [Hx Hl].
    assert (Hin' : In (fst hc) (map fst commits)) by now apply in_map.
    unfold fs'. rewrite stat_insert_ne
      by now apply elsewhere_not_object_hex.
    rewrite (store_object_frame _ _ _ _ _ _ _ Hstore).
    - apply (store_object_frame _ _ _ _ _ _ _ Htree).
      apply object_path_other; try tauto. congruence.
    - apply object_path_other; try tauto.
      intros E. apply (Hhead_new h Hhead). now rewrite <- E. }
  pose proof (history_agree self fs fs' parent commits Hhist Hold) as Hhist'.
  (* the new commit loads *)
  assert (Hload : fst (Repository._load_commit self h fs')
                  = Ok (loaded_record tree_hash parent author now message h)).
  { unfold commit_record in Hcontent.
    rewrite serialize_commit_text in Hcontent.
    assert (Ec : content
                 = Codec.encode
                     (unlines (header_lines tree_hash parent author author
                                 (Builtins.int_of_float now))
                      ++ message ++ [LF])) by congruence.
    clear Hcontent. rename Ec into Hcontent.
    assert (Hlines : header_lines tree_hash parent author author
                       (Builtins.int_of_float now)
                     = header_lines tree_hash
                         (if Builtins.truthy parent then parent else None)
                         author author (Builtins.int_of_float now)).
    { now destruct parent as [[|c p]|]. }
    rewrite Hlines in Hcontent.
    apply load_commit_of_object; try assumption.
    - transitivity (fst (ObjectStore.get_object
                           (Repository.object_store self) h fs2)).
      + apply get_object_stat. apply stat_insert_ne.
        now apply elsewhere_not_object.
      + rewrite (get_object_after_store_word _ content (lit "commit")
                   fs1 fs2 h eq_refl Hstore).
        now rewrite Hcontent.
    - apply hex_no_newline. tauto.
    - destruct parent as [[|c p]|]; try reflexivity.
      cbn [Builtins.truthy parent_ok].
      inversion Hhist as [? Hfalse | ? commit rest Hne Hl Hr]; subst;
        [discriminate Hfalse|].
      apply List.Forall_cons_iff in Hhex as [[Hx _] _].
      now apply hex_no_newline. }
  assert (Hne : h <> []).
  { intros E. destruct Hh as [_ Hl]. rewrite E in Hl. simpl in Hl. lia. }
  assert (Hhist_new : history self fs' (Some h)
            ((h, loaded_record tree_hash parent author now message h)
             :: commits)).
  { constructor; [assumption | assumption |].
    cbn [loaded_record CommitObject.parent].
    destruct (Builtins.truthy parent) eqn:Htruthy; [assumption|].
    inversion Hhist' as [? Hfalse | ? commit rest Hne' Hl Hr]; subst.
    - now constructor.
    - destruct commit_hash; [congruence | discriminate Htruthy]. }
  exists h. cbv zeta. split; [assumption|]. split; [assumption|].
  (* the log *)
  intros limit entry older Hentry Holder.
  assert (Hdir : Fs.stat fs' (Repository.pygit_path self) = Some Dir).
  { unfold fs'. rewrite stat_insert_ne by now apply elsewhere_not_pygit.
    apply (store_object_keeps_dir _ _ _ _ _ _ _ Hstore).
    apply (store_object_keeps_dir _ _ _ _ _ _ _ Htree).
    now apply is_repository_dir. }
  unfold Repository.log. unfold bind at 1.
  rewrite (read_result (Repository.is_repository self) fs' (Ok true)
             (read_only_inspect _)) by now apply is_repository_dir.
  cbv beta iota delta [negb]. unfold bind at 1.
  rewrite (read_result _ _ _ (get_head_commit_reads self) Hhead).
  destruct h as [|c h'] eqn:Eh; [congruence|].
  cbn [Builtins.truthy negb]. unfold bind at 1.
  rewrite (log_loop_history local_date self fs' _ _ Hhist_new
             (entry :: older) (Z.to_nat limit) []).
  - reflexivity.
  - constructor; assumption.
Qed.

Lemma commit_extends_history_witness :
  exists out h,
    fst example_recommitted = Ok out
    /\ fst (Repository._get_head_commit example_repo (snd example_recommitted))
       = Ok (Some h)
    /\ history example_repo (snd example_recommitted) (Some h)
         [(h, loaded_record example_tree_hash (Some example_first_hash)
                (lit "PyGit User <user@pygit.local>") (inject_Z 1700000060)
                (lit "second") h);
          (example_first_hash, example_first)].
Proof.
  destruct (fst example_recommitted) as [out|e] eqn:Hout;
    [|vm_compute in Hout; discriminate Hout].
  exists out.
  assert (Hhead2 : exists h2,
            fst (Repository._get_head_commit example_repo
                   (snd example_recommitted)) = Ok (Some h2)
            /\ h2 <> example_first_hash).
  { destruct (fst (Repository._get_head_commit example_repo
                     (snd example_recommitted))) as [[h2|]|e] eqn:E;
      try (vm_compute in E; discriminate E).
    exists h2. split; [reflexivity|].
    vm_compute in E. injection E as <-. vm_compute. discriminate. }
  destruct Hhead2 as (h2 & Hhead2 & Hdiff).
  destruct (commit_extends_history example_date example_json_load
              (inject_Z 1700000060) example_repo (snd (fst example_add))
              (lit "second") out (snd example_committed)
              (snd example_recommitted) (lit "main")
              (lit "PyGit User <user@pygit.local>")
              (Some example_first_hash) Repository.default_config
              [(example_first_hash, example_first)])
    as (h & Hhead & Hhist & _).
  - apply returned. exact Hout.
  - vm_compute. reflexivity.
  - vm_compute. reflexivity.
  - vm_compute. reflexivity.
  - vm_compute. reflexivity.
  - vm_compute. reflexivity.
  - vm_compute. reflexivity.
  - vm_compute. reflexivity.
  - constructor.
    + vm_compute. discriminate.
    + vm_compute. reflexivity.
    + constructor. vm_compute. reflexivity.
  - constructor; [|constructor]. split.
    + vm_compute. reflexivity.
    + vm_compute. lia.
  - vm_compute. intros [E | []]. discriminate E.
  - intros h Hh. rewrite Hhead2 in Hh. injection Hh as <-.
    intros [E | []]. cbn [fst] in E. congruence.
  - exists h. split; [reflexivity|]. split; [exact Hhead | exact Hhist].
Defined.

(** ** Edges of [commit] and [log] *)

(** X18.  [commit] needs the file [HEAD]: where it is missing
    [_get_current_branch] still answers [main] and [_get_head_commit]
    [None], but no commit succeeds, because [_update_head] opens [HEAD]
    for reading. *)
Theorem commit_needs_head (json_load : str -> outcome json) (now : Q)
    (self : Repository.t) (entries : Index.entries_t)
    (message commit_hash : str) (fs : gmap Path.t node) :
  Fs.stat fs (Repository.head_path self) = None ->
  fst (Repository._get_current_branch self fs) = Ok (lit "main")
  /\ fst (Repository._get_head_commit self fs) = Ok None
  /\ Repository._update_head self commit_hash fs
     = (Raise FileNotFoundError, fs)
  /\ forall out,
       fst (Repository.commit json_load now self entries message fs) <> Ok out.
Proof.
  intros Hhead.
  assert (Hex : Fs.exists_ fs (Repository.head_path self) = false)
    by (unfold Fs.exists_; now rewrite Hhead).
  split; [|split; [|split]].
  - unfold Repository._get_current_branch, bind, inspect.
    fold (Repository.head_path self). now rewrite Hex.
  - unfold Repository._get_head_commit, bind, inspect.
    fold (Repository.head_path self). now rewrite Hex.
  - unfold Repository._update_head, bind, inspect.
    fold (Repository.head_path self).
    unfold Fs.read_text, Fs.read_bytes. now rewrite Hhead.
  - intros out Hout.
    destruct (Repository.commit json_load now self entries message fs)
      as [r fs'] eqn:Hcommit.
    simpl in Hout. subst r.
    apply commit_inv in Hcommit
      as (tree_hash & parent & config & author & content & h & fs1 & fs2
          & current & Htree & _ & _ & _ & _ & Hstore & Hup & _).
    apply update_head_inv in Hup as (text & target & Hread & _).
    apply read_text_exists in Hread as [data Hstat].
    unfold Repository._create_tree in Htree.
    rewrite (store_object_keeps_elsewhere _ _ _ _ _ _ _ Hstore
               (elsewhere_head self)) in Hstat.
    rewrite (store_object_keeps_elsewhere _ _ _ _ _ _ _ Htree
               (elsewhere_head self)) in Hstat.
    congruence.
Qed.

Lemma commit_needs_head_witness :
  fst (Repository._get_current_branch example_repo example_headless_repo)
  = Ok (lit "main")
  /\ fst (Repository.commit example_json_load (inject_Z 1700000000)
            example_repo (snd (fst example_add)) (lit "first")
            example_headless_repo)
     = Raise FileNotFoundError.
Proof.
  destruct (commit_needs_head example_json_load (inject_Z 1700000000)
              example_repo (snd (fst example_add)) (lit "first") []
              example_headless_repo) as (Hcur & _ & _ & _).
  - unfold example_headless_repo. rewrite stat_nonempty by discriminate.
    apply lookup_delete_eq.
  - split; [exact Hcur|]. vm_compute. reflexivity.
Defined.

(** X19.  With a limit of zero or less [log] lists nothing: in a
    repository with commits it returns the empty string, not
    [No commits yet]. *)
Theorem log_without_room (local_date : Q -> outcome str)
    (self : Repository.t) (fs : gmap Path.t node) (limit : Z) (head : str) :
  fst (Repository.is_repository self fs) = Ok true ->
  fst (Repository._get_head_commit self fs) = Ok (Some head) ->
  head <> [] ->
  (limit <= 0)%Z ->
  Repository.log local_date self limit fs = (Ok [], fs).
Proof.
  intros Hrepo Hhead Hne Hlimit.
  unfold Repository.log. unfold bind at 1.
  rewrite (read_result (Repository.is_repository self) fs _
             (read_only_inspect _) Hrepo).
  cbv beta iota delta [negb]. unfold bind at 1.
  rewrite (read_result _ _ _ (get_head_commit_reads self) Hhead).
  destruct head as [|c h]; [congruence|].
  cbn [Builtins.truthy negb].
  replace (Z.to_nat limit) with 0 by lia.
  reflexivity.
Qed.

Lemma log_without_room_witness :
  Repository.log example_date example_repo 0 example_two_commits
  = (Ok [], example_two_commits).
Proof.
  apply (log_without_room example_date example_repo example_two_commits 0
           example_second_hash).
  - vm_compute. reflexivity.
  - vm_compute. reflexivity.
  - vm_compute. discriminate.
  - lia.
Defined.

(** ** [add] *)

Lemma working_path_div (self : Repository.t) (file_path : str) :
  working_path file_path = true ->
  exists c rest,
    Repository.path self </> file_path = Repository.path self ++ c :: rest
    /\ c <> PYGIT_DIR.
Proof.
  unfold working_path. intros H.
  apply andb_prop in H as [H Hc]. apply andb_prop in H as [Hrel _].
  apply negb_true_iff in Hrel. unfold Path.div. rewrite Hrel.
  destruct (Path.parts file_path) as [|c rest]; [discriminate|].
  exists c, rest. split; [reflexivity|].
  apply negb_true_iff in Hc. now apply bool_decide_eq_false_1 in Hc.
Qed.

Lemma working_not_prefix (self : Repository.t) (c : str) (rest tail : Path.t) :
  c <> PYGIT_DIR ->
  ~ (Repository.path self ++ c :: rest)
    `prefix_of` (Repository.path self ++ PYGIT_DIR :: tail).
Proof.
  intros Hc Hp. apply prefix_app_inv in Hp.
  apply prefix_cons_inv_1 in Hp. contradiction.
Qed.

Lemma store_object_keeps_working (self : Repository.t) (content : bytes)
    (obj_type : str) (fs fs1 : gmap Path.t node) (h c : str) (rest : Path.t) :
  ObjectStore.store_object (Repository.object_store self) content obj_type fs
  = (Ok h, fs1) ->
  c <> PYGIT_DIR ->
  Fs.stat fs1 (Repository.path self ++ c :: rest)
  = Fs.stat fs (Repository.path self ++ c :: rest).
Proof.
  intros Hstore Hc.
  apply (store_object_frame _ _ _ _ _ _ _ Hstore).
  pose proof (store_object_inv _ _ _ _ _ _ Hstore) as (-> & _).
  rewrite object_path_of_digest, objects_path_eq, <- app_assoc.
  now apply working_not_prefix.
Qed.

Lemma save_keeps_working (json_dumps : json -> str) (self : Repository.t)
    (entries : Index.entries_t) (fs fs' : gmap Path.t node) (c : str)
    (rest : Path.t) :
  Index.save json_dumps (Repository.index self) entries fs = (Ok tt, fs') ->
  c <> PYGIT_DIR ->
  Fs.stat fs' (Repository.path self ++ c :: rest)
  = Fs.stat fs (Repository.path self ++ c :: rest).
Proof.
  intros Hsave Hc.
  apply save_inv in Hsave as (fs0 & Hmk & _ & ->).
  rewrite index_path_eq in *.
  rewrite stat_insert_ne.
  - apply (mkdir_parents_frame _ _ _ _ _ Hmk).
    intros Hp. apply (working_not_prefix self c rest [INDEX_FILE] Hc).
    etransitivity; [exact Hp | apply parent_prefix].
  - intros E. apply app_inv_head in E. injection E as E _. congruence.
Qed.

(** What a call of [_add_single_file] that returned did to the entries
    and to the working tree. *)
Lemma add_single_file_inv (json_dumps : json -> str) (self : Repository.t)
    (file_path : str) (stat : stat_result)
    (entries entries' : Index.entries_t) (fs fs' : gmap Path.t node) :
  Repository._add_single_file json_dumps self file_path stat entries fs
  = (Ok tt, entries', fs') ->
  (forall c rest, c <> PYGIT_DIR ->
     Fs.stat fs' (Repository.path self ++ c :: rest)
     = Fs.stat fs (Repository.path self ++ c :: rest))
  /\ (forall other, other <> file_path ->
        Builtins.dict_get entries' other = Builtins.dict_get entries other)
  /\ (forall content,
        Fs.stat fs (Repository.path self </> file_path) = Some (File content) ->
        exists entry,
          Builtins.dict_get entries' file_path = Some entry
          /\ FileEntry.path entry = file_path
          /\ FileEntry.hash entry
             = Sha1.hexdigest (encoded (lit "blob") content)).
Proof.
  unfold Repository._add_single_file.
  unfold Fs.exists_, Fs.is_dir, Fs.read_bytes.
  destruct (Fs.stat fs (Repository.path self </> file_path))
    as [[|content]|] eqn:Hfile; cbv beta iota zeta delta [negb];
    [| |discriminate].
  - intros H. injection H as <- <-. repeat split; auto. discriminate.
  - destruct (ObjectStore.store_object _ content (lit "blob") fs)
      as [[h|e] fs1] eqn:Hstore; [|discriminate].
    pose proof (store_object_inv _ _ _ _ _ _ Hstore) as (Hh & _).
    unfold Index.add_file.
    destruct (Fs.exists_ fs1 _); cbv beta iota zeta delta [negb];
      [|discriminate].
    destruct (Index.save _ _ _ fs1) as [r fs2] eqn:Hsave.
    intros H. injection H as -> <- <-.
    split; [|split].
    + intros c rest Hc.
      rewrite (save_keeps_working _ _ _ _ _ _ _ Hsave Hc).
      now apply (store_object_keeps_working _ _ _ _ _ _ _ _ Hstore).
    + intros other Hne. now apply dict_get_set_ne.
    + intros content' E. injection E as <-.
      eexists. split; [apply dict_get_set_eq|]. split; [reflexivity|].
      exact Hh.
Qed.

Lemma add_each_app (json_dumps : json -> str) (self : Repository.t)
    (stat_of : str -> stat_result) (paths more added_files : list str)
    (entries : Index.entries_t) (fs : gmap Path.t node) :
  Repository.add_each json_dumps self stat_of (paths ++ more) added_files
    entries fs
  = match Repository.add_each json_dumps self stat_of paths added_files
            entries fs with
    | (Ok added_files', entries', fs') =>
        Repository.add_each json_dumps self stat_of more added_files'
          entries' fs'
    | (Raise e, entries', fs') => (Raise e, entries', fs')
    end.
Proof.
  revert added_files entries fs.
  induction paths as [|p paths IH]; intros added_files entries fs;
    [reflexivity|].
  cbn [app Repository.add_each].
  destruct (Repository._add_single_file _ _ _ _ _ _) as [[[[]|e] entries1] fs1];
    [apply IH | reflexivity].
Qed.

(** The two loops of [add] make the calls of [calls], one after the
    other. *)
Lemma add_loop_calls (json_dumps : json -> str) (self : Repository.t)
    (stat_of : str -> stat_result) (walked file_paths added_files : list str)
    (entries : Index.entries_t) (fs : gmap Path.t node) :
  Repository.add_loop json_dumps self stat_of walked file_paths added_files
    entries fs
  = Repository.add_each json_dumps self stat_of (calls walked file_paths)
      added_files entries fs.
Proof.
  revert added_files entries fs.
  induction file_paths as [|p file_paths IH]; intros added_files entries fs;
    [reflexivity|].
  unfold calls. cbn [map concat Repository.add_loop]. fold (calls walked file_paths).
  rewrite add_each_app.
  destruct (bool_decide (p = lit ".")).
  - destruct (Repository.add_each _ _ _ walked _ _ _)
      as [[[added'|e] entries1] fs1]; [apply IH | reflexivity].
  - cbn [Repository.add_each].
    destruct (Repository._add_single_file _ _ _ _ _ _)
      as [[[[]|e] entries1] fs1]; [apply IH | reflexivity].
Qed.

(** The calls of [add], when all of them return. *)
Lemma add_each_inv (json_dumps : json -> str) (self : Repository.t)
    (stat_of : str -> stat_result) (paths : list str) :
  forall (added_files added_files' : list str)
    (entries entries' : Index.entries_t) (fs fs' : gmap Path.t node),
  Repository.add_each json_dumps self stat_of paths added_files entries fs
  = (Ok added_files', entries', fs') ->
  Forall (fun p => working_path p = true) paths ->
  added_files' = added_files ++ paths
  /\ (forall c rest, c <> PYGIT_DIR ->
        Fs.stat fs' (Repository.path self ++ c :: rest)
        = Fs.stat fs (Repository.path self ++ c :: rest))
  /\ (forall other, ~ In other paths ->
        Builtins.dict_get entries' other = Builtins.dict_get entries other)
  /\ (forall p content,
        In p paths ->
        Fs.stat fs (Repository.path self </> p) = Some (File content) ->
        exists entry,
          Builtins.dict_get entries' p = Some entry
          /\ FileEntry.path entry = p
          /\ FileEntry.hash entry
             = Sha1.hexdigest (encoded (lit "blob") content)).
Proof.
  induction paths as [|p0 paths IH];
    intros added_files added_files' entries entries' fs fs' Hrun Hwork.
  - injection Hrun as <- <- <-. rewrite app_nil_r.
    repeat split; auto. intros p content [].
  - cbn [Repository.add_each] in Hrun.
    destruct (Repository._add_single_file _ _ _ _ _ _)
      as [[[[]|e] entries1] fs1] eqn:Hone; [|discriminate].
    apply List.Forall_cons_iff in Hwork as [Hp0 Hwork].
    destruct (add_single_file_inv _ _ _ _ _ _ _ _ Hone)
      as (Hkeep1 & Hother1 & Hentry1).
    destruct (IH _ _ _ _ _ _ Hrun Hwork)
      as (Hadded & Hkeep & Hother & Hentry).
    split; [now rewrite Hadded, <- app_assoc|].
    split; [intros c rest Hc; now rewrite Hkeep, Hkeep1|].
    split.
    + intros other Hnot.
      rewrite Hother by (intros E; apply Hnot; now right).
      apply Hother1. intros E. apply Hnot. left. congruence.
    + intros p content Hin Hfile.
      assert (Hfile1 : Fs.stat fs1 (Repository.path self </> p)
                       = Some (File content)).
      { assert (Hp : working_path p = true).
        { destruct Hin as [<- | Hin]; [assumption|].
          rewrite List.Forall_forall in Hwork. auto. }
        destruct (working_path_div self p Hp) as (c & rest & E & Hc).
        rewrite E in *. now rewrite Hkeep1. }
      destruct (decide (p ∈ paths)) as [Hrest | Hrest];
        rewrite list_elem_of_In in Hrest.
      * now apply Hentry.
      * destruct Hin as [<- | Hin]; [|contradiction].
        rewrite (Hother _ Hrest). now apply Hentry1.
Qed.

(** X20.  [add] stages every regular file it is given, named or found
    by the walk, with the hash of the blob record of its bytes, and
    changes neither another entry nor the working tree; the number in its
    message counts all paths it went through, directories included. *)
Theorem add_stages_files (json_dumps : json -> str) (self : Repository.t)
    (stat_of : str -> stat_result) (walked file_paths : list str)
    (entries entries' : Index.entries_t) (fs fs' : gmap Path.t node)
    (out : str) :
  Repository.add json_dumps self stat_of walked file_paths entries fs
  = (Ok out, entries', fs') ->
  Forall (fun p => working_path p = true) (calls walked file_paths) ->
  out = lit "Added " ++ Py.str_of_nat (length (calls walked file_paths))
        ++ lit " file(s) to staging area"
  /\ (forall p content,
        In p (calls walked file_paths) ->
        Fs.stat fs (Repository.path self </> p) = Some (File content) ->
        exists entry,
          Builtins.dict_get entries' p = Some entry
          /\ FileEntry.path entry = p
          /\ FileEntry.hash entry
             = Sha1.hexdigest (encoded (lit "blob") content))
  /\ (forall other, ~ In other (calls walked file_paths) ->
        Builtins.dict_get entries' other = Builtins.dict_get entries other)
  /\ (forall p, working_path p = true ->
        Fs.stat fs' (Repository.path self </> p)
        = Fs.stat fs (Repository.path self </> p)).
Proof.
  unfold Repository.add. intros Hadd Hwork.
  destruct (fst (Repository.is_repository self fs)) as [[|]|e];
    try discriminate.
  rewrite add_loop_calls in Hadd.
  destruct (Repository.add_each _ _ _ _ _ _ _)
    as [[[added|e] entries1] fs1] eqn:Hrun; [|discriminate].
  injection Hadd as <- <- <-.
  destruct (add_each_inv _ _ _ _ _ _ _ _ _ _ Hrun Hwork)
    as (-> & Hkeep & Hother & Hentry).
  split; [reflexivity|]. split; [assumption|]. split; [assumption|].
  intros p Hp. destruct (working_path_div self p Hp) as (c & rest & -> & Hc).
  now apply Hkeep.
Qed.


Lemma add_stages_files_witness :
  fst (fst example_add_all) = Ok (lit "Added 1 file(s) to staging area")
  /\ exists entry,
       Builtins.dict_get (snd (fst example_add_all)) (lit "a.txt") = Some entry
       /\ FileEntry.path entry = lit "a.txt"
       /\ FileEntry.hash entry = lit "b6fc4c620b67d95f953a5c1c1230aaab5db5a1b0".
Proof.
  assert (H : fst (fst example_add_all)
              = Ok (lit "Added 1 file(s) to staging area"))
    by (vm_compute; reflexivity).
  split; [exact H|].
  assert (Hadd : example_add_all
                 = (Ok (lit "Added 1 file(s) to staging area"),
                    snd (fst example_add_all), snd example_add_all)).
  { rewrite (triple_eta example_add_all) at 1. now rewrite H. }
  destruct (add_stages_files example_dumps example_repo
              (fun _ => example_stat) [lit "a.txt"] [lit "."] [] _
              example_worktree _ _ Hadd) as (_ & Hentry & _).
  - repeat constructor.
  - destruct (Hentry (lit "a.txt") (Codec.encode (lit "hello")))
      as (entry & Hget & Hpath & Hhash).
    + now left.
    + reflexivity.
    + exists entry. split; [exact Hget|]. split; [exact Hpath|].
      rewrite Hhash. vm_compute. reflexivity.
Defined.

